(** * CameraRecorder: a shallow embedding of the recording component

    The component of [src/App.jsx] is a React function component.  Its
    handlers are closures over the values of one render, they mutate
    refs and the module-level [memoryManager], and they call into the
    browser (camera, timers, recorder, object URLs).  The embedding
    keeps these three layers apart:

    - [Props]: the React state as one render sees it.  A handler reads
      its own render's values only, so every handler takes the [Props]
      it closed over as an argument;
    - [World]: the committed React state, the refs, the memory manager
      and the browser's side of things, threaded through every handler;
    - the browser's answers (does [getUserMedia] resolve, which
      permission state is reported, ...) are arguments of the handler
      that awaits them. *)

From Stdlib Require Import ZArith String Ascii List Bool Lia DecimalString.
From Stdlib Require Import DecimalPos DecimalZ.
From stdpp Require Import base decidable option list gmap sets strings.

Open Scope string_scope.
Open Scope list_scope.
Open Scope nat_scope.

(** ** JavaScript strings

    Strings are sequences of code units; the embedding uses the code
    units below 256, which is all the component's own literals need. *)

Module JsString.

(** White space and line terminators among the code units below 256,
    as [String.prototype.trim] classifies them. *)
Definition isWhiteSpace (c : ascii) : bool :=
  let n := N_of_ascii c in
  ((n =? 9) || (n =? 10) || (n =? 11) || (n =? 12) || (n =? 13)
   || (n =? 32) || (n =? 160))%N.

Fixpoint trimStart (s : string) : string :=
  match s with
  | EmptyString => EmptyString
  | String c r => if isWhiteSpace c then trimStart r else s
  end.

Fixpoint trimEnd (s : string) : string :=
  match s with
  | EmptyString => EmptyString
  | String c r =>
      match trimEnd r with
      | EmptyString => if isWhiteSpace c then EmptyString else String c EmptyString
      | r' => String c r'
      end
  end.

(** [s.trim()] *)
Definition trim (s : string) : string := trimStart (trimEnd s).

(** [a || b] on strings: the empty string is the only falsy one. *)
Definition orElse (a b : string) : string :=
  match a with
  | EmptyString => b
  | _ => a
  end.

(** [String(n)] for a safe integer [n] (one below 2^53 in absolute
    value: there every integer is a double, and is printed in plain
    decimal), as a template literal interpolates it.  The sliders of the
    component deliver integers. *)
Definition ofNumber (n : Z) : string := NilZero.string_of_int (Z.to_int n).

End JsString.

(** ** React state *)

(** The fifteen [useState] cells of [CameraRecorder]. *)
Record Props := mkProps {
  isRecording : bool;
  videoUrl : option positive;
  facingMode : string;
  isPreviewing : bool;
  filter : string;
  mirror : bool;
  crop : bool;
  isLoading : bool;
  error : option string;
  recordingTime : Z;
  videoQuality : string;
  brightness : Z;
  contrast : Z;
  saturation : Z;
  videoSize : option N
}.

(** The initial values passed to [useState]. *)
Definition initialProps : Props :=
  {| isRecording := false; videoUrl := None; facingMode := "user";
     isPreviewing := false; filter := "none"; mirror := false;
     crop := false; isLoading := false; error := None;
     recordingTime := 0; videoQuality := "1080p"; brightness := 100;
     contrast := 100; saturation := 100; videoSize := None |}.

(** ** Filter expression *)

Definition applyFilters (p : Props) : string :=
  let filterString := "" in
  let filterString :=
    if negb (String.eqb (filter p) "none")
    then filterString +:+ filter p +:+ " " else filterString in
  let filterString :=
    if negb (brightness p =? 100)%Z
    then filterString +:+ "brightness(" +:+ JsString.ofNumber (brightness p) +:+ "%) "
    else filterString in
  let filterString :=
    if negb (contrast p =? 100)%Z
    then filterString +:+ "contrast(" +:+ JsString.ofNumber (contrast p) +:+ "%) "
    else filterString in
  let filterString :=
    if negb (saturation p =? 100)%Z
    then filterString +:+ "saturate(" +:+ JsString.ofNumber (saturation p) +:+ "%) "
    else filterString in
  JsString.orElse (JsString.trim filterString) "none".

(** ** Browser objects *)

(** Every object the browser hands out (a media stream, a blob, an
    object URL, a timer or animation-frame id, a worker) has an identity
    of its own.  Identities are positive numbers, which also makes the
    ids of timers and animation frames truthy, as the HTML standard has
    them. *)
Definition Handle : Type := positive.

(** A thrown value, with the two fields the handlers read. *)
Record Error := mkError { err_name : string; err_message : string }.

(** How the browser answers a call that may throw or a promise that is
    awaited. *)
Inductive Outcome (A : Type) : Type :=
| Resolved (a : A)
| Rejected (e : Error).
Arguments Resolved {A} a.
Arguments Rejected {A} e.

Inductive PermissionState := granted | denied | prompt.

Record Constraints := mkConstraints {
  c_facingMode : string;
  c_widthIdeal : Z;
  c_heightIdeal : Z;
  c_frameRateIdeal : Z;
  c_frameRateMax : Z
}.

Definition getVideoConstraints (p : Props) : Constraints :=
  {| c_facingMode := facingMode p;
     c_widthIdeal :=
       if String.eqb (videoQuality p) "1080p" then 1920
       else if String.eqb (videoQuality p) "720p" then 1280 else 640;
     c_heightIdeal :=
       if String.eqb (videoQuality p) "1080p" then 1080
       else if String.eqb (videoQuality p) "720p" then 720 else 480;
     c_frameRateIdeal := 30;
     c_frameRateMax := 60 |}.

Record RecorderOptions := mkOptions {
  mimeType : string;
  videoBitsPerSecond : Z
}.

Inductive RecorderState := inactive | recording | paused.

Record MediaRecorder := mkRecorder {
  rec_stream : Handle;
  rec_options : RecorderOptions;
  rec_state : RecorderState
}.

(** The closures the component hands to [setTimeout].  Each one carries
    the render it was created in. *)
Inductive Task :=
| RetryPreview (p : Props)    (* the retry in [startPreview]'s catch block *)
| RestartPreview (p : Props)  (* [() => startPreview()] in [switchCamera] *)
| NextFrame (p : Props)       (* the throttle at the end of [draw] *)
| CollectGarbage.             (* [() => window.gc()] in [onstop] *)

(** Calls into the browser, in the order they are made. *)
Inductive Effect :=
| GetUserMedia (c : Constraints)
| PermissionsQuery (name : string)
| StopTracks (stream : Handle)
| VideoPlay
| RequestAnimationFrame (id : Handle)
| CancelAnimationFrame (id : Handle)
| SetTimeout (id : Handle) (delay : Z)
| SetInterval (id : Handle) (delay : Z)
| ClearInterval (id : Handle)
| NewBlob (blob : Handle)
| CreateObjectURL (url : Handle)
| RevokeObjectURL (url : Handle)
| NewWorker (worker : Handle) (url : Handle)
| TerminateWorker (worker : Handle)
| NewMediaRecorder (stream : Handle) (o : RecorderOptions)
| RecorderStart (timeslice : Z)
| RecorderStop
| DrawFrame (offscreen : bool) (filterExpr : string) (mirrored : bool)
| CopyToCanvas
| Gc.

(** ** The world a handler runs in *)

Record Refs := mkRefs {
  mediaRecorderRef : option MediaRecorder;
  videoStreamRef : option Handle;
  recordedChunks : list Handle;
  canvasRef : option (Z * Z);          (* the canvas element, by its size *)
  ctxRef : bool;                       (* whether a 2d context is stored *)
  animationFrameRef : option Handle;
  recordingIntervalRef : option Handle;
  videoWorkerRef : option Handle;
  offscreenCanvasRef : option (Z * Z)  (* the offscreen canvas, by its size *)
}.

(** The module-level [memoryManager]: two [Set]s keyed by object
    identity. *)
Record MemoryManager := mkMemoryManager {
  chunks : gset Handle;
  urls : gset Handle
}.

(** The [<video>] element behind [videoRef]. *)
Record VideoElement := mkVideo {
  srcObject : option Handle;
  loadedmetadata : list Props   (* the [draw] closures added as listeners *)
}.

Record Browser := mkBrowser {
  nextHandle : Handle;           (* the next identity to hand out *)
  blobs : gmap Handle N;         (* size of every blob created *)
  liveStreams : gset Handle;     (* streams whose tracks still run *)
  objectUrls : gset Handle;      (* object URLs created and not revoked *)
  timeouts : gmap Handle Task;   (* pending [setTimeout] callbacks *)
  intervals : gset Handle;       (* running [setInterval] timers *)
  frames : gmap Handle Props;    (* pending animation-frame [draw] closures *)
  log : list Effect              (* every call made so far, oldest first *)
}.

(** What the platform offers; fixed for the life of the page. *)
Record Platform := mkPlatform {
  isTypeSupported : string → bool;
  windowGc : bool;
  windowOffscreenCanvas : bool
}.

Record World := mkWorld {
  platform : Platform;
  mounted : bool;
  state : Props;
  refs : Refs;
  memoryManager : MemoryManager;
  video : VideoElement;
  browser : Browser
}.

(** *** Field updates *)

Definition setIsRecording (v : bool) (p : Props) : Props :=
  mkProps v (videoUrl p) (facingMode p) (isPreviewing p) (filter p) (mirror p)
    (crop p) (isLoading p) (error p) (recordingTime p) (videoQuality p)
    (brightness p) (contrast p) (saturation p) (videoSize p).
Definition setVideoUrl (v : option Handle) (p : Props) : Props :=
  mkProps (isRecording p) v (facingMode p) (isPreviewing p) (filter p) (mirror p)
    (crop p) (isLoading p) (error p) (recordingTime p) (videoQuality p)
    (brightness p) (contrast p) (saturation p) (videoSize p).
Definition setFacingMode (v : string) (p : Props) : Props :=
  mkProps (isRecording p) (videoUrl p) v (isPreviewing p) (filter p) (mirror p)
    (crop p) (isLoading p) (error p) (recordingTime p) (videoQuality p)
    (brightness p) (contrast p) (saturation p) (videoSize p).
Definition setIsPreviewing (v : bool) (p : Props) : Props :=
  mkProps (isRecording p) (videoUrl p) (facingMode p) v (filter p) (mirror p)
    (crop p) (isLoading p) (error p) (recordingTime p) (videoQuality p)
    (brightness p) (contrast p) (saturation p) (videoSize p).
Definition setIsLoading (v : bool) (p : Props) : Props :=
  mkProps (isRecording p) (videoUrl p) (facingMode p) (isPreviewing p) (filter p)
    (mirror p) (crop p) v (error p) (recordingTime p) (videoQuality p)
    (brightness p) (contrast p) (saturation p) (videoSize p).
Definition setError (v : option string) (p : Props) : Props :=
  mkProps (isRecording p) (videoUrl p) (facingMode p) (isPreviewing p) (filter p)
    (mirror p) (crop p) (isLoading p) v (recordingTime p) (videoQuality p)
    (brightness p) (contrast p) (saturation p) (videoSize p).
(** [setRecordingTime] is also called with an updater function. *)
Definition setRecordingTime (f : Z → Z) (p : Props) : Props :=
  mkProps (isRecording p) (videoUrl p) (facingMode p) (isPreviewing p) (filter p)
    (mirror p) (crop p) (isLoading p) (error p) (f (recordingTime p))
    (videoQuality p) (brightness p) (contrast p) (saturation p) (videoSize p).
Definition setVideoSize (v : option N) (p : Props) : Props :=
  mkProps (isRecording p) (videoUrl p) (facingMode p) (isPreviewing p) (filter p)
    (mirror p) (crop p) (isLoading p) (error p) (recordingTime p) (videoQuality p)
    (brightness p) (contrast p) (saturation p) v.

(** The setters of the settings panel. *)
Definition setFilter (v : string) (p : Props) : Props :=
  mkProps (isRecording p) (videoUrl p) (facingMode p) (isPreviewing p) v (mirror p)
    (crop p) (isLoading p) (error p) (recordingTime p) (videoQuality p)
    (brightness p) (contrast p) (saturation p) (videoSize p).
Definition setVideoQuality (v : string) (p : Props) : Props :=
  mkProps (isRecording p) (videoUrl p) (facingMode p) (isPreviewing p) (filter p)
    (mirror p) (crop p) (isLoading p) (error p) (recordingTime p) v
    (brightness p) (contrast p) (saturation p) (videoSize p).
Definition setBrightness (v : Z) (p : Props) : Props :=
  mkProps (isRecording p) (videoUrl p) (facingMode p) (isPreviewing p) (filter p)
    (mirror p) (crop p) (isLoading p) (error p) (recordingTime p) (videoQuality p)
    v (contrast p) (saturation p) (videoSize p).
Definition setContrast (v : Z) (p : Props) : Props :=
  mkProps (isRecording p) (videoUrl p) (facingMode p) (isPreviewing p) (filter p)
    (mirror p) (crop p) (isLoading p) (error p) (recordingTime p) (videoQuality p)
    (brightness p) v (saturation p) (videoSize p).
Definition setSaturation (v : Z) (p : Props) : Props :=
  mkProps (isRecording p) (videoUrl p) (facingMode p) (isPreviewing p) (filter p)
    (mirror p) (crop p) (isLoading p) (error p) (recordingTime p) (videoQuality p)
    (brightness p) (contrast p) v (videoSize p).

Definition withMediaRecorder (v : option MediaRecorder) (r : Refs) : Refs :=
  mkRefs v (videoStreamRef r) (recordedChunks r) (canvasRef r) (ctxRef r)
    (animationFrameRef r) (recordingIntervalRef r) (videoWorkerRef r)
    (offscreenCanvasRef r).
Definition withVideoStream (v : option Handle) (r : Refs) : Refs :=
  mkRefs (mediaRecorderRef r) v (recordedChunks r) (canvasRef r) (ctxRef r)
    (animationFrameRef r) (recordingIntervalRef r) (videoWorkerRef r)
    (offscreenCanvasRef r).
Definition withRecordedChunks (v : list Handle) (r : Refs) : Refs :=
  mkRefs (mediaRecorderRef r) (videoStreamRef r) v (canvasRef r) (ctxRef r)
    (animationFrameRef r) (recordingIntervalRef r) (videoWorkerRef r)
    (offscreenCanvasRef r).
Definition withCanvas (v : option (Z * Z)) (r : Refs) : Refs :=
  mkRefs (mediaRecorderRef r) (videoStreamRef r) (recordedChunks r) v
    (ctxRef r) (animationFrameRef r) (recordingIntervalRef r)
    (videoWorkerRef r) (offscreenCanvasRef r).
Definition withCtx (v : bool) (r : Refs) : Refs :=
  mkRefs (mediaRecorderRef r) (videoStreamRef r) (recordedChunks r)
    (canvasRef r) v (animationFrameRef r) (recordingIntervalRef r)
    (videoWorkerRef r) (offscreenCanvasRef r).
Definition withAnimationFrame (v : option Handle) (r : Refs) : Refs :=
  mkRefs (mediaRecorderRef r) (videoStreamRef r) (recordedChunks r)
    (canvasRef r) (ctxRef r) v (recordingIntervalRef r) (videoWorkerRef r)
    (offscreenCanvasRef r).
Definition withRecordingInterval (v : option Handle) (r : Refs) : Refs :=
  mkRefs (mediaRecorderRef r) (videoStreamRef r) (recordedChunks r)
    (canvasRef r) (ctxRef r) (animationFrameRef r) v (videoWorkerRef r)
    (offscreenCanvasRef r).
Definition withVideoWorker (v : option Handle) (r : Refs) : Refs :=
  mkRefs (mediaRecorderRef r) (videoStreamRef r) (recordedChunks r)
    (canvasRef r) (ctxRef r) (animationFrameRef r) (recordingIntervalRef r) v
    (offscreenCanvasRef r).
Definition withOffscreenCanvas (v : option (Z * Z)) (r : Refs) : Refs :=
  mkRefs (mediaRecorderRef r) (videoStreamRef r) (recordedChunks r)
    (canvasRef r) (ctxRef r) (animationFrameRef r) (recordingIntervalRef r)
    (videoWorkerRef r) v.

Definition withChunks (v : gset Handle) (m : MemoryManager) : MemoryManager :=
  mkMemoryManager v (urls m).
Definition withUrls (v : gset Handle) (m : MemoryManager) : MemoryManager :=
  mkMemoryManager (chunks m) v.

Definition withNextHandle (v : Handle) (b : Browser) : Browser :=
  mkBrowser v (blobs b) (liveStreams b) (objectUrls b) (timeouts b)
    (intervals b) (frames b) (log b).
Definition withBlobs (v : gmap Handle N) (b : Browser) : Browser :=
  mkBrowser (nextHandle b) v (liveStreams b) (objectUrls b) (timeouts b)
    (intervals b) (frames b) (log b).
Definition withLiveStreams (v : gset Handle) (b : Browser) : Browser :=
  mkBrowser (nextHandle b) (blobs b) v (objectUrls b) (timeouts b)
    (intervals b) (frames b) (log b).
Definition withObjectUrls (v : gset Handle) (b : Browser) : Browser :=
  mkBrowser (nextHandle b) (blobs b) (liveStreams b) v (timeouts b)
    (intervals b) (frames b) (log b).
Definition withTimeouts (v : gmap Handle Task) (b : Browser) : Browser :=
  mkBrowser (nextHandle b) (blobs b) (liveStreams b) (objectUrls b) v
    (intervals b) (frames b) (log b).
Definition withIntervals (v : gset Handle) (b : Browser) : Browser :=
  mkBrowser (nextHandle b) (blobs b) (liveStreams b) (objectUrls b)
    (timeouts b) v (frames b) (log b).
Definition withFrames (v : gmap Handle Props) (b : Browser) : Browser :=
  mkBrowser (nextHandle b) (blobs b) (liveStreams b) (objectUrls b)
    (timeouts b) (intervals b) v (log b).
Definition withLog (v : list Effect) (b : Browser) : Browser :=
  mkBrowser (nextHandle b) (blobs b) (liveStreams b) (objectUrls b)
    (timeouts b) (intervals b) (frames b) v.

Definition onState (f : Props → Props) (w : World) : World :=
  mkWorld (platform w) (mounted w) (f (state w)) (refs w) (memoryManager w)
    (video w) (browser w).
Definition onRefs (f : Refs → Refs) (w : World) : World :=
  mkWorld (platform w) (mounted w) (state w) (f (refs w)) (memoryManager w)
    (video w) (browser w).
Definition onMemoryManager (f : MemoryManager → MemoryManager) (w : World) : World :=
  mkWorld (platform w) (mounted w) (state w) (refs w) (f (memoryManager w))
    (video w) (browser w).
Definition onVideo (f : VideoElement → VideoElement) (w : World) : World :=
  mkWorld (platform w) (mounted w) (state w) (refs w) (memoryManager w)
    (f (video w)) (browser w).
Definition onBrowser (f : Browser → Browser) (w : World) : World :=
  mkWorld (platform w) (mounted w) (state w) (refs w) (memoryManager w)
    (video w) (f (browser w)).
Definition withMounted (v : bool) (w : World) : World :=
  mkWorld (platform w) v (state w) (refs w) (memoryManager w) (video w)
    (browser w).

(** ** Handlers as computations

    A handler runs against the world and either completes or throws. *)

Definition M (A : Type) : Type := World → World * Outcome A.

Global Instance M_ret : MRet M := λ A a w, (w, Resolved a).
Global Instance M_bind : MBind M := λ A B f m w,
  match m w with
  | (w', Resolved a) => f a w'
  | (w', Rejected e) => (w', Rejected e)
  end.

Definition tryCatch {A} (body : M A) (handler : Error → M A) : M A := λ w,
  match body w with
  | (w', Rejected e) => handler e w'
  | done => done
  end.

Definition tryFinally {A} (body : M A) (final : M unit) : M A := λ w,
  match body w with
  | (w', r) =>
      match final w' with
      | (w'', Resolved _) => (w'', r)
      | (w'', Rejected e) => (w'', Rejected e)
      end
  end.

(** The world a computation leaves behind. *)
Definition exec {A} (m : M A) (w : World) : World := fst (m w).

Definition skip : M unit := mret tt.
Definition throw {A} (e : Error) : M A := λ w, (w, Rejected e).
Definition readWorld : M World := λ w, (w, Resolved w).
Definition update (f : World → World) : M unit := λ w, (f w, Resolved tt).
(** The browser's answer to a call that may throw. *)
Definition answer {A} (o : Outcome A) : M A := λ w, (w, o).
Definition when (b : bool) (m : M unit) : M unit := if b then m else skip.

Definition setState (f : Props → Props) : M unit := update (onState f).
Definition setRef (f : Refs → Refs) : M unit := update (onRefs f).
Definition emit (e : Effect) : M unit :=
  update (onBrowser (λ b, withLog (log b ++ [e]) b)).
Definition fresh : M Handle := λ w,
  (onBrowser (withNextHandle (Pos.succ (nextHandle (browser w)))) w,
   Resolved (nextHandle (browser w))).
Definition readRefs : M Refs := λ w, (w, Resolved (refs w)).
Definition readPlatform : M Platform := λ w, (w, Resolved (platform w)).

(** [list.forEach(f)] *)
Fixpoint forEach {A} (l : list A) (f : A → M unit) : M unit :=
  match l with
  | [] => skip
  | x :: rest => f x ;; forEach rest f
  end.

(** ** Browser calls *)

(** [navigator.mediaDevices.getUserMedia]: a resolved promise carries a
    stream of its own, with running tracks. *)
Definition getUserMedia (c : Constraints) (o : Outcome unit) : M Handle :=
  emit (GetUserMedia c) ;;
  answer o ;;
  stream ← fresh;
  update (onBrowser (λ b, withLiveStreams ({[stream]} ∪ liveStreams b) b)) ;;
  mret stream.

(** [stream.getTracks().forEach((track) => track.stop())] *)
Definition stopTracks (stream : Handle) : M unit :=
  emit (StopTracks stream) ;;
  update (onBrowser (λ b, withLiveStreams (liveStreams b ∖ {[stream]}) b)).

Definition requestAnimationFrame (callback : Props) : M Handle :=
  id ← fresh;
  emit (RequestAnimationFrame id) ;;
  update (onBrowser (λ b, withFrames (<[id:=callback]> (frames b)) b)) ;;
  mret id.

Definition cancelAnimationFrame (id : Handle) : M unit :=
  emit (CancelAnimationFrame id) ;;
  update (onBrowser (λ b, withFrames (delete id (frames b)) b)).

Definition setTimeout (callback : Task) (delay : Z) : M Handle :=
  id ← fresh;
  emit (SetTimeout id delay) ;;
  update (onBrowser (λ b, withTimeouts (<[id:=callback]> (timeouts b)) b)) ;;
  mret id.

Definition setInterval (delay : Z) : M Handle :=
  id ← fresh;
  emit (SetInterval id delay) ;;
  update (onBrowser (λ b, withIntervals ({[id]} ∪ intervals b) b)) ;;
  mret id.

Definition clearInterval (id : Handle) : M unit :=
  emit (ClearInterval id) ;;
  update (onBrowser (λ b, withIntervals (intervals b ∖ {[id]}) b)).

(** A blob comes into being, in a data event or through [new Blob]. *)
Definition allocBlob (size : N) : M Handle :=
  blob ← fresh;
  update (onBrowser (λ b, withBlobs (<[blob:=size]> (blobs b)) b)) ;;
  mret blob.

Definition newBlob (size : N) (o : Outcome unit) : M Handle :=
  answer o ;;
  blob ← allocBlob size;
  emit (NewBlob blob) ;;
  mret blob.

Definition createObjectURL (blob : Handle) : M Handle :=
  url ← fresh;
  emit (CreateObjectURL url) ;;
  update (onBrowser (λ b, withObjectUrls ({[url]} ∪ objectUrls b) b)) ;;
  mret url.

Definition revokeObjectURL (url : Handle) : M unit :=
  emit (RevokeObjectURL url) ;;
  update (onBrowser (λ b, withObjectUrls (objectUrls b ∖ {[url]}) b)).

(** [blob.size] of a blob assembled from [parts]. *)
Definition sizeOfParts (b : Browser) (parts : list Handle) : N :=
  foldr (λ part acc, (default 0 (blobs b !! part) + acc)%N) 0%N parts.

(** ** The memory manager *)

Module memoryManager.

Definition addChunk (chunk : Handle) : M unit :=
  update (onMemoryManager (λ m, withChunks ({[chunk]} ∪ chunks m) m)).

Definition addUrl (url : Handle) : M unit :=
  update (onMemoryManager (λ m, withUrls ({[url]} ∪ urls m) m)).

Definition deleteChunk (chunk : Handle) : M unit :=
  update (onMemoryManager (λ m, withChunks (chunks m ∖ {[chunk]}) m)).

(** The callback of [cleanup]'s loop: a failure to revoke is only
    logged to the console. *)
Definition revokeQuietly (url : Handle) : M unit :=
  tryCatch (revokeObjectURL url) (λ _, skip).

(** [cleanup()].  The registry is an unordered set here, so the URLs
    are revoked in the order [elements] lists them. *)
Definition cleanup : M unit :=
  w ← readWorld;
  forEach (elements (urls (memoryManager w))) revokeQuietly ;;
  update (onMemoryManager (withUrls ∅)) ;;
  update (onMemoryManager (withChunks ∅)) ;;
  when (windowGc (platform w)) (emit Gc).

End memoryManager.

(** ** The component *)

(** Length in bytes of the worker script of [createVideoWorker]. *)
Definition workerCodeSize : N := 1504.

Definition createVideoWorker : M Handle :=
  blob ← newBlob workerCodeSize (Resolved tt);
  url ← createObjectURL blob;
  worker ← fresh;
  emit (NewWorker worker url) ;;
  mret worker.

(** The body of the mount effect. *)
Definition mountEffect : M unit :=
  r ← readRefs;
  when (bool_decide (is_Some (canvasRef r))) (setRef (withCtx true)) ;;
  worker ← createVideoWorker;
  setRef (withVideoWorker (Some worker)) ;;
  pf ← readPlatform;
  when (windowOffscreenCanvas pf)
    (setRef (withOffscreenCanvas (Some (800, 600)%Z))).

(** The function the mount effect returns. *)
Definition unmountEffect : M unit :=
  r ← readRefs;
  match animationFrameRef r with
  | Some id => cancelAnimationFrame id
  | None => skip
  end ;;
  r ← readRefs;
  match recordingIntervalRef r with
  | Some id => clearInterval id
  | None => skip
  end ;;
  r ← readRefs;
  match videoWorkerRef r with
  | Some worker => emit (TerminateWorker worker)
  | None => skip
  end ;;
  memoryManager.cleanup.

Definition addRecordedChunk (chunk : Handle) : M unit :=
  setRef (λ r, withRecordedChunks (recordedChunks r ++ [chunk]) r) ;;
  memoryManager.addChunk chunk ;;
  r ← readRefs;
  when (1000 <? length (recordedChunks r))%nat
    (let oldChunks := take 500 (recordedChunks r) in
     setRef (withRecordedChunks (drop 500 (recordedChunks r))) ;;
     forEach oldChunks memoryManager.deleteChunk).

(** *** The frame renderer *)

Definition colourFiltersActive (p : Props) : bool :=
  negb (brightness p =? 100)%Z || negb (contrast p =? 100)%Z
  || negb (saturation p =? 100)%Z.

(** What reading a property of [null] throws.  The text of the message
    differs between engines; no handler reads the message of this
    error. *)
Definition typeError : Error :=
  mkError "TypeError" "Cannot read properties of null".

Definition sameSize (a b : Z * Z) : bool :=
  (fst a =? fst b)%Z && (snd a =? snd b)%Z.

(** One run of [draw], the closure [startPreview] builds over its render
    [p]; [dims] is what the video element reports as
    [videoWidth]/[videoHeight] at that moment.  The canvas calls that
    paint one frame are logged as one [DrawFrame]; the frame counter of
    [updatePerformanceMetrics] is not modelled.  [setTimeout] takes its
    delay as a whole number of milliseconds, so the [1000 / 30] of the
    code reaches the browser as 33.  No element of the page
    carries [canvasRef], so on the page [canvasRef.current] is [null]
    and the first access to the canvas throws. *)
Definition draw (p : Props) (dims : Z * Z) : M unit :=
  if (fst dims =? 0)%Z || (snd dims =? 0)%Z then
    id ← requestAnimationFrame p;
    setRef (withAnimationFrame (Some id))
  else
    r ← readRefs;
    match canvasRef r with
    | None => throw typeError
    | Some canvas =>
        when (negb (sameSize canvas dims)) (setRef (withCanvas (Some dims))) ;;
        targetIsOffscreen ←
          match offscreenCanvasRef r with
          | Some offscreen =>
              if colourFiltersActive p then
                when (negb (sameSize offscreen dims))
                  (setRef (withOffscreenCanvas (Some dims))) ;;
                mret true
              else mret false
          | None => mret false
          end;
        (if targetIsOffscreen || ctxRef r then skip else throw typeError) ;;
        emit (DrawFrame targetIsOffscreen (applyFilters p) (mirror p)) ;;
        when targetIsOffscreen
          ((if ctxRef r then skip else throw typeError) ;;
           emit CopyToCanvas) ;;
        when (isPreviewing p)
          (let targetFPS := 30%Z in
           let delay := (1000 / targetFPS)%Z in
           setTimeout (NextFrame p) delay ;; skip)
    end.

(** *** Device acquisition *)

(** What the browser answers during one [startPreview]. *)
Record PreviewAnswers := mkPreviewAnswers {
  ans_getUserMedia : Outcome unit;
  ans_play : Outcome unit;
  ans_camera : Outcome PermissionState;
  ans_microphone : Outcome PermissionState
}.

Definition isPermissionDenial (err : Error) : bool :=
  String.eqb (err_name err) "NotAllowedError"
  || String.eqb (err_name err) "PermissionDeniedError".

Definition isDenied (s : PermissionState) : bool :=
  match s with denied => true | _ => false end.

Definition addListener (p : Props) (v : VideoElement) : VideoElement :=
  mkVideo (srcObject v) (loadedmetadata v ++ [p]).
Definition withSrcObject (s : option Handle) (v : VideoElement) : VideoElement :=
  mkVideo s (loadedmetadata v).

(** What assigning to a property of [null] throws. *)
Definition detachedError : Error :=
  mkError "TypeError" "Cannot set properties of null (setting 'srcObject')".

(** [videoRef.current.srcObject = stream].  React attaches the video
    element to [videoRef] while the component is mounted and sets the
    ref back to [null] when it unmounts; from then on the assignment
    throws.  A timer armed before the unmount still runs its handler. *)
Definition setSrcObject (stream : Handle) : M unit :=
  w ← readWorld;
  if mounted w then update (onVideo (withSrcObject (Some stream)))
  else throw detachedError.

Definition deniedMessage : string :=
  "Camera and microphone access is required. Please enable permissions in your browser settings and try again.".
Definition checkFailedMessage : string :=
  "Unable to check permissions. Please ensure camera and microphone access is allowed and try again.".
Definition retryFailedMessage (retryErr : Error) : string :=
  "Please grant camera and microphone permissions and try again. Error: "
  +:+ err_message retryErr.
Definition previewFailedMessage (err : Error) : string :=
  "Failed to start preview: " +:+ err_message err.

(** The callback of the one-second timer in [startPreview]'s catch
    block.  It reads the first two answers only. *)
Definition retryPreview (p : Props) (a : PreviewAnswers) : M unit :=
  tryCatch
    (stream ← getUserMedia (getVideoConstraints p) (ans_getUserMedia a);
     setRef (withVideoStream (Some stream)) ;;
     setSrcObject stream ;;
     setState (setIsPreviewing true) ;;
     setState (setError None) ;;
     emit VideoPlay ;;
     answer (ans_play a) ;;
     update (onVideo (addListener p)))
    (λ retryErr, setState (setError (Some (retryFailedMessage retryErr)))).

Definition startPreview (p : Props) (a : PreviewAnswers) : M unit :=
  tryFinally
    (tryCatch
       (setState (setIsLoading true) ;;
        setState (setError None) ;;
        stream ← getUserMedia (getVideoConstraints p) (ans_getUserMedia a);
        setRef (withVideoStream (Some stream)) ;;
        setSrcObject stream ;;
        setState (setIsPreviewing true) ;;
        emit VideoPlay ;;
        answer (ans_play a) ;;
        update (onVideo (addListener p)))
       (λ err,
          if isPermissionDenial err then
            tryCatch
              (emit (PermissionsQuery "camera") ;;
               permissions ← answer (ans_camera a);
               emit (PermissionsQuery "microphone") ;;
               micPermissions ← answer (ans_microphone a);
               if isDenied permissions || isDenied micPermissions
               then setState (setError (Some deniedMessage))
               else setTimeout (RetryPreview p) 1000 ;; skip)
              (λ permErr, setState (setError (Some checkFailedMessage)))
          else setState (setError (Some (previewFailedMessage err)))))
    (setState (setIsLoading false)).

Definition stopPreview : M unit :=
  r ← readRefs;
  match videoStreamRef r with
  | Some stream => stopTracks stream
  | None => skip
  end ;;
  r ← readRefs;
  match animationFrameRef r with
  | Some id => cancelAnimationFrame id
  | None => skip
  end ;;
  setState (setIsPreviewing false).

(** *** Recording *)

Record RecordingAnswers := mkRecordingAnswers {
  ans_stream : Outcome unit;      (* [getUserMedia], when it is called *)
  ans_construct : Outcome unit;   (* [new MediaRecorder] *)
  ans_start : Outcome unit        (* [start(1000)] *)
}.

Definition preferredMimeType : string := "video/webm;codecs=vp9,opus".

Definition recordingFailedMessage (err : Error) : string :=
  "Failed to start recording: " +:+ err_message err.
Definition processingFailedMessage (err : Error) : string :=
  "Failed to process recording: " +:+ err_message err.

Definition withState (s : RecorderState) (m : MediaRecorder) : MediaRecorder :=
  mkRecorder (rec_stream m) (rec_options m) s.

Definition startRecording (p : Props) (a : RecordingAnswers) : M unit :=
  tryFinally
    (tryCatch
       (setState (setIsLoading true) ;;
        setState (setError None) ;;
        setState (setRecordingTime (λ _, 0%Z)) ;;
        r ← readRefs;
        stream ←
          match isPreviewing p, videoStreamRef r with
          | true, Some current => mret current
          | _, _ =>
              stream ← getUserMedia (getVideoConstraints p) (ans_stream a);
              setRef (withVideoStream (Some stream)) ;;
              mret stream
          end;
        let options :=
          {| mimeType := preferredMimeType;
             videoBitsPerSecond :=
               if String.eqb (videoQuality p) "1080p" then 5000000
               else if String.eqb (videoQuality p) "720p" then 2500000
               else 1000000 |} in
        pf ← readPlatform;
        let options :=
          if negb (isTypeSupported pf (mimeType options))
          then {| mimeType := "video/webm";
                  videoBitsPerSecond := videoBitsPerSecond options |}
          else options in
        emit (NewMediaRecorder stream options) ;;
        answer (ans_construct a) ;;
        setRef (withMediaRecorder (Some (mkRecorder stream options inactive))) ;;
        setRef (withRecordedChunks []) ;;
        emit (RecorderStart 1000) ;;
        answer (ans_start a) ;;
        setRef (λ r, withMediaRecorder (withState recording <$> mediaRecorderRef r) r) ;;
        setState (setIsRecording true) ;;
        id ← setInterval 1000;
        setRef (withRecordingInterval (Some id)))
       (λ err, setState (setError (Some (recordingFailedMessage err)))))
    (setState (setIsLoading false)).

(** [ondataavailable]: the event carries a blob of its own. *)
Definition ondataavailable (size : N) : M unit :=
  data ← allocBlob size;
  when (0 <? size)%N (addRecordedChunk data).

(** [onstop]; [o] is whether assembling the blob throws. *)
Definition onstop (o : Outcome unit) : M unit :=
  tryCatch
    (r ← readRefs;
     w ← readWorld;
     let size := sizeOfParts (browser w) (recordedChunks r) in
     blob ← newBlob size o;
     url ← createObjectURL blob;
     memoryManager.addUrl url ;;
     setState (setVideoUrl (Some url)) ;;
     setState (setVideoSize (Some size)) ;;
     setRef (withRecordedChunks []) ;;
     pf ← readPlatform;
     when (windowGc pf) (setTimeout CollectGarbage 1000 ;; skip))
    (λ err, setState (setError (Some (processingFailedMessage err)))).

(** The callback of the one-second recording interval. *)
Definition recordingTick : M unit :=
  setState (setRecordingTime (λ prev, (prev + 1)%Z)).

Definition stopRecording (p : Props) : M unit :=
  r ← readRefs;
  match mediaRecorderRef r with
  | Some recorder =>
      match rec_state recorder with
      | recording =>
          emit RecorderStop ;;
          setRef (withMediaRecorder (Some (withState inactive recorder)))
      | _ => skip
      end
  | None => skip
  end ;;
  r ← readRefs;
  match recordingIntervalRef r with
  | Some id => clearInterval id
  | None => skip
  end ;;
  r ← readRefs;
  match isPreviewing p, videoStreamRef r with
  | false, Some stream => stopTracks stream
  | _, _ => skip
  end ;;
  setState (setIsRecording false).

Definition switchCamera (p : Props) : M unit :=
  let newFacingMode :=
    if String.eqb (facingMode p) "user" then "environment" else "user" in
  setState (setFacingMode newFacingMode) ;;
  when (isPreviewing p)
    (stopPreview ;;
     setTimeout (RestartPreview p) 100 ;; skip).

(** ** The event loop

    Handlers run one at a time.  A click runs the handler of the latest
    render, that is with the committed state as its [Props]; a timer or
    an animation frame runs the closure that was scheduled, with the
    [Props] of the render that scheduled it.  The awaits inside one
    handler are answered within its run. *)

Inductive Event :=
| ClickStartPreview (a : PreviewAnswers)
| ClickStopPreview
| ClickStartRecording (a : RecordingAnswers)
| ClickStopRecording
| ClickSwitchCamera
| TimeoutFires (id : Handle) (a : PreviewAnswers)
| FrameFires (id : Handle) (dims : Z * Z)
| LoadedMetadata (dims : Z * Z)
| IntervalFires (id : Handle)
| DataAvailable (size : N)
| Stopped (o : Outcome unit)
| Unmount.

(** Which buttons the render of [p] shows enabled. *)
Definition showsStartPreview (p : Props) : bool :=
  negb (isPreviewing p) && negb (isRecording p) && negb (isLoading p).
Definition showsStopPreview (p : Props) : bool :=
  isPreviewing p && negb (isRecording p).
Definition showsStartRecording (p : Props) : bool :=
  negb (isRecording p) && negb (isLoading p).
Definition showsStopRecording (p : Props) : bool := isRecording p.
Definition showsSwitchCamera (p : Props) : bool :=
  negb (isRecording p || isLoading p).

Definition runTask (t : Task) (a : PreviewAnswers) : M unit :=
  match t with
  | RetryPreview p => retryPreview p a
  | RestartPreview p => startPreview p a
  | NextFrame p =>
      id ← requestAnimationFrame p;
      setRef (withAnimationFrame (Some id))
  | CollectGarbage => emit Gc
  end.

(** [step e w] is [None] when [e] cannot happen in [w]: the button is
    not on the page or is disabled, or the timer is not pending.  What a
    callback throws is reported to the console and goes no further; each
    listener of an event runs whether or not the one before it threw. *)
Definition step (e : Event) (w : World) : option World :=
  let clicked (shown : Props → bool) (handler : M unit) :=
    if mounted w && shown (state w) then Some (exec handler w) else None in
  match e with
  | ClickStartPreview a => clicked showsStartPreview (startPreview (state w) a)
  | ClickStopPreview => clicked showsStopPreview stopPreview
  | ClickStartRecording a =>
      clicked showsStartRecording (startRecording (state w) a)
  | ClickStopRecording => clicked showsStopRecording (stopRecording (state w))
  | ClickSwitchCamera => clicked showsSwitchCamera (switchCamera (state w))
  | TimeoutFires id a =>
      t ← timeouts (browser w) !! id;
      Some (exec (update (onBrowser (λ b, withTimeouts (delete id (timeouts b)) b)) ;;
                  runTask t a) w)
  | FrameFires id dims =>
      p ← frames (browser w) !! id;
      Some (exec (update (onBrowser (λ b, withFrames (delete id (frames b)) b)) ;;
                  draw p dims) w)
  | LoadedMetadata dims =>
      match srcObject (video w) with
      | Some _ =>
          Some (exec (forEach (loadedmetadata (video w))
                        (λ p, tryCatch (draw p dims) (λ _, skip))) w)
      | None => None
      end
  | IntervalFires id =>
      if decide (id ∈ intervals (browser w))
      then Some (exec recordingTick w) else None
  | DataAvailable size =>
      match mediaRecorderRef (refs w) with
      | Some _ => Some (exec (ondataavailable size) w)
      | None => None
      end
  | Stopped o =>
      match mediaRecorderRef (refs w) with
      | Some _ => Some (exec (onstop o) w)
      | None => None
      end
  | Unmount =>
      if mounted w then Some (withMounted false (exec unmountEffect w)) else None
  end.

Fixpoint run (es : list Event) (w : World) : option World :=
  match es with
  | [] => Some w
  | e :: rest => w' ← step e w; run rest w'
  end.

(** The page before the component is mounted, and just after.  The
    refs start at their [useRef] values; [canvasRef] stays [null], as
    the page renders no element that carries it. *)
Definition blankWorld (pf : Platform) : World :=
  {| platform := pf;
     mounted := false;
     state := initialProps;
     refs := mkRefs None None [] None false None None None None;
     memoryManager := mkMemoryManager ∅ ∅;
     video := mkVideo None [];
     browser := mkBrowser 1%positive ∅ ∅ ∅ ∅ ∅ ∅ [] |}.

Definition mountedWorld (pf : Platform) : World :=
  withMounted true (exec mountEffect (blankWorld pf)).

(** A browser that supports the preferred codec pair, without
    [window.gc], with [OffscreenCanvas]. *)
Definition chromium : Platform :=
  {| isTypeSupported := λ _, true;
     windowGc := false;
     windowOffscreenCanvas := true |}.

Definition allGranted : PreviewAnswers :=
  mkPreviewAnswers (Resolved tt) (Resolved tt) (Resolved granted) (Resolved granted).
Definition recorderWorks : RecordingAnswers :=
  mkRecordingAnswers (Resolved tt) (Resolved tt) (Resolved tt).

(** ** Sessions on the mounted page *)

(** The world a session of events leads to; the world itself when the
    session cannot happen. *)
Definition after (es : list Event) (w : World) : World := default w (run es w).

(** The user dismisses the permission prompt; the browser reports both
    permissions as still to be asked for. *)
Definition promptDismissed : PreviewAnswers :=
  mkPreviewAnswers (Rejected (mkError "NotAllowedError" "Permission dismissed"))
    (Resolved tt) (Resolved prompt) (Resolved prompt).

(** The camera is blocked in the browser's settings. *)
Definition cameraBlocked : PreviewAnswers :=
  mkPreviewAnswers (Rejected (mkError "NotAllowedError" "Permission denied"))
    (Resolved tt) (Resolved denied) (Resolved granted).

(** A recording of 1001 one-byte data events, started on the mounted
    page. *)
Definition longRecording : World :=
  foldl (λ w size, exec (ondataavailable size) w)
    (exec (startRecording initialProps recorderWorks) (mountedWorld chromium))
    (replicate 1001 1%N).

(** A recording on the mounted page during which the recorder delivers
    nothing but empty data events. *)
Definition emptyRecording : World :=
  after [ClickStartRecording recorderWorks; DataAvailable 0;
         ClickStopRecording; DataAvailable 0]
    (mountedWorld chromium).

(** A recording started on top of a running preview. *)
Definition recordingOverPreview : World :=
  after [ClickStartPreview allGranted; ClickStartRecording recorderWorks]
    (mountedWorld chromium).

(** A preview with a frame pending, during which a recording was made
    and stopped: a stream is live, an animation callback is pending, the
    recording interval is on record, and the artifact's URL is
    registered. *)
Definition busySession : list Event :=
  [ClickStartPreview allGranted; LoadedMetadata (0, 0)%Z;
   ClickStartRecording recorderWorks; DataAvailable 5;
   ClickStopRecording; DataAvailable 3; Stopped (Resolved tt)].

Definition busyWorld : World := after busySession (mountedWorld chromium).

(** A first [Start Preview] is rejected because the prompt is dismissed,
    which arms the retry; before the second has passed the user clicks
    [Start Preview] again and grants access; then the retry fires. *)
Definition doubleStart : list Event :=
  [ClickStartPreview promptDismissed; ClickStartPreview allGranted;
   TimeoutFires 4%positive allGranted].

Definition switchSession : list Event :=
  [ClickStartPreview allGranted; ClickSwitchCamera;
   TimeoutFires 5%positive allGranted].

(** ** Invariants and observations *)

(** The buffer is within its cap, holds no blob twice, and every blob
    in it is in the registry. *)
Definition chunkBufferOk (w : World) : Prop :=
  length (recordedChunks (refs w)) ≤ 1000
  ∧ NoDup (recordedChunks (refs w))
  ∧ ∀ x, x ∈ recordedChunks (refs w) → x ∈ chunks (memoryManager w).

(** Every blob in the buffer was handed out before. *)
Definition chunksAllocated (w : World) : Prop :=
  ∀ x, x ∈ recordedChunks (refs w) → (x < nextHandle (browser w))%positive.

(** The facing mode [switchCamera] moves to. *)
Definition oppositeMode (mode : string) : string :=
  if String.eqb mode "user" then "environment" else "user".

(** The facing modes asked of [getUserMedia], oldest first. *)
Definition requestedFacingModes (l : list Effect) : list string :=
  omap (λ e, match e with
             | GetUserMedia c => Some (c_facingMode c)
             | _ => None
             end) l.

(** ** JavaScript numbers

    Numbers are doubles.  The embedding writes a whole number as a [Z]
    and a quotient as a pair [(m, shift)] that stands for [m / 2^shift]. *)

Module JsNumber.

(** [Number.isSafeInteger(n)] *)
Definition isSafeInteger (n : Z) : bool :=
  (- 2 ^ 53 <? n)%Z && (n <? 2 ^ 53)%Z.

(** The integer nearest to [num / den], the even one of two that are
    equally near. *)
Definition roundHalfEven (num den : Z) : Z :=
  let q := (num / den)%Z in
  let r := (num mod den)%Z in
  if (2 * r <? den)%Z then q
  else if (den <? 2 * r)%Z then (q + 1)%Z
  else if Z.even q then q else (q + 1)%Z.

(** The [e] with [2^e ≤ a / b < 2^(e+1)], for positive [a] and [b]. *)
Definition exponentOf (a b : Z) : Z :=
  let c := (Z.log2 a - Z.log2 b)%Z in
  if (a * 2 ^ Z.max 0 (- c) <? b * 2 ^ Z.max 0 c)%Z then (c - 1)%Z else c.

(** [a / b] for whole [a ≥ 0] and [b > 0]: the double nearest to the
    quotient, which has 53 significant bits, so it is a multiple of
    [2^(e - 52)] where [e] is the quotient's exponent.  The quotients
    of whole numbers that are doubles are far from the subnormal range
    and from overflow, which are not modelled. *)
Definition divide (a b : Z) : Z * Z :=
  if (a =? 0)%Z then (0%Z, 0%Z)
  else
    let shift := (52 - exponentOf a b)%Z in
    (if (0 <=? shift)%Z then roundHalfEven (a * 2 ^ shift) b
     else roundHalfEven a (b * 2 ^ (- shift)),
     shift).

(** [Math.floor(x)], a whole number. *)
Definition floor (x : Z * Z) : Z :=
  let (m, shift) := x in
  if (0 <=? shift)%Z then (m / 2 ^ shift)%Z else (m * 2 ^ (- shift))%Z.

End JsNumber.

(** ** Display and download *)

(** The first [k] characters of [padString] repeated, continuing from
    [rest]. *)
Fixpoint fillTo (k : nat) (padString rest : string) : string :=
  match k with
  | O => ""
  | S k' =>
      match rest with
      | String c r => String c (fillTo k' padString r)
      | EmptyString =>
          match padString with
          | String c r => String c (fillTo k' padString r)
          | EmptyString => ""
          end
      end
  end.

(** [s.padStart(targetLength, padString)] *)
Definition padStart (targetLength : nat) (padString s : string) : string :=
  if targetLength <=? String.length s then s
  else fillTo (targetLength - String.length s) padString padString +:+ s.

(** [formatTime(seconds)], for a whole number of seconds that is not
    negative: [seconds / 60] is a division of doubles, [%] is exact and
    gives the remainder with the sign of the dividend, and both fields
    are printed as [ofNumber] prints them, which is how JavaScript
    prints them as long as they are safe integers. *)
Definition formatTime (seconds : Z) : string :=
  let mins := JsNumber.floor (JsNumber.divide seconds 60) in
  let secs := Z.rem seconds 60 in
  padStart 2 "0" (JsString.ofNumber mins) +:+ ":"
  +:+ padStart 2 "0" (JsString.ofNumber secs).

(** A decimal numeral read back as a number. *)
Definition readNumber (s : string) : option Z :=
  Z.of_int <$> NilZero.int_of_string s.

(** The anchor [downloadVideo] builds and clicks. *)
Record Download := mkDownload {
  href : Handle;
  download : string
}.

Definition downloadFailedMessage (err : Error) : string :=
  "Download failed: " +:+ err_message err.

(** [downloadVideo], run in the render [p]; [now] is [Date.now()] and
    [o] whether building or clicking the anchor throws.  The click is
    the result of the computation. *)
Definition downloadVideo (p : Props) (now : Z) (o : Outcome unit)
  : M (option Download) :=
  match videoUrl p with
  | None => mret None
  | Some url =>
      tryFinally
        (tryCatch
           (setState (setIsLoading true) ;;
            answer o ;;
            mret (Some (mkDownload url
                          ("recording-" +:+ JsString.ofNumber now +:+ ".webm"))))
           (λ err,
              setState (setError (Some (downloadFailedMessage err))) ;;
              mret None))
        (setState (setIsLoading false))
  end.

(** The [Download Video] button is rendered with the artifact and
    disabled while loading. *)
Definition showsDownload (p : Props) : bool :=
  bool_decide (is_Some (videoUrl p)) && negb (isLoading p).

(** ** What a handler touches *)

(** The recording and its artifact. *)
Definition recordingSide (w : World) :=
  (mediaRecorderRef (refs w), recordedChunks (refs w),
   recordingIntervalRef (refs w), chunks (memoryManager w),
   urls (memoryManager w), blobs (browser w), objectUrls (browser w),
   intervals (browser w), isRecording (state w), recordingTime (state w),
   videoUrl (state w), videoSize (state w)).

(** The preview. *)
Definition previewSide (w : World) :=
  (videoStreamRef (refs w), animationFrameRef (refs w), video w,
   liveStreams (browser w), frames (browser w), isPreviewing (state w),
   facingMode (state w)).

(** What is set up at mount. *)
Definition fixtures (w : World) :=
  (platform w, mounted w, canvasRef (refs w), ctxRef (refs w),
   offscreenCanvasRef (refs w), videoWorkerRef (refs w)).

(** The settings, which no handler writes. *)
Definition settings (p : Props) :=
  (filter p, mirror p, crop p, videoQuality p, brightness p, contrast p,
   saturation p).

(** The effects that paint. *)
Definition paints (e : Effect) : bool :=
  match e with
  | DrawFrame _ _ _ | CopyToCanvas => true
  | _ => false
  end.

(** Nothing was painted so far, and there is no canvas to paint on. *)
Definition neverPainted (w : World) : Prop :=
  canvasRef (refs w) = None
  ∧ Forall (λ e, paints e = false) (log (browser w)).

(** The two facing modes the component moves between. *)
Definition validMode (mode : string) : Prop :=
  mode = "user" ∨ mode = "environment".

(** A step that keeps the fixtures and the settings, hands out handles
    in order, paints nothing if nothing was painted, keeps the facing
    mode among the two, and leaves no stream running but those that ran
    before and those it was handed. *)
Definition orderly (w w' : World) : Prop :=
  fixtures w' = fixtures w
  ∧ settings (state w') = settings (state w)
  ∧ (nextHandle (browser w) ≤ nextHandle (browser w'))%positive
  ∧ (Forall (λ e, paints e = false) (log (browser w)) →
     Forall (λ e, paints e = false) (log (browser w')))
  ∧ (validMode (facingMode (state w)) → validMode (facingMode (state w')))
  ∧ (∀ s, s ∈ liveStreams (browser w') →
       s ∈ liveStreams (browser w)
       ∨ (nextHandle (browser w) ≤ s < nextHandle (browser w'))%positive).

(** The recorder, its timer and the indicator. *)
Definition recordingControl (w : World) :=
  (mediaRecorderRef (refs w), recordingIntervalRef (refs w),
   intervals (browser w), isRecording (state w)).

(** The artifact and the URLs behind it. *)
Definition artifact (w : World) :=
  (urls (memoryManager w), objectUrls (browser w), videoUrl (state w),
   videoSize (state w)).

(** ** What holds throughout a session *)

(** Either a recording is on: the indicator is set, the recorder the
    ref holds was started, and the one interval that runs is the
    recording timer on record; or none is: the indicator is off, no
    interval runs and the recorder, if any, is inactive. *)
Definition recordingOk (w : World) : Prop :=
  (isRecording (state w) = true
   ∧ ∃ id recorder,
       recordingIntervalRef (refs w) = Some id
       ∧ intervals (browser w) = {[id]}
       ∧ mediaRecorderRef (refs w) = Some recorder
       ∧ rec_state recorder = recording)
  ∨ (isRecording (state w) = false
     ∧ intervals (browser w) = ∅
     ∧ ∀ recorder, mediaRecorderRef (refs w) = Some recorder →
                   rec_state recorder = inactive).

(** Every registered URL is alive, and the artifact shown is
    registered. *)
Definition artifactOk (w : World) : Prop :=
  urls (memoryManager w) ⊆ objectUrls (browser w)
  ∧ ∀ url, videoUrl (state w) = Some url → url ∈ urls (memoryManager w).

(** What holds of the page for as long as the component is mounted. *)
Definition sessionOk (w : World) : Prop :=
  mounted w = true →
  chunkBufferOk w ∧ chunksAllocated w
  ∧ artifactOk w
  ∧ recordingOk w
  ∧ neverPainted w
  ∧ validMode (facingMode (state w)).

(** Every running stream was handed out before. *)
Definition streamsAllocated (w : World) : Prop :=
  ∀ s, s ∈ liveStreams (browser w) → (s < nextHandle (browser w))%positive.

(** What holds of the page whether or not the component is still
    mounted: there is no canvas, nothing was painted, the settings are
    the initial ones, the facing mode is one of the two, and the next
    stream to be acquired is none of those that run. *)
Definition pageSteady (w : World) : Prop :=
  canvasRef (refs w) = None
  ∧ Forall (λ e, paints e = false) (log (browser w))
  ∧ settings (state w) = settings initialProps
  ∧ validMode (facingMode (state w))
  ∧ streamsAllocated w.

(** ** Counting ticks *)

Definition isTick (e : Event) : bool :=
  match e with IntervalFires _ => true | _ => false end.

Definition isStartRecording (e : Event) : bool :=
  match e with ClickStartRecording _ => true | _ => false end.

(** How often the recording timer fires in a session. *)
Definition ticks (es : list Event) : nat := length (List.filter isTick es).

(** ** More sessions *)

(** A recording on the mounted page with 1001 one-byte data events. *)
Definition overflowSession : list Event :=
  ClickStartRecording recorderWorks :: replicate 1001 (DataAvailable 1).

(** A preview whose video reports its dimensions. *)
Definition previewWithMetadata : list Event :=
  [ClickStartPreview allGranted; LoadedMetadata (1280, 720)%Z].

(** What follows a click on [Start Recording] on the mounted page: two
    ticks of the timer around a data event, then the stop. *)
Definition timedRecording : list Event :=
  [IntervalFires 5%positive; DataAvailable 5; IntervalFires 5%positive;
   ClickStopRecording; DataAvailable 3; Stopped (Resolved tt)].

(** The user dismisses the permission prompt, and the browser's
    Permissions API does not know the name "camera": the query is
    rejected. *)
Definition queryThrows : PreviewAnswers :=
  mkPreviewAnswers (Rejected (mkError "NotAllowedError" "Permission dismissed"))
    (Resolved tt)
    (Rejected (mkError "TypeError"
                 "'camera' is not a valid value for enumeration PermissionName."))
    (Resolved prompt).

(** No camera is attached. *)
Definition cameraMissing : PreviewAnswers :=
  mkPreviewAnswers (Rejected (mkError "NotFoundError" "Requested device not found"))
    (Resolved tt) (Resolved granted) (Resolved granted).

(** The browser hands out a stream and then refuses to build the
    recorder. *)
Definition recorderUnsupported : RecordingAnswers :=
  mkRecordingAnswers (Resolved tt)
    (Rejected (mkError "NotSupportedError" "mimeType is not supported"))
    (Resolved tt).

(** * Properties *)

(** ** Running a handler symbolically *)

Ltac unfold_monad :=
  cbv [exec mbind M_bind mret M_ret tryCatch tryFinally skip update answer when
       readRefs readPlatform readWorld setState setRef emit fresh throw].

(** Projections of updated worlds, reduced on demand. *)
Ltac simpl_world :=
  cbn [fst snd
       onState onRefs onMemoryManager onVideo onBrowser withMounted
       withMediaRecorder withVideoStream withRecordedChunks withAnimationFrame
       withCanvas withCtx
       withRecordingInterval withVideoWorker withOffscreenCanvas
       withChunks withUrls withNextHandle withBlobs withLiveStreams
       withObjectUrls withTimeouts withIntervals withFrames withLog
       withSrcObject addListener withState
       setIsRecording setVideoUrl setFacingMode setIsPreviewing setIsLoading
       setError setRecordingTime setVideoSize
       platform mounted state refs memoryManager video browser
       mediaRecorderRef videoStreamRef recordedChunks animationFrameRef
       canvasRef ctxRef
       recordingIntervalRef videoWorkerRef offscreenCanvasRef
       chunks urls srcObject loadedmetadata
       nextHandle blobs liveStreams objectUrls timeouts intervals frames log
       isTypeSupported windowGc windowOffscreenCanvas
       rec_stream rec_options rec_state mimeType videoBitsPerSecond
       ans_getUserMedia ans_play ans_camera ans_microphone
       ans_stream ans_construct ans_start
       isRecording videoUrl facingMode isPreviewing filter mirror crop
       isLoading error recordingTime videoQuality brightness contrast
       saturation videoSize].

(** A world taken apart into its fields, and a handler run on it down
    to the fields of the world it leaves. *)
Ltac destruct_world w := destruct w as [[] ? [] [] [] [] []].

(** The same with the two cases of [mounted], for the handlers that
    reach for the video element. *)
Ltac destruct_page w := destruct w as [[] [] [] [] [] [] []].

Ltac normalize_world :=
  cbv [exec mbind M_bind mret M_ret tryCatch tryFinally skip update answer when
       readRefs readPlatform readWorld setState setRef emit fresh throw fst snd
       isDenied orb setSrcObject
       getUserMedia stopTracks requestAnimationFrame cancelAnimationFrame
       setTimeout setInterval clearInterval allocBlob newBlob createObjectURL
       revokeObjectURL memoryManager.addChunk memoryManager.addUrl
       onState onRefs onMemoryManager onVideo onBrowser withMounted
       withMediaRecorder withVideoStream withRecordedChunks withAnimationFrame
       withCanvas withCtx
       withRecordingInterval withVideoWorker withOffscreenCanvas
       withChunks withUrls withNextHandle withBlobs withLiveStreams
       withObjectUrls withTimeouts withIntervals withFrames withLog
       withSrcObject addListener withState
       setIsRecording setVideoUrl setFacingMode setIsPreviewing setIsLoading
       setError setRecordingTime setVideoSize
       platform mounted state refs memoryManager video browser
       mediaRecorderRef videoStreamRef recordedChunks animationFrameRef
       canvasRef ctxRef
       recordingIntervalRef videoWorkerRef offscreenCanvasRef
       chunks urls srcObject loadedmetadata
       nextHandle blobs liveStreams objectUrls timeouts intervals frames log
       isTypeSupported windowGc windowOffscreenCanvas
       rec_stream rec_options rec_state mimeType videoBitsPerSecond
       ans_getUserMedia ans_play ans_camera ans_microphone
       ans_stream ans_construct ans_start
       isRecording videoUrl facingMode isPreviewing filter mirror crop
       isLoading error recordingTime videoQuality brightness contrast
       saturation videoSize].

Ltac run_handler := unfold_monad; simpl_world.

(** Closed decidable facts, by evaluation. *)
Ltac decide_closed :=
  match goal with
  | |- ?P => apply (bool_decide_eq_true_1 P); vm_compute; reflexivity
  end.

(** Sequencing after a computation that cannot throw. *)
Lemma exec_seq {A B} (m : M A) (k : M B) (w : World) :
  (∀ w0, ∃ a, snd (m w0) = Resolved a) →
  exec (m ;; k) w = exec k (exec m w).
Proof.
  intros H. destruct (H w) as [a Ha]. unfold exec. cbv [mbind M_bind].
  destruct (m w) as [w' [a'|e]]; cbn in *; [reflexivity|discriminate].
Qed.


(** ** Trimming *)

Section Trim.
Import JsString.

Lemma append_cons (c : ascii) (r t : string) :
  String c r +:+ t = String c (r +:+ t).
Proof. reflexivity. Qed.

Lemma append_assoc (s t u : string) : (s +:+ t) +:+ u = s +:+ t +:+ u.
Proof. induction s as [|c r IH]; [reflexivity|]. rewrite !append_cons. now f_equal. Qed.

Lemma trimEnd_app_space (s : string) : trimEnd (s +:+ " ") = trimEnd s.
Proof.
  induction s as [|c r IH]; [reflexivity|].
  rewrite append_cons. cbn [trimEnd]. now rewrite IH.
Qed.

Lemma trimEnd_app_kept (s t : string) :
  trimEnd t ≠ "" → trimEnd (s +:+ t) = s +:+ trimEnd t.
Proof.
  intros Ht. induction s as [|c r IH]; [reflexivity|].
  rewrite !append_cons. cbn [trimEnd]. rewrite IH.
  destruct (r +:+ trimEnd t) eqn:E; [|reflexivity].
  destruct r; [contradiction|discriminate].
Qed.

Lemma trim_app_space (s : string) : trim (s +:+ " ") = trim s.
Proof. unfold trim. now rewrite trimEnd_app_space. Qed.

(** A term that opens with a letter and closes with a parenthesis is
    what is left of it and the blank appended to it. *)
Lemma trim_term (name : string) (c : ascii) (arg : string) :
  isWhiteSpace c = false →
  trim (String c name +:+ arg +:+ "%) ") = String c name +:+ arg +:+ "%)".
Proof.
  intros Hc. unfold trim.
  rewrite <- append_assoc, trimEnd_app_kept by discriminate.
  change (trimEnd "%) ") with "%)". rewrite append_assoc, append_cons.
  cbn [trimStart]. now rewrite Hc.
Qed.

End Trim.

(** ** Filter expression composition *)

Section ApplyFilters.
Import JsString.

Lemma single_term (name : string) (c : ascii) (arg : string) :
  isWhiteSpace c = false →
  orElse (trim ("" +:+ String c name +:+ arg +:+ "%) ")) "none"
  = String c name +:+ arg +:+ "%)".
Proof.
  intros Hc. change ("" +:+ ?x) with x. rewrite trim_term by assumption.
  now rewrite append_cons.
Qed.

Lemma eqb_100 (n : Z) : n ≠ 100%Z → (n =? 100)%Z = false.
Proof. apply Z.eqb_neq. Qed.

Lemma eqb_none (s : string) : s ≠ "none" → String.eqb s "none" = false.
Proof. apply String.eqb_neq. Qed.

Example applyFilters_sample :
  applyFilters {| isRecording := false; videoUrl := None; facingMode := "user";
     isPreviewing := false; filter := "sepia(100%)"; mirror := false;
     crop := false; isLoading := false; error := None;
     recordingTime := 0; videoQuality := "1080p"; brightness := 120;
     contrast := 100; saturation := 0; videoSize := None |}
  = "sepia(100%) brightness(120%) saturate(0%)".
Proof. reflexivity. Qed.

(** A named filter that is a proper term (not blank, with no white
    space around it) comes back as it is. *)
Lemma applyFilters_proper_filter (p : Props) :
  filter p ≠ "none" → filter p ≠ "" → trim (filter p) = filter p →
  brightness p = 100%Z → contrast p = 100%Z → saturation p = 100%Z →
  applyFilters p = filter p.
Proof.
  intros Hf Hne Htrim Hb Hc Hs. unfold applyFilters.
  rewrite (eqb_none _ Hf), Hb, Hc, Hs. cbn [negb Z.eqb Pos.eqb].
  change ("" +:+ ?x) with x. rewrite trim_app_space, Htrim.
  destruct (filter p); [contradiction|reflexivity].
Qed.

(** The terms the filter select offers, "none" aside. *)
Example filter_options_proper :
  Forall (λ f, f ≠ "none" ∧ f ≠ "" ∧ trim f = f)
    ["grayscale(100%)"; "sepia(100%)"; "invert(100%)"; "blur(2px)";
     "hue-rotate(90deg)"].
Proof. repeat constructor; discriminate. Qed.

(** C2.  With every setting at its default the expression is "none".
    With brightness, contrast or saturation alone away from 100, at a
    safe integer as the sliders deliver them, the expression is exactly
    that setting's term.  With the named filter alone away from "none",
    at a proper term (not empty and with no white space around it, as
    every term the select offers is), the expression is exactly the
    filter's term. *)
Theorem applyFilters_one_setting (p : Props) :
  (filter p = "none" → brightness p = 100%Z → contrast p = 100%Z →
   saturation p = 100%Z → applyFilters p = "none")
  ∧ (filter p = "none" → brightness p ≠ 100%Z →
     JsNumber.isSafeInteger (brightness p) = true →
     contrast p = 100%Z → saturation p = 100%Z →
     applyFilters p = "brightness(" +:+ ofNumber (brightness p) +:+ "%)")
  ∧ (filter p = "none" → brightness p = 100%Z → contrast p ≠ 100%Z →
     JsNumber.isSafeInteger (contrast p) = true →
     saturation p = 100%Z →
     applyFilters p = "contrast(" +:+ ofNumber (contrast p) +:+ "%)")
  ∧ (filter p = "none" → brightness p = 100%Z → contrast p = 100%Z →
     saturation p ≠ 100%Z →
     JsNumber.isSafeInteger (saturation p) = true →
     applyFilters p = "saturate(" +:+ ofNumber (saturation p) +:+ "%)")
  ∧ (filter p ≠ "none" → filter p ≠ "" → trim (filter p) = filter p →
     brightness p = 100%Z → contrast p = 100%Z → saturation p = 100%Z →
     applyFilters p = filter p).
Proof.
  split; [|split; [|split; [|split]]].
  - unfold applyFilters. intros -> -> -> ->. reflexivity.
  - unfold applyFilters. intros -> Hb _ -> ->. rewrite (eqb_100 _ Hb).
    cbn [negb String.eqb Ascii.eqb Bool.eqb Z.eqb Pos.eqb].
    now apply single_term.
  - unfold applyFilters. intros -> -> Hc _ ->. rewrite (eqb_100 _ Hc).
    cbn [negb String.eqb Ascii.eqb Bool.eqb Z.eqb Pos.eqb].
    now apply single_term.
  - unfold applyFilters. intros -> -> -> Hs _. rewrite (eqb_100 _ Hs).
    cbn [negb String.eqb Ascii.eqb Bool.eqb Z.eqb Pos.eqb].
    now apply single_term.
  - apply applyFilters_proper_filter.
Qed.

Lemma applyFilters_one_setting_witness :
  applyFilters initialProps = "none"
  ∧ applyFilters (setBrightness 120 initialProps) = "brightness(120%)"
  ∧ applyFilters (setContrast 50 initialProps) = "contrast(50%)"
  ∧ applyFilters (setSaturation 0 initialProps) = "saturate(0%)"
  ∧ applyFilters (setFilter "grayscale(100%)" initialProps) = "grayscale(100%)".
Proof.
  split; [|split; [|split; [|split]]].
  - apply (proj1 (applyFilters_one_setting initialProps)); reflexivity.
  - apply (proj1 (proj2 (applyFilters_one_setting (setBrightness 120 initialProps))));
      [reflexivity | discriminate | reflexivity | reflexivity | reflexivity].
  - apply (proj1 (proj2 (proj2
      (applyFilters_one_setting (setContrast 50 initialProps)))));
      [reflexivity | reflexivity | discriminate | reflexivity | reflexivity].
  - apply (proj1 (proj2 (proj2 (proj2
      (applyFilters_one_setting (setSaturation 0 initialProps))))));
      [reflexivity | reflexivity | reflexivity | discriminate | reflexivity].
  - apply (proj2 (proj2 (proj2 (proj2
      (applyFilters_one_setting (setFilter "grayscale(100%)" initialProps))))));
      [discriminate | discriminate | reflexivity | reflexivity | reflexivity
      | reflexivity].
Defined.

End ApplyFilters.

(** ** The chunk buffer *)

Section ChunkBuffer.

Lemma forEach_deleteChunk (l : list Handle) (w : World) :
  exec (forEach l memoryManager.deleteChunk) w
  = onMemoryManager (λ m, withChunks (chunks m ∖ list_to_set l) m) w.
Proof.
  revert w. induction l as [|x l IH]; intros w.
  - destruct_world w. cbn [forEach]. normalize_world.
    rewrite list_to_set_nil, difference_empty_L. reflexivity.
  - cbn [forEach]. rewrite exec_seq by (intros; eexists; reflexivity).
    rewrite IH. destruct_world w. unfold memoryManager.deleteChunk.
    normalize_world.
    rewrite list_to_set_cons, difference_difference_l_L. reflexivity.
Qed.

(** What one append does to the world. *)
Lemma addRecordedChunk_exec (c : Handle) (w : World) :
  exec (addRecordedChunk c) w =
    let buf := recordedChunks (refs w) ++ [c] in
    let reg := {[c]} ∪ chunks (memoryManager w) in
    if (1000 <? length buf)%nat then
      onMemoryManager (withChunks (reg ∖ list_to_set (take 500 buf)))
        (onRefs (withRecordedChunks (drop 500 buf)) w)
    else onMemoryManager (withChunks reg) (onRefs (withRecordedChunks buf) w).
Proof.
  unfold addRecordedChunk, memoryManager.addChunk. run_handler.
  destruct (1000 <? _)%nat.
  - change (fst (forEach ?l ?f ?w0)) with (exec (forEach l f) w0).
    rewrite forEach_deleteChunk. destruct_world w. reflexivity.
  - destruct_world w. reflexivity.
Qed.

Lemma addRecordedChunk_browser (c : Handle) (w : World) :
  browser (exec (addRecordedChunk c) w) = browser w.
Proof. rewrite addRecordedChunk_exec. cbv zeta. now destruct (_ <? _)%nat. Qed.

Lemma addRecordedChunk_preserves (c : Handle) (w : World) :
  c ∉ recordedChunks (refs w) → chunkBufferOk w →
  chunkBufferOk (exec (addRecordedChunk c) w).
Proof.
  intros Hc (Hlen & Hnd & Hsub). rewrite addRecordedChunk_exec. cbv zeta.
  set (buf := recordedChunks (refs w) ++ [c]).
  assert (Hbuf : NoDup buf).
  { apply NoDup_app. repeat split; [assumption| |apply NoDup_singleton].
    intros x Hx ->%list_elem_of_singleton. contradiction. }
  assert (Hreg : ∀ x, x ∈ buf → x ∈ {[c]} ∪ chunks (memoryManager w)).
  { intros x [Hx| ->%list_elem_of_singleton]%elem_of_app; set_solver. }
  assert (Hn : length buf = S (length (recordedChunks (refs w)))).
  { unfold buf. rewrite length_app. cbn. lia. }
  destruct (Nat.ltb_spec 1000 (length buf)) as [Hgt|Hle];
    unfold chunkBufferOk; simpl_world.
  - rewrite <- (take_drop 500 buf) in Hbuf.
    apply NoDup_app in Hbuf as (_ & Hsep & Hdrop).
    repeat split; [rewrite length_drop; lia | assumption |].
    intros x Hx. apply elem_of_difference. split.
    + apply Hreg. rewrite <- (take_drop 500 buf). apply elem_of_app. now right.
    + rewrite elem_of_list_to_set. intros Hin. exact (Hsep x Hin Hx).
  - repeat split; [lia | assumption | assumption].
Qed.

(** Appending blobs that are all different from one another and from
    those in the buffer keeps the buffer in order. *)
Lemma addRecordedChunk_sequence (cs : list Handle) (w : World) :
  NoDup (recordedChunks (refs w) ++ cs) →
  length (recordedChunks (refs w)) ≤ 1000 →
  (∀ x, x ∈ recordedChunks (refs w) → x ∈ chunks (memoryManager w)) →
  chunkBufferOk (foldl (λ w c, exec (addRecordedChunk c) w) w cs).
Proof.
  intros Hnd Hlen Hsub.
  assert (Hok : chunkBufferOk w).
  { repeat split; [assumption| |assumption]. now apply NoDup_app in Hnd as (? & _). }
  assert (Hnew : NoDup cs ∧ ∀ x, x ∈ cs → x ∉ recordedChunks (refs w)).
  { apply NoDup_app in Hnd as (_ & Hsep & Hcs). split; [assumption|].
    intros x Hx Hin. exact (Hsep x Hin Hx). }
  clear Hnd Hlen Hsub. revert w Hok Hnew.
  induction cs as [|c cs IH]; intros w Hok [Hcs Hsep]; [assumption|].
  cbn [foldl]. apply NoDup_cons in Hcs as [Hc Hcs].
  apply IH; [apply addRecordedChunk_preserves; [|assumption]|split; [assumption|]].
  - apply Hsep. left.
  - intros x Hx. rewrite addRecordedChunk_exec. cbv zeta.
    assert (Hx' : x ∉ recordedChunks (refs w) ++ [c]).
    { intros [Hin| ->%list_elem_of_singleton]%elem_of_app; [|contradiction].
      apply (Hsep x); [now right|assumption]. }
    destruct (_ <? _)%nat; simpl_world; [|assumption].
    intros Hin. apply Hx'. rewrite <- (take_drop 500 (_ ++ _)).
    apply elem_of_app. now right.
Qed.

(** A data event first brings its blob into being, then appends it
    unless it is empty. *)
Lemma ondataavailable_exec (size : N) (w : World) :
  exec (ondataavailable size) w =
    let data := nextHandle (browser w) in
    let w1 :=
      onBrowser (λ b, withBlobs (<[data:=size]> (blobs b))
                        (withNextHandle (Pos.succ data) b)) w in
    if (0 <? size)%N then exec (addRecordedChunk data) w1 else w1.
Proof.
  unfold ondataavailable, allocBlob. run_handler.
  destruct (0 <? size)%N; reflexivity.
Qed.

Lemma ondataavailable_preserves (size : N) (w : World) :
  chunkBufferOk w ∧ chunksAllocated w →
  chunkBufferOk (exec (ondataavailable size) w)
  ∧ chunksAllocated (exec (ondataavailable size) w).
Proof.
  intros [Hok Halloc]. rewrite ondataavailable_exec. cbv zeta.
  set (data := nextHandle (browser w)).
  set (w1 := onBrowser _ w).
  assert (Hok1 : chunkBufferOk w1) by exact Hok.
  assert (Halloc1 : ∀ x, x ∈ recordedChunks (refs w1) → (x < data)%positive)
    by exact Halloc.
  destruct (0 <? size)%N.
  - split.
    + apply addRecordedChunk_preserves; [|assumption].
      intros Hin. specialize (Halloc1 _ Hin). lia.
    + intros x. unfold chunksAllocated. rewrite addRecordedChunk_browser.
      rewrite addRecordedChunk_exec. cbv zeta.
      assert (Hall : ∀ y, y ∈ recordedChunks (refs w1) ++ [data] →
                          (y < Pos.succ data)%positive).
      { intros y [Hy| ->%list_elem_of_singleton]%elem_of_app;
          [specialize (Halloc1 _ Hy)|]; lia. }
      destruct (_ <? _)%nat; simpl_world; intros Hx; apply Hall; [|assumption].
      rewrite <- (take_drop 500 (_ ++ _)). apply elem_of_app. now right.
  - split; [assumption|]. intros x Hx. specialize (Halloc1 x Hx).
    unfold w1. simpl_world. lia.
Qed.

Lemma dataavailable_sequence (sizes : list N) (w : World) :
  chunkBufferOk w ∧ chunksAllocated w →
  chunkBufferOk (foldl (λ w size, exec (ondataavailable size) w) w sizes).
Proof.
  revert w. induction sizes as [|size sizes IH]; intros w H; [apply H|].
  cbn [foldl]. apply IH. now apply ondataavailable_preserves.
Qed.

(** C1.  An append that takes the buffer past 1000 chunks leaves the
    chunks after the oldest 500 in the buffer and none of the oldest 500
    in the registry; any other append only adds the chunk to both.
    Hence, from the empty buffer a recording starts with, after every
    sequence of data events the buffer holds at most 1000 chunks and
    each of them is in the registry. *)
Theorem chunk_buffer_compaction :
  (∀ (c : Handle) (w : World),
     let buf := recordedChunks (refs w) ++ [c] in
     let w' := exec (addRecordedChunk c) w in
     (1000 < length buf →
      recordedChunks (refs w') = drop 500 buf
      ∧ ∀ x, x ∈ take 500 buf → x ∉ chunks (memoryManager w'))
     ∧ (length buf ≤ 1000 →
        recordedChunks (refs w') = buf
        ∧ chunks (memoryManager w') = {[c]} ∪ chunks (memoryManager w)))
  ∧ (∀ (sizes : list N) (w : World),
       recordedChunks (refs w) = [] →
       let w' := foldl (λ w size, exec (ondataavailable size) w) w sizes in
       length (recordedChunks (refs w')) ≤ 1000
       ∧ ∀ x, x ∈ recordedChunks (refs w') → x ∈ chunks (memoryManager w')).
Proof.
  split.
  - intros c w buf w'. unfold w'. rewrite addRecordedChunk_exec. cbv zeta.
    fold buf. split; intros Hlen.
    + apply Nat.ltb_lt in Hlen. rewrite Hlen. simpl_world.
      split; [reflexivity|]. intros x Hx [_ Hn]%elem_of_difference.
      apply Hn. now apply elem_of_list_to_set.
    + apply Nat.ltb_ge in Hlen. rewrite Hlen. simpl_world. now split.
  - intros sizes w Hempty w'.
    assert (H : chunkBufferOk w') ; [|destruct H as (? & _ & ?); now split].
    apply dataavailable_sequence. unfold chunkBufferOk, chunksAllocated.
    rewrite Hempty. cbn [length]. repeat split;
      [lia | apply NoDup_nil_2 | intros x Hx | intros x Hx];
      now apply elem_of_nil in Hx.
Qed.

Lemma chunk_buffer_compaction_witness :
  recordedChunks (refs (exec (startRecording initialProps recorderWorks)
                          (mountedWorld chromium))) = []
  ∧ length (recordedChunks (refs longRecording)) ≤ 1000
  ∧ ∀ x, x ∈ recordedChunks (refs longRecording) →
         x ∈ chunks (memoryManager longRecording).
Proof.
  split; [reflexivity|].
  apply (proj2 chunk_buffer_compaction (replicate 1001 1%N)). reflexivity.
Defined.

(** The 1001st event is the one that compacts: 501 chunks are left. *)
Example longRecording_compacted :
  length (recordedChunks (refs longRecording)) = 501
  ∧ size (chunks (memoryManager longRecording)) = 501.
Proof. vm_compute. split; reflexivity. Qed.

(** The registry is keyed by the identity of the blob, and the bound on
    untracked chunks rests on data events never delivering the same blob
    twice: were one and the same blob appended until the buffer
    overflows, the copies that stay in the buffer would be left out of
    the registry. *)
Remark addRecordedChunk_same_blob :
  let w := foldl (λ w c, exec (addRecordedChunk c) w)
             (mountedWorld chromium) (replicate 1001 7%positive) in
  7%positive ∈ recordedChunks (refs w)
  ∧ 7%positive ∉ chunks (memoryManager w).
Proof. intros w. split; decide_closed. Qed.

End ChunkBuffer.

(** ** Stopping a recording *)

Section Artifact.

(** What [onstop] does when assembling the blob does not throw. *)
Lemma onstop_exec (w : World) :
  exec (onstop (Resolved tt)) w =
    let size := sizeOfParts (browser w) (recordedChunks (refs w)) in
    let blob := nextHandle (browser w) in
    let url := Pos.succ blob in
    let w1 :=
      onRefs (withRecordedChunks [])
        (onState (λ p, setVideoSize (Some size) (setVideoUrl (Some url) p))
           (onMemoryManager (λ m, withUrls ({[url]} ∪ urls m) m)
              (onBrowser
                 (λ b, withObjectUrls ({[url]} ∪ objectUrls b)
                         (withLog (log b ++ [NewBlob blob; CreateObjectURL url])
                            (withNextHandle (Pos.succ url)
                               (withBlobs (<[blob:=size]> (blobs b)) b)))) w))) in
    if windowGc (platform w)
    then exec (setTimeout CollectGarbage 1000) w1 else w1.
Proof.
  destruct_world w. unfold onstop. normalize_world.
  match goal with |- context [if ?b then _ else _] => destruct b end;
    repeat rewrite <- app_assoc; reflexivity.
Qed.

(** C6.  With no chunk in the buffer, [onstop] assembles a blob of size 0,
    records 0 as the size, and sets as the artifact's URL an object URL
    that is live and registered; no error is raised. *)
Theorem onstop_empty_recording (w : World) :
  recordedChunks (refs w) = [] →
  let w' := exec (onstop (Resolved tt)) w in
  let blob := nextHandle (browser w) in
  let url := Pos.succ blob in
  blobs (browser w') !! blob = Some 0%N
  ∧ videoSize (state w') = Some 0%N
  ∧ videoUrl (state w') = Some url
  ∧ url ∈ objectUrls (browser w')
  ∧ url ∈ urls (memoryManager w')
  ∧ error (state w') = error (state w)
  ∧ recordedChunks (refs w') = [].
Proof.
  intros Hempty w' blob url. unfold w'. rewrite onstop_exec, Hempty. cbv zeta.
  fold blob url. cbn [sizeOfParts foldr].
  destruct (windowGc (platform w)); unfold setTimeout; run_handler;
    (repeat split; [apply lookup_insert_eq | | ]; apply elem_of_union_l, elem_of_singleton; reflexivity).
Qed.

Lemma onstop_empty_recording_witness :
  recordedChunks (refs emptyRecording) = []
  ∧ videoSize (state (exec (onstop (Resolved tt)) emptyRecording)) = Some 0%N
  ∧ videoUrl (state (exec (onstop (Resolved tt)) emptyRecording))
    = Some (Pos.succ (nextHandle (browser emptyRecording))).
Proof.
  assert (Hempty : recordedChunks (refs emptyRecording) = [])
    by (vm_compute; reflexivity).
  split; [exact Hempty|].
  pose proof (onstop_empty_recording emptyRecording Hempty) as H.
  cbv zeta in H. destruct H as (_ & Hsize & Hurl & _). now split.
Defined.

Example emptyRecording_artifact :
  run [ClickStartRecording recorderWorks; DataAvailable 0;
       ClickStopRecording; DataAvailable 0; Stopped (Resolved tt)]
    (mountedWorld chromium)
  = Some (exec (onstop (Resolved tt)) emptyRecording)
  ∧ state (exec (onstop (Resolved tt)) emptyRecording)
    = setVideoSize (Some 0%N) (setVideoUrl (Some 9%positive)
        (setRecordingTime (λ _, 0%Z) initialProps)).
Proof. split; vm_compute; reflexivity. Qed.

End Artifact.

(** ** Starting a recording *)

Section StartRecording.

Lemma eqb_string_false (s t : string) : s ≠ t → String.eqb s t = false.
Proof. apply String.eqb_neq. Qed.

(** C7.  When the stream is at hand (the preview's, or a newly acquired
    one) and the recorder can be constructed, [startRecording] leaves
    the chunk buffer empty and a recorder whose MIME type is the
    preferred codec pair if the platform supports it and "video/webm"
    otherwise, and whose bitrate is 5000000 for "1080p", 2500000 for
    "720p" and 1000000 for any other quality.  If [start] does not
    throw either, the recorder is recording and [isRecording] is set. *)
Theorem startRecording_setup (p : Props) (a : RecordingAnswers) (w : World) :
  (isPreviewing p = true ∧ is_Some (videoStreamRef (refs w))
   ∨ ans_stream a = Resolved tt) →
  ans_construct a = Resolved tt →
  let w' := exec (startRecording p a) w in
  recordedChunks (refs w') = []
  ∧ ∃ recorder,
      mediaRecorderRef (refs w') = Some recorder
      ∧ (isTypeSupported (platform w) "video/webm;codecs=vp9,opus" = true →
         mimeType (rec_options recorder) = "video/webm;codecs=vp9,opus")
      ∧ (isTypeSupported (platform w) "video/webm;codecs=vp9,opus" = false →
         mimeType (rec_options recorder) = "video/webm")
      ∧ (videoQuality p = "1080p" →
         videoBitsPerSecond (rec_options recorder) = 5000000%Z)
      ∧ (videoQuality p = "720p" →
         videoBitsPerSecond (rec_options recorder) = 2500000%Z)
      ∧ (videoQuality p ≠ "1080p" → videoQuality p ≠ "720p" →
         videoBitsPerSecond (rec_options recorder) = 1000000%Z)
      ∧ (ans_start a = Resolved tt →
         rec_state recorder = recording ∧ isRecording (state w') = true).
Proof.
  intros Hstream Hctor w'. subst w'.
  destruct a as [stream ctor start]. cbn in Hstream, Hctor. subst ctor.
  destruct p as [pRec pUrl pFacing previewing pFilter pMirror pCrop pLoading
                 pError pTime quality pB pC pS pSize].
  destruct_world w. cbn in Hstream.
  assert (Hcases :
    (previewing = true ∧ ∃ s, videoStreamRef0 = Some s)
    ∨ ((previewing = false ∨ videoStreamRef0 = None) ∧ stream = Resolved tt)).
  { destruct Hstream as [[-> [s ->]]| ->].
    - left. split; [reflexivity|]. now exists s.
    - destruct previewing; [|right; split; [left|]; reflexivity].
      destruct videoStreamRef0 as [s|];
        [left; split; [reflexivity|]; now exists s
        |right; split; [right|]; reflexivity]. }
  clear Hstream.
  unfold startRecording, preferredMimeType.
  destruct Hcases as [[-> [s ->]]|[[-> | ->] ->]];
    [|destruct videoStreamRef0 | destruct previewing];
    destruct start as [[]|e]; normalize_world; cbn [fmap option_fmap option_map];
    destruct (isTypeSupported0 _) eqn:Hsup; cbn [negb];
    (split; [reflexivity|]);
    (eexists; split; [reflexivity|]);
    cbn [rec_options rec_state mimeType videoBitsPerSecond];
    (repeat split;
     first
       [ discriminate
       | intros ->; reflexivity
       | intros H1 H2; now rewrite (eqb_string_false _ _ H1), (eqb_string_false _ _ H2)
       | intros _; reflexivity
       | reflexivity ]).
Qed.

Lemma startRecording_setup_witness :
  recordedChunks
    (refs (exec (startRecording initialProps recorderWorks) (mountedWorld chromium)))
  = []
  ∧ ∃ recorder,
      mediaRecorderRef
        (refs (exec (startRecording initialProps recorderWorks) (mountedWorld chromium)))
      = Some recorder
      ∧ mimeType (rec_options recorder) = "video/webm;codecs=vp9,opus"
      ∧ videoBitsPerSecond (rec_options recorder) = 5000000%Z
      ∧ rec_state recorder = recording.
Proof.
  destruct (startRecording_setup initialProps recorderWorks (mountedWorld chromium)
              (or_intror eq_refl) eq_refl)
    as [Hbuf [recorder (Hrec & Hmime & _ & Hrate & _ & _ & Hstart)]].
  split; [exact Hbuf|]. exists recorder.
  split; [exact Hrec|]. split; [apply Hmime; reflexivity|].
  split; [apply Hrate; reflexivity|]. apply Hstart. reflexivity.
Defined.

(** A browser without the preferred codec pair, and a lower quality. *)
Example startRecording_fallback :
  let pf := mkPlatform (λ mime, String.eqb mime "video/webm") false false in
  mediaRecorderRef
    (refs (exec (startRecording (setVideoQuality "480p" initialProps) recorderWorks)
             (mountedWorld pf)))
  = Some (mkRecorder 4%positive (mkOptions "video/webm" 1000000%Z) recording).
Proof. vm_compute. reflexivity. Qed.

End StartRecording.

(** ** Stopping a recording: what is released *)

Section StopRecording.

(** C10.  [stopRecording] calls the recorder's [stop] exactly when there
    is a recorder whose state is "recording", clears the recording
    interval whenever one was set, and stops the stream's tracks exactly
    when its render is not previewing and a stream is held.  So on top
    of a preview the stream keeps running, and the preview's state, its
    video element and its pending frames are as before. *)
Theorem stopRecording_selective (p : Props) (w : World) :
  let w' := exec (stopRecording p) w in
  log (browser w') =
    log (browser w)
    ++ match mediaRecorderRef (refs w) with
       | Some recorder =>
           match rec_state recorder with
           | recording => [RecorderStop]
           | _ => []
           end
       | None => []
       end
    ++ match recordingIntervalRef (refs w) with
       | Some id => [ClearInterval id]
       | None => []
       end
    ++ match isPreviewing p, videoStreamRef (refs w) with
       | false, Some stream => [StopTracks stream]
       | _, _ => []
       end
  ∧ (∀ id, recordingIntervalRef (refs w) = Some id → id ∉ intervals (browser w'))
  ∧ (isPreviewing p = true →
     liveStreams (browser w') = liveStreams (browser w)
     ∧ isPreviewing (state w') = isPreviewing (state w)
     ∧ videoStreamRef (refs w') = videoStreamRef (refs w)
     ∧ animationFrameRef (refs w') = animationFrameRef (refs w)
     ∧ video w' = video w
     ∧ frames (browser w') = frames (browser w)
     ∧ timeouts (browser w') = timeouts (browser w))
  ∧ (isPreviewing p = false →
     ∀ stream, videoStreamRef (refs w) = Some stream →
               stream ∉ liveStreams (browser w'))
  ∧ isRecording (state w') = false.
Proof.
  intros w'. subst w'.
  destruct p as [pRec pUrl pFacing previewing pFilter pMirror pCrop pLoading
                 pError pTime quality pB pC pS pSize].
  destruct_world w. unfold stopRecording.
  destruct mediaRecorderRef0 as [[rs ro []]|];
    destruct recordingIntervalRef0 as [timer|];
    destruct previewing; destruct videoStreamRef0 as [held|];
    normalize_world; rewrite <- ?app_assoc, ?app_nil_r;
    (repeat split;
     first
       [ reflexivity
       | discriminate
       | intros id [= <-]; apply not_elem_of_difference; right;
         now apply elem_of_singleton
       | intros _ stream [= <-]; apply not_elem_of_difference; right;
         now apply elem_of_singleton ]).
Qed.

Lemma stopRecording_selective_witness :
  isPreviewing (state recordingOverPreview) = true
  ∧ recordingIntervalRef (refs recordingOverPreview) = Some 5%positive
  ∧ liveStreams (browser (exec (stopRecording (state recordingOverPreview))
                            recordingOverPreview))
    = liveStreams (browser recordingOverPreview)
  ∧ 5%positive ∉ intervals (browser (exec (stopRecording (state recordingOverPreview))
                                       recordingOverPreview)).
Proof.
  assert (Hprev : isPreviewing (state recordingOverPreview) = true)
    by (vm_compute; reflexivity).
  assert (Htimer : recordingIntervalRef (refs recordingOverPreview) = Some 5%positive)
    by (vm_compute; reflexivity).
  destruct (stopRecording_selective (state recordingOverPreview) recordingOverPreview)
    as (_ & Hclear & Hkeep & _).
  split; [exact Hprev|]. split; [exact Htimer|].
  split; [apply (Hkeep Hprev) | apply (Hclear _ Htimer)].
Defined.

Example recordingOverPreview_stopped :
  elements (liveStreams (browser (exec (stopRecording (state recordingOverPreview))
                                    recordingOverPreview)))
  = [4%positive].
Proof. vm_compute. reflexivity. Qed.

End StopRecording.

(** ** Teardown *)

Section Teardown.

Lemma forEach_revokeQuietly (l : list Handle) (w : World) :
  forEach l memoryManager.revokeQuietly w
  = (onBrowser (λ b, withObjectUrls (objectUrls b ∖ list_to_set l)
                       (withLog (log b ++ map RevokeObjectURL l) b)) w,
     Resolved tt).
Proof.
  revert w. induction l as [|url l IH]; intros w.
  - destruct_world w. cbn [forEach map]. normalize_world.
    rewrite list_to_set_nil, difference_empty_L, app_nil_r. reflexivity.
  - cbn [forEach map]. cbv [mbind M_bind].
    replace (memoryManager.revokeQuietly url w)
      with (exec (memoryManager.revokeQuietly url) w, Resolved tt)
      by (unfold memoryManager.revokeQuietly; normalize_world; reflexivity).
    rewrite IH. destruct_world w. unfold memoryManager.revokeQuietly.
    normalize_world.
    rewrite list_to_set_cons, difference_difference_l_L, <- app_assoc.
    reflexivity.
Qed.

(** What [cleanup] does to the world. *)
Lemma cleanup_exec (w : World) :
  exec memoryManager.cleanup w
  = onMemoryManager (λ _, mkMemoryManager ∅ ∅)
      (onBrowser
         (λ b, withObjectUrls (objectUrls b ∖ urls (memoryManager w))
                 (withLog (log b
                           ++ map RevokeObjectURL (elements (urls (memoryManager w)))
                           ++ (if windowGc (platform w) then [Gc] else []))
                    b)) w).
Proof.
  destruct_world w. unfold memoryManager.cleanup. normalize_world.
  rewrite forEach_revokeQuietly. normalize_world.
  rewrite list_to_set_elements_L.
  match goal with |- context [if ?b then _ else _] => destruct b end;
    normalize_world; rewrite <- ?app_assoc, ?app_nil_r; reflexivity.
Qed.

(** The registered URLs are all revoked, and both registries emptied. *)
Lemma cleanup_revokes_registered (w : World) :
  objectUrls (browser (exec memoryManager.cleanup w))
  = objectUrls (browser w) ∖ urls (memoryManager w)
  ∧ urls (memoryManager (exec memoryManager.cleanup w)) = ∅
  ∧ chunks (memoryManager (exec memoryManager.cleanup w)) = ∅.
Proof. rewrite cleanup_exec. repeat split. Qed.

(** C8, as amended.  The unmount cleanup cancels the pending animation
    callback, clears the recording interval, terminates the worker and
    then revokes the registered URLs, in this order.  [stopPreview]
    stops the tracks of the stream it holds and then cancels the pending
    animation callback; it clears no interval and revokes no URL. *)
Theorem teardown_order (w : World) :
  log (browser (exec unmountEffect w))
  = log (browser w)
    ++ match animationFrameRef (refs w) with
       | Some id => [CancelAnimationFrame id]
       | None => []
       end
    ++ match recordingIntervalRef (refs w) with
       | Some id => [ClearInterval id]
       | None => []
       end
    ++ match videoWorkerRef (refs w) with
       | Some worker => [TerminateWorker worker]
       | None => []
       end
    ++ map RevokeObjectURL (elements (urls (memoryManager w)))
    ++ (if windowGc (platform w) then [Gc] else [])
  ∧ log (browser (exec stopPreview w))
    = log (browser w)
      ++ match videoStreamRef (refs w) with
         | Some stream => [StopTracks stream]
         | None => []
         end
      ++ match animationFrameRef (refs w) with
         | Some id => [CancelAnimationFrame id]
         | None => []
         end
  ∧ objectUrls (browser (exec stopPreview w)) = objectUrls (browser w)
  ∧ intervals (browser (exec stopPreview w)) = intervals (browser w).
Proof.
  destruct_world w. split; [|split].
  - unfold unmountEffect, memoryManager.cleanup.
    destruct animationFrameRef0, recordingIntervalRef0, videoWorkerRef0;
      normalize_world; rewrite forEach_revokeQuietly; normalize_world;
      (match goal with |- context [if ?b then _ else _] => destruct b end);
      normalize_world; rewrite <- ?app_assoc, ?app_nil_r; reflexivity.
  - unfold stopPreview.
    destruct videoStreamRef0, animationFrameRef0; normalize_world;
      rewrite <- ?app_assoc, ?app_nil_r; reflexivity.
  - unfold stopPreview.
    destruct videoStreamRef0, animationFrameRef0; normalize_world;
      split; reflexivity.
Qed.

(** C8 as the specification words it fails in both teardown paths.
    Stopping the preview stops the tracks before it cancels the
    animation callback and leaves the registered URL alive; unmounting
    cancels and revokes but leaves the stream's tracks running. *)
Lemma teardown_order_counterexample :
  run (busySession ++ [ClickStopPreview]) (mountedWorld chromium)
  = Some (exec stopPreview busyWorld)
  ∧ log (browser (exec stopPreview busyWorld))
    = log (browser busyWorld)
      ++ [StopTracks 4%positive; CancelAnimationFrame 5%positive]
  ∧ 10%positive ∈ urls (memoryManager busyWorld)
  ∧ 10%positive ∈ objectUrls (browser (exec stopPreview busyWorld))
  ∧ run (busySession ++ [Unmount]) (mountedWorld chromium)
    = Some (withMounted false (exec unmountEffect busyWorld))
  ∧ log (browser (exec unmountEffect busyWorld))
    = log (browser busyWorld)
      ++ [CancelAnimationFrame 5%positive; ClearInterval 6%positive;
          TerminateWorker 3%positive; RevokeObjectURL 10%positive]
  ∧ 4%positive ∈ liveStreams (browser busyWorld)
  ∧ 4%positive ∈ liveStreams (browser (exec unmountEffect busyWorld)).
Proof.
  split; [vm_compute; reflexivity|].
  split; [vm_compute; reflexivity|].
  split; [decide_closed|]. split; [decide_closed|].
  split; [vm_compute; reflexivity|].
  split; [vm_compute; reflexivity|].
  split; decide_closed.
Qed.

(** ** Object URLs *)

(** C5 fails on the worker script's URL.  Mounting creates it and does
    not register it, so the unmount cleanup, which empties the registry,
    neither revokes it nor can any later step: it is still alive after
    teardown. *)
Theorem worker_url_outlives_cleanup (pf : Platform) :
  CreateObjectURL 2%positive ∈ log (browser (mountedWorld pf))
  ∧ (2%positive ∉ urls (memoryManager (mountedWorld pf)))
  ∧ (∃ w, run [Unmount] (mountedWorld pf) = Some w
          ∧ urls (memoryManager w) = ∅
          ∧ 2%positive ∈ objectUrls (browser w)
          ∧ RevokeObjectURL 2%positive ∉ log (browser w)).
Proof.
  destruct pf as [supported [] []];
    (split; [vm_compute; right; left|]);
    (split; [decide_closed|]);
    (eexists; split; [vm_compute; reflexivity|]);
    (split; [reflexivity|]);
    (split; [decide_closed|]);
    vm_compute; intros H;
    repeat (apply elem_of_cons in H as [H|H]; [discriminate|]);
    now apply elem_of_nil in H.
Qed.

End Teardown.

(** ** Device acquisition: failures *)

Section Acquisition.

(** The retry makes one attempt and arms no timer, whatever comes of
    the attempt. *)
Lemma retryPreview_once (p : Props) (a : PreviewAnswers) (w : World) :
  let w' := exec (runTask (RetryPreview p) a) w in
  timeouts (browser w') = timeouts (browser w)
  ∧ ∃ rest, log (browser w')
            = log (browser w) ++ GetUserMedia (getVideoConstraints p) :: rest
            ∧ ∀ e, e ∈ rest → e = VideoPlay.
Proof.
  intros w'. subst w'. destruct a as [[[]|e1] [[]|e2] camera microphone];
    destruct_page w; unfold runTask, retryPreview; normalize_world;
    (split; [reflexivity|]); rewrite <- ?app_assoc; cbn [app];
    eexists; (split; [reflexivity|]); intros e He;
    repeat (apply elem_of_cons in He as [He|He]; [exact He|]);
    now apply elem_of_nil in He.
Qed.

(** C3, as amended.  Let the acquisition of [startPreview] be rejected
    with [err].
    - Permission denial, both permission queries answer, and the camera
      or the microphone is reported "denied": the terminal message is
      set, no timer is armed and no further attempt is made.
    - Permission denial, both queries answer, and neither is reported
      "denied": no message is set and one timer of 1000 ms is armed with
      the retry, which makes one attempt and arms no timer.
    - Permission denial, and a permission query throws, the camera's or,
      after the camera's has answered, the microphone's: the message
      that permissions could not be checked is set, no timer is armed
      and no further attempt is made.
    - Any other error: its message is set at once, no timer is armed and
      no further attempt is made. *)
Theorem startPreview_failure
    (p : Props) (a : PreviewAnswers) (w : World) (err : Error) :
  ans_getUserMedia a = Rejected err →
  let w' := exec (startPreview p a) w in
  let attempt := GetUserMedia (getVideoConstraints p) in
  (isPermissionDenial err = true →
   (∀ camera microphone,
      ans_camera a = Resolved camera →
      ans_microphone a = Resolved microphone →
      (camera = denied ∨ microphone = denied →
       error (state w') = Some deniedMessage
       ∧ timeouts (browser w') = timeouts (browser w)
       ∧ log (browser w')
         = log (browser w)
           ++ [attempt; PermissionsQuery "camera"; PermissionsQuery "microphone"])
      ∧ (camera ≠ denied → microphone ≠ denied →
         error (state w') = None
         ∧ timeouts (browser w')
           = <[nextHandle (browser w) := RetryPreview p]> (timeouts (browser w))
         ∧ log (browser w')
           = log (browser w)
             ++ [attempt; PermissionsQuery "camera"; PermissionsQuery "microphone";
                 SetTimeout (nextHandle (browser w)) 1000]))
   ∧ (∀ permErr,
        ans_camera a = Rejected permErr →
        error (state w') = Some checkFailedMessage
        ∧ timeouts (browser w') = timeouts (browser w)
        ∧ log (browser w') = log (browser w) ++ [attempt; PermissionsQuery "camera"])
   ∧ (∀ camera permErr,
        ans_camera a = Resolved camera →
        ans_microphone a = Rejected permErr →
        error (state w') = Some checkFailedMessage
        ∧ timeouts (browser w') = timeouts (browser w)
        ∧ log (browser w')
          = log (browser w)
            ++ [attempt; PermissionsQuery "camera"; PermissionsQuery "microphone"]))
  ∧ (isPermissionDenial err = false →
     error (state w') = Some (previewFailedMessage err)
     ∧ timeouts (browser w') = timeouts (browser w)
     ∧ log (browser w') = log (browser w) ++ [attempt])
  ∧ liveStreams (browser w') = liveStreams (browser w)
  ∧ isLoading (state w') = false
  ∧ ∀ a' w0,
      timeouts (browser (exec (runTask (RetryPreview p) a') w0))
      = timeouts (browser w0)
      ∧ ∃ rest,
          log (browser (exec (runTask (RetryPreview p) a') w0))
          = log (browser w0) ++ attempt :: rest
          ∧ ∀ e, e ∈ rest → e = VideoPlay.
Proof.
  intros Hrejected w' attempt. subst w' attempt.
  destruct a as [acquired played cameraAnswer microphoneAnswer].
  cbn in Hrejected. subst acquired.
  split; [|split; [|split; [|split]]].
  - intros Hdenial. split; [|split].
    + intros camera microphone Hcamera Hmicrophone.
      cbn in Hcamera, Hmicrophone. subst cameraAnswer microphoneAnswer.
      destruct_world w. unfold startPreview. normalize_world.
      rewrite Hdenial. normalize_world.
      destruct camera, microphone; cbn [isDenied orb]; normalize_world;
        rewrite <- ?app_assoc; cbn [app];
        (split; [intros [H|H]; try discriminate H; repeat split
                |intros H1 H2; try contradiction; repeat split]).
    + intros permErr Hcamera. cbn in Hcamera. subst cameraAnswer.
      destruct_world w. unfold startPreview. normalize_world.
      rewrite Hdenial. normalize_world.
      rewrite <- ?app_assoc; cbn [app]. repeat split.
    + intros camera permErr Hcamera Hmicrophone.
      cbn in Hcamera, Hmicrophone. subst cameraAnswer microphoneAnswer.
      destruct_world w. unfold startPreview. normalize_world.
      rewrite Hdenial. normalize_world.
      rewrite <- ?app_assoc; cbn [app]. repeat split.
  - intros Hother. destruct_world w. unfold startPreview. normalize_world.
    rewrite Hother. normalize_world. repeat split.
  - destruct_world w. unfold startPreview. normalize_world.
    destruct (isPermissionDenial err); [|normalize_world; reflexivity].
    destruct cameraAnswer as [camera|]; [|normalize_world; reflexivity].
    destruct microphoneAnswer as [microphone|]; [|normalize_world; reflexivity].
    destruct camera, microphone; normalize_world; reflexivity.
  - destruct_world w. unfold startPreview. normalize_world.
    destruct (isPermissionDenial err); [|normalize_world; reflexivity].
    destruct cameraAnswer as [camera|]; [|normalize_world; reflexivity].
    destruct microphoneAnswer as [microphone|]; [|normalize_world; reflexivity].
    destruct camera, microphone; normalize_world; reflexivity.
  - intros a' w0. apply retryPreview_once.
Qed.

Lemma startPreview_failure_witness :
  (timeouts (browser (exec (startPreview initialProps promptDismissed)
                        (mountedWorld chromium)))
   = <[4%positive := RetryPreview initialProps]> ∅
   ∧ error (state (exec (startPreview initialProps promptDismissed)
                     (mountedWorld chromium))) = None)
  ∧ (timeouts (browser (exec (startPreview initialProps cameraBlocked)
                          (mountedWorld chromium))) = ∅
     ∧ error (state (exec (startPreview initialProps cameraBlocked)
                       (mountedWorld chromium))) = Some deniedMessage)
  ∧ (timeouts (browser (exec (startPreview initialProps queryThrows)
                          (mountedWorld chromium))) = ∅
     ∧ error (state (exec (startPreview initialProps queryThrows)
                       (mountedWorld chromium))) = Some checkFailedMessage)
  ∧ (timeouts (browser (exec (startPreview initialProps cameraMissing)
                          (mountedWorld chromium))) = ∅
     ∧ error (state (exec (startPreview initialProps cameraMissing)
                       (mountedWorld chromium)))
       = Some "Failed to start preview: Requested device not found").
Proof.
  split; [|split; [|split]].
  - destruct (startPreview_failure initialProps promptDismissed (mountedWorld chromium)
                _ eq_refl) as (Hdenial & _).
    destruct (Hdenial eq_refl) as (Hanswered & _).
    destruct (Hanswered prompt prompt eq_refl eq_refl) as (_ & Hretry).
    destruct Hretry as (Herror & Htimer & _); [discriminate|discriminate|].
    split; [exact Htimer | exact Herror].
  - destruct (startPreview_failure initialProps cameraBlocked (mountedWorld chromium)
                _ eq_refl) as (Hdenial & _).
    destruct (Hdenial eq_refl) as (Hanswered & _).
    destruct (Hanswered denied granted eq_refl eq_refl) as (Hterminal & _).
    destruct Hterminal as (Herror & Htimer & _); [now left|].
    split; [exact Htimer | exact Herror].
  - destruct (startPreview_failure initialProps queryThrows (mountedWorld chromium)
                _ eq_refl) as (Hdenial & _).
    destruct (Hdenial eq_refl) as (_ & Hthrown & _).
    destruct (Hthrown _ eq_refl) as (Herror & Htimer & _).
    split; [exact Htimer | exact Herror].
  - destruct (startPreview_failure initialProps cameraMissing (mountedWorld chromium)
                _ eq_refl) as (_ & Hother & _).
    destruct (Hother eq_refl) as (Herror & Htimer & _).
    split; [exact Htimer | exact Herror].
Defined.

(** C3 as the specification words it fails when a permission query
    throws.  The acquisition is rejected with a permission denial and
    neither permission is reported "denied", yet no retry is armed, no
    second attempt is made, and the message shown is that permissions
    could not be checked. *)
Lemma startPreview_failure_query_throws :
  ans_getUserMedia queryThrows
  = Rejected (mkError "NotAllowedError" "Permission dismissed")
  ∧ isPermissionDenial (mkError "NotAllowedError" "Permission dismissed") = true
  ∧ ans_camera queryThrows ≠ Resolved denied
  ∧ ans_microphone queryThrows ≠ Resolved denied
  ∧ run [ClickStartPreview queryThrows] (mountedWorld chromium)
    = Some (exec (startPreview initialProps queryThrows) (mountedWorld chromium))
  ∧ timeouts (browser (exec (startPreview initialProps queryThrows)
                         (mountedWorld chromium))) = ∅
  ∧ error (state (exec (startPreview initialProps queryThrows)
                    (mountedWorld chromium))) = Some checkFailedMessage
  ∧ log (browser (exec (startPreview initialProps queryThrows)
                    (mountedWorld chromium)))
    = log (browser (mountedWorld chromium))
      ++ [GetUserMedia (getVideoConstraints initialProps);
          PermissionsQuery "camera"]
  ∧ ∀ id a,
      step (TimeoutFires id a)
        (exec (startPreview initialProps queryThrows) (mountedWorld chromium))
      = None.
Proof.
  assert (Htimeouts :
    timeouts (browser (exec (startPreview initialProps queryThrows)
                         (mountedWorld chromium))) = ∅)
    by (vm_compute; reflexivity).
  split; [reflexivity|]. split; [reflexivity|].
  split; [discriminate|]. split; [discriminate|].
  split; [vm_compute; reflexivity|]. split; [exact Htimeouts|].
  split; [vm_compute; reflexivity|]. split; [vm_compute; reflexivity|].
  intros id a. cbn [step]. rewrite Htimeouts, lookup_empty. reflexivity.
Qed.

End Acquisition.

(** ** Device handles *)

Section Handles.

(** [startRecording] on top of a preview takes the preview's stream and
    acquires none. *)
Lemma startRecording_reuses_stream
    (p : Props) (a : RecordingAnswers) (w : World) (held : Handle) :
  isPreviewing p = true → videoStreamRef (refs w) = Some held →
  liveStreams (browser (exec (startRecording p a) w)) = liveStreams (browser w)
  ∧ videoStreamRef (refs (exec (startRecording p a) w)) = Some held.
Proof.
  destruct p as [pRec pUrl pFacing previewing pFilter pMirror pCrop pLoading
                 pError pTime quality pB pC pS pSize].
  destruct a as [stream [[]|e1] [[]|e2]]; destruct_world w;
    cbn; intros -> ->; unfold startRecording; normalize_world;
    split; reflexivity.
Qed.

(** [startPreview] acquires a stream whether or not one is held: the
    stream held before stays live, and the ref moves on to the new
    one. *)
Lemma startPreview_keeps_held_stream
    (p : Props) (a : PreviewAnswers) (w : World) (held : Handle) :
  videoStreamRef (refs w) = Some held →
  held ∈ liveStreams (browser w) →
  ans_getUserMedia a = Resolved tt →
  let w' := exec (startPreview p a) w in
  held ∈ liveStreams (browser w')
  ∧ nextHandle (browser w) ∈ liveStreams (browser w')
  ∧ videoStreamRef (refs w') = Some (nextHandle (browser w)).
Proof.
  intros Hheld Hlive Hacquired w'. subst w'.
  destruct a as [acquired played cameraAnswer microphoneAnswer].
  cbn in Hacquired. subst acquired.
  assert (Hstreams :
    liveStreams (browser (exec (startPreview p
       (mkPreviewAnswers (Resolved tt) played cameraAnswer microphoneAnswer)) w))
    = {[nextHandle (browser w)]} ∪ liveStreams (browser w)
    ∧ videoStreamRef (refs (exec (startPreview p
       (mkPreviewAnswers (Resolved tt) played cameraAnswer microphoneAnswer)) w))
      = Some (nextHandle (browser w))).
  { clear Hheld Hlive. destruct (mounted w) eqn:Hmounted; destruct_world w;
      cbn in Hmounted; subst; unfold startPreview; normalize_world.
    - destruct played as [[]|e]; normalize_world; [split; reflexivity|].
      destruct (isPermissionDenial e); [|normalize_world; split; reflexivity].
      destruct cameraAnswer as [camera|]; [|normalize_world; split; reflexivity].
      destruct microphoneAnswer as [microphone|];
        [|normalize_world; split; reflexivity].
      destruct camera, microphone; normalize_world; split; reflexivity.
    - change (isPermissionDenial detachedError) with false. normalize_world.
      split; reflexivity. }
  destruct Hstreams as [-> ->].
  split; [apply elem_of_union_r; assumption|].
  split; [apply elem_of_union_l, elem_of_singleton|]; reflexivity.
Qed.

(** C4 fails on [startPreview].  After [doubleStart] two acquired
    streams are live; the ref (and with it every later stop) knows the
    second only. *)
Theorem startPreview_twice_two_live_streams :
  ∃ w, run doubleStart (mountedWorld chromium) = Some w
       ∧ elements (liveStreams (browser w)) = [5%positive; 6%positive]
       ∧ videoStreamRef (refs w) = Some 6%positive
       ∧ ∃ w', step ClickStopPreview w = Some w'
               ∧ elements (liveStreams (browser w')) = [5%positive].
Proof.
  eexists. split; [vm_compute; reflexivity|].
  split; [vm_compute; reflexivity|]. split; [reflexivity|].
  eexists. split; vm_compute; reflexivity.
Qed.

(** The same through [switchCamera]: a click on [Start Preview] in the
    100 ms before the restart fires. *)
Example switchCamera_then_start_two_live_streams :
  ∃ w, run [ClickStartPreview allGranted; ClickSwitchCamera;
            ClickStartPreview allGranted; TimeoutFires 5%positive allGranted]
         (mountedWorld chromium) = Some w
       ∧ size (liveStreams (browser w)) = 2.
Proof. eexists. split; vm_compute; reflexivity. Qed.

End Handles.

(** ** Switching the camera *)

Section SwitchCamera.

(** Not previewing, [switchCamera] toggles the facing mode and does
    nothing else. *)
Lemma switchCamera_idle (p : Props) (w : World) :
  isPreviewing p = false →
  exec (switchCamera p) w = onState (setFacingMode (oppositeMode (facingMode p))) w.
Proof.
  intros Hidle. unfold switchCamera. rewrite Hidle. reflexivity.
Qed.

(** Previewing, it toggles the facing mode, stops the preview, and arms
    a timer of 100 ms with the [startPreview] of its own render. *)
Lemma switchCamera_previewing (p : Props) (w : World) :
  isPreviewing p = true →
  let w' := exec (switchCamera p) w in
  facingMode (state w') = oppositeMode (facingMode p)
  ∧ isPreviewing (state w') = false
  ∧ (∀ stream, videoStreamRef (refs w) = Some stream →
               stream ∉ liveStreams (browser w'))
  ∧ ∃ id, timeouts (browser w') = <[id := RestartPreview p]> (timeouts (browser w))
          ∧ last (log (browser w')) = Some (SetTimeout id 100).
Proof.
  intros Hpreviewing w'. subst w'.
  destruct p as [pRec pUrl pFacing previewing pFilter pMirror pCrop pLoading
                 pError pTime quality pB pC pS pSize].
  cbn in Hpreviewing. subst previewing.
  destruct_world w. unfold switchCamera, stopPreview.
  destruct videoStreamRef0 as [held|], animationFrameRef0 as [frame|];
    normalize_world;
    (split; [reflexivity|]); (split; [reflexivity|]);
    (split;
     [ intros stream Hstream; try discriminate Hstream;
       injection Hstream as <-; apply not_elem_of_difference; right;
       now apply elem_of_singleton
     | eexists; split; [reflexivity|]; now rewrite last_snoc ]).
Qed.

(** The restart asks for the facing mode of the render that armed it. *)
Lemma restartPreview_requests (p : Props) (a : PreviewAnswers) (w : World) :
  ∃ rest, log (browser (exec (runTask (RestartPreview p) a) w))
          = log (browser w) ++ GetUserMedia (getVideoConstraints p) :: rest
  ∧ c_facingMode (getVideoConstraints p) = facingMode p.
Proof.
  destruct a as [[[]|e1] [[]|e2] [[]|cameraError] [[]|microphoneError]];
    destruct_page w; unfold runTask, startPreview; normalize_world;
    try change (isPermissionDenial detachedError) with false;
    try (match goal with
         | |- context [isPermissionDenial ?e] => destruct (isPermissionDenial e)
         end; normalize_world);
    rewrite <- ?app_assoc; cbn [app]; eexists; split; reflexivity.
Qed.

(** C9 fails on the restart.  After a preview with the "user" camera is
    switched and restarted, the committed facing mode is "environment",
    yet both acquisitions asked for "user": the restart runs the
    [startPreview] of the render in which the switch was clicked. *)
Theorem switchCamera_restarts_with_old_mode :
  ∃ w, run switchSession (mountedWorld chromium) = Some w
       ∧ facingMode (state w) = "environment"
       ∧ isPreviewing (state w) = true
       ∧ requestedFacingModes (log (browser w)) = ["user"; "user"].
Proof.
  eexists. split; [vm_compute; reflexivity|].
  repeat (split; [vm_compute; reflexivity|]). vm_compute. reflexivity.
Qed.

(** A second switch restarts with the mode the first one meant to
    reach: the camera is always one click behind. *)
Example switchCamera_twice :
  ∃ w, run (switchSession ++ [ClickSwitchCamera; TimeoutFires 7%positive allGranted])
         (mountedWorld chromium) = Some w
       ∧ facingMode (state w) = "user"
       ∧ requestedFacingModes (log (browser w)) = ["user"; "user"; "environment"].
Proof.
  eexists. split; [vm_compute; reflexivity|].
  repeat (split; [vm_compute; reflexivity|]). vm_compute. reflexivity.
Qed.

End SwitchCamera.

(** * Further properties *)

(** ** The time display *)

Section Display.
Import JsString.

Lemma readNumber_ofNumber (n : Z) : readNumber (ofNumber n) = Some n.
Proof.
  unfold readNumber, ofNumber. rewrite NilZero.isi.
  - cbn. now rewrite DecimalZ.of_to.
  - destruct n; [discriminate| |discriminate].
    intros [= H]. now apply DecimalPos.Unsigned.to_uint_nonnil in H.
  - destruct n; [discriminate|discriminate|].
    intros [= H]. now apply DecimalPos.Unsigned.to_uint_nonnil in H.
Qed.

(** A property checked on every number below a bound holds of all of
    them. *)
Lemma below_bound (P : Z → bool) (k : nat) :
  forallb P (map Z.of_nat (seq 0 k)) = true →
  ∀ n, (0 ≤ n < Z.of_nat k)%Z → P n = true.
Proof.
  intros Hall n Hn. rewrite forallb_forall in Hall. apply Hall.
  apply in_map_iff. exists (Z.to_nat n). split; [lia|].
  apply in_seq. lia.
Qed.

(** Two characters are what a number below 100 is padded to, and the
    padding reads back as the number. *)
Lemma padStart_two_digits (n : Z) :
  (0 ≤ n < 100)%Z →
  String.length (padStart 2 "0" (ofNumber n)) = 2
  ∧ readNumber (padStart 2 "0" (ofNumber n)) = Some n.
Proof.
  intros Hn.
  pose proof (below_bound
    (λ n, (String.length (padStart 2 "0" (ofNumber n)) =? 2)
          && match readNumber (padStart 2 "0" (ofNumber n)) with
             | Some m => (m =? n)%Z
             | None => false
             end)
    100 ltac:(vm_compute; reflexivity) n Hn) as H.
  cbv beta in H. apply andb_true_iff in H as [Hlen Hread].
  split; [now apply Nat.eqb_eq|].
  destruct (readNumber _) as [m|]; [|discriminate].
  apply Z.eqb_eq in Hread. now subst.
Qed.

(** A single character reads as a number below ten, if as any. *)
Lemma readNumber_short (s : string) (n : Z) :
  String.length s ≤ 1 → readNumber s = Some n → (n < 10)%Z.
Proof.
  destruct s as [|c [|c' s']]; cbn [String.length]; [discriminate| |lia].
  intros _.
  destruct c as [[] [] [] [] [] [] [] []]; vm_compute; intros [= <-];
    reflexivity.
Qed.

(** From ten on a number is printed with two characters at least, and
    is not padded. *)
Lemma padStart_long (n : Z) :
  (10 ≤ n)%Z → padStart 2 "0" (ofNumber n) = ofNumber n.
Proof.
  intros Hn. unfold padStart.
  destruct (Nat.leb_spec 2 (String.length (ofNumber n))) as [|Hshort];
    [reflexivity|].
  pose proof (readNumber_short (ofNumber n) n ltac:(lia) (readNumber_ofNumber n)).
  lia.
Qed.

Lemma roundHalfEven_near (num den : Z) :
  (0 < den)%Z →
  (JsNumber.roundHalfEven num den = (num / den)%Z
   ∧ (2 * (num mod den) ≤ den)%Z)
  ∨ (JsNumber.roundHalfEven num den = (num / den + 1)%Z
     ∧ (den ≤ 2 * (num mod den))%Z).
Proof.
  intros Hden. unfold JsNumber.roundHalfEven.
  destruct (Z.ltb_spec (2 * (num mod den)) den); [left; lia|].
  destruct (Z.ltb_spec den (2 * (num mod den))); [right; lia|].
  destruct (Z.even (num / den)); [left | right]; lia.
Qed.

Lemma exponentOf_le (a b : Z) :
  (JsNumber.exponentOf a b ≤ Z.log2 a - Z.log2 b)%Z.
Proof. unfold JsNumber.exponentOf. destruct (_ <? _)%Z; lia. Qed.

(** Rounded to a double, the sixtieth of a safe whole number still has
    the whole part of the exact quotient: the doubles around it lie at
    most 1/32 apart, and the exact quotient is at least 1/60 below the
    next whole number. *)
Lemma floor_divide_60 (n : Z) :
  (0 ≤ n < 2 ^ 53)%Z →
  JsNumber.floor (JsNumber.divide n 60) = (n / 60)%Z.
Proof.
  intros Hn. unfold JsNumber.divide.
  destruct (Z.eqb_spec n 0) as [->|Hpos]; [reflexivity|].
  assert (Hlog : (Z.log2 n < 53)%Z) by (apply Z.log2_lt_pow2; lia).
  pose proof (exponentOf_le n 60) as Hexp.
  change (Z.log2 60) with 5%Z in Hexp.
  set (shift := (52 - JsNumber.exponentOf n 60)%Z) in *.
  assert (Hshift : (5 ≤ shift)%Z) by lia.
  unfold JsNumber.floor. destruct (Z.leb_spec 0 shift) as [_|]; [|lia].
  assert (Ht : (2 ^ 5 ≤ 2 ^ shift)%Z) by (apply Z.pow_le_mono_r; lia).
  change (2 ^ 5)%Z with 32%Z in Ht.
  set (t := (2 ^ shift)%Z) in *.
  pose proof (Z.div_mod n 60 ltac:(lia)) as Hq.
  pose proof (Z.mod_pos_bound n 60 ltac:(lia)) as Hr.
  pose proof (Z.div_mod (n * t) 60 ltac:(lia)) as HQ.
  pose proof (Z.mod_pos_bound (n * t) 60 ltac:(lia)) as HR.
  assert (HX : (n * t = 60 * (n / 60 * t) + n mod 60 * t)%Z) by nia.
  assert (HY : (0 ≤ n mod 60 * t ≤ 59 * t)%Z) by nia.
  set (X := (n / 60 * t)%Z) in *. set (Y := (n mod 60 * t)%Z) in *.
  symmetry.
  apply (Z.div_unique_pos _ _ _ (JsNumber.roundHalfEven (n * t) 60 - X)%Z).
  - destruct (roundHalfEven_near (n * t) 60 ltac:(lia)) as [[-> Hlow]|[-> Hhigh]];
      lia.
  - fold X. lia.
Qed.

(** X1.  For a number of seconds that is a safe integer and not
    negative (a whole number below 2^53) the display is a minutes field,
    a colon and a seconds field; the two fields read back as the
    quotient and the remainder by 60, so that the display determines
    the elapsed time; the seconds field always has two characters, and
    the whole display has five ("MM:SS") up to 99:59. *)
Theorem formatTime_reads_back (n : Z) :
  (0 ≤ n < 2 ^ 53)%Z →
  ∃ mm ss,
    formatTime n = mm +:+ ":" +:+ ss
    ∧ readNumber mm = Some (n / 60)%Z
    ∧ readNumber ss = Some (n mod 60)%Z
    ∧ String.length ss = 2
    ∧ ((n < 6000)%Z → String.length mm = 2).
Proof.
  intros Hn. unfold formatTime. cbv zeta.
  rewrite floor_divide_60 by exact Hn.
  rewrite Z.rem_mod_nonneg by lia.
  eexists _, _. split; [reflexivity|].
  assert (Hsecs : (0 ≤ n mod 60 < 100)%Z)
    by (pose proof (Z.mod_pos_bound n 60); lia).
  destruct (padStart_two_digits _ Hsecs) as [Hlen Hread].
  assert (Hmins : (0 ≤ n / 60)%Z) by (apply Z.div_pos; lia).
  split; [|split; [exact Hread|split; [exact Hlen|]]].
  - destruct (Z.lt_ge_cases (n / 60) 10) as [Hlt|Hge].
    + apply padStart_two_digits. lia.
    + rewrite padStart_long by assumption. apply readNumber_ofNumber.
  - intros Hsmall. apply padStart_two_digits.
    split; [assumption|]. apply Z.div_lt_upper_bound; lia.
Qed.

Lemma formatTime_reads_back_witness :
  ∃ mm ss,
    formatTime 754 = mm +:+ ":" +:+ ss
    ∧ readNumber mm = Some 12%Z
    ∧ readNumber ss = Some 34%Z
    ∧ String.length ss = 2.
Proof.
  destruct (formatTime_reads_back 754 ltac:(split; [lia | reflexivity]))
    as (mm & ss & H1 & H2 & H3 & H4 & _).
  exists mm, ss. repeat split; assumption.
Defined.

Example formatTime_samples :
  formatTime 0 = "00:00" ∧ formatTime 59 = "00:59"
  ∧ formatTime 754 = "12:34" ∧ formatTime 6000 = "100:00"
  ∧ formatTime (2 ^ 53 - 1) = "150119987579016:31".
Proof. vm_compute. repeat split. Qed.

(** The division is one of doubles: a third is the double
    6004799503160661 / 2^54, a tenth is 7205759403792794 / 2^56, and past
    the safe integers the quotient is no longer the exact one. *)
Example divide_samples :
  JsNumber.divide 1 3 = (6004799503160661, 54)%Z
  ∧ JsNumber.divide 1 10 = (7205759403792794, 56)%Z
  ∧ JsNumber.floor (JsNumber.divide (10 ^ 21) 60) = 16666666666666665984%Z
  ∧ (10 ^ 21 / 60 = 16666666666666666666)%Z.
Proof. vm_compute. repeat split. Qed.

End Display.

(** ** What the handlers leave alone *)

Section Frames.

Ltac permission_cases :=
  normalize_world;
  try change (isPermissionDenial detachedError) with false;
  repeat (match goal with
          | |- context [isPermissionDenial ?e] => destruct (isPermissionDenial e)
          end; normalize_world).

Ltac quiet_log :=
  let Hquiet := fresh "Hquiet" in
  intros Hquiet; rewrite ?Forall_app;
  repeat match goal with |- _ ∧ _ => split end;
  first [exact Hquiet | solve [repeat constructor]].

Ltac streams_goal :=
  let s := fresh "s" in
  let Hs := fresh "Hs" in
  intros s Hs;
  rewrite ?elem_of_difference, ?elem_of_union, ?elem_of_singleton in Hs;
  decompose [and or] Hs; subst; first [left; assumption | right; lia].

Ltac frame_goal :=
  unfold recordingSide, previewSide, orderly, fixtures, settings; normalize_world;
  repeat match goal with |- _ ∧ _ => split end;
  first [reflexivity | lia | quiet_log | streams_goal].

Lemma orderly_refl (w : World) : orderly w w.
Proof. unfold orderly. repeat split; [lia|tauto|tauto|tauto]. Qed.

Lemma orderly_trans (w1 w2 w3 : World) :
  orderly w1 w2 → orderly w2 w3 → orderly w1 w3.
Proof.
  intros (Hf1 & Hs1 & Hn1 & Hq1 & Hm1 & Hl1) (Hf2 & Hs2 & Hn2 & Hq2 & Hm2 & Hl2).
  unfold orderly.
  split; [congruence|]. split; [congruence|]. split; [lia|].
  split; [tauto|]. split; [tauto|]. intros s Hs.
  destruct (Hl2 s Hs) as [Hmid|Hnew]; [|right; lia].
  destruct (Hl1 s Hmid) as [Hold|Hnew]; [now left | right; lia].
Qed.

(** Catching what a callback throws and going on leaves the world the
    callback left. *)
Lemma exec_tryCatch_skip (m : M unit) (w : World) :
  exec (tryCatch m (λ _, skip)) w = exec m w.
Proof. unfold exec, tryCatch, skip. now destruct (m w) as [w' [[]|e]]. Qed.

Lemma forEach_caught (l : list Props) (f : Props → M unit) (w : World) :
  forEach l (λ p, tryCatch (f p) (λ _, skip)) w
  = (foldl (λ w p, exec (f p) w) w l, Resolved tt).
Proof.
  revert w. induction l as [|p l IH]; intros w; [reflexivity|].
  cbn [forEach foldl]. cbv [mbind M_bind].
  replace (tryCatch (f p) (λ _, skip) w) with (exec (f p) w, Resolved tt)
    by (unfold exec, tryCatch, skip; now destruct (f p w) as [w' [[]|e]]).
  apply IH.
Qed.

Lemma startPreview_frame (p : Props) (a : PreviewAnswers) (w : World) :
  recordingSide (exec (startPreview p a) w) = recordingSide w
  ∧ orderly w (exec (startPreview p a) w).
Proof.
  destruct a as [[[]|e1] [[]|e2] [[]|cameraError] [[]|microphoneError]];
    destruct_page w; unfold startPreview; permission_cases; frame_goal.
Qed.

Lemma retryPreview_frame (p : Props) (a : PreviewAnswers) (w : World) :
  recordingSide (exec (retryPreview p a) w) = recordingSide w
  ∧ orderly w (exec (retryPreview p a) w).
Proof.
  destruct a as [[[]|e1] [[]|e2] cameraAnswer microphoneAnswer];
    destruct_page w; unfold retryPreview; normalize_world; frame_goal.
Qed.

Lemma stopPreview_frame (w : World) :
  recordingSide (exec stopPreview w) = recordingSide w
  ∧ orderly w (exec stopPreview w).
Proof.
  destruct_world w. unfold stopPreview.
  destruct videoStreamRef0, animationFrameRef0; normalize_world; frame_goal.
Qed.

Lemma switchCamera_frame (p : Props) (w : World) :
  recordingSide (exec (switchCamera p) w) = recordingSide w
  ∧ orderly w (exec (switchCamera p) w).
Proof.
  destruct p as [pRec pUrl pFacing previewing pFilter pMirror pCrop pLoading
                 pError pTime quality pB pC pS pSize].
  destruct_world w. unfold switchCamera, stopPreview.
  destruct previewing, videoStreamRef0, animationFrameRef0;
    unfold recordingSide, orderly, fixtures, settings, validMode;
    normalize_world;
    repeat match goal with |- _ ∧ _ => split end;
    first [reflexivity | lia | quiet_log
          | intros _; destruct (String.eqb pFacing "user"); tauto
          | streams_goal].
Qed.

(** With no canvas, [draw] asks for the next frame while the video has
    no dimensions and throws once it has. *)
Lemma draw_frame (p : Props) (dims : Z * Z) (w : World) :
  canvasRef (refs w) = None →
  recordingSide (exec (draw p dims) w) = recordingSide w
  ∧ orderly w (exec (draw p dims) w)
  ∧ timeouts (browser (exec (draw p dims) w)) = timeouts (browser w).
Proof.
  destruct dims as [width height]. destruct_world w. cbn. intros ->.
  unfold draw. normalize_world.
  destruct (width =? 0)%Z, (height =? 0)%Z; normalize_world; frame_goal.
Qed.

Lemma runTask_frame (t : Task) (a : PreviewAnswers) (w : World) :
  recordingSide (exec (runTask t a) w) = recordingSide w
  ∧ orderly w (exec (runTask t a) w).
Proof.
  destruct t as [p|p|p|]; cbn [runTask];
    [apply retryPreview_frame | apply startPreview_frame | |];
    destruct_world w; normalize_world; frame_goal.
Qed.

Lemma listeners_frame (ps : list Props) (dims : Z * Z) (w : World) :
  canvasRef (refs w) = None →
  recordingSide (foldl (λ w p, exec (draw p dims) w) w ps) = recordingSide w
  ∧ orderly w (foldl (λ w p, exec (draw p dims) w) w ps).
Proof.
  revert w. induction ps as [|p ps IH]; intros w Hcanvas; cbn [foldl].
  - split; [reflexivity | apply orderly_refl].
  - destruct (draw_frame p dims w Hcanvas) as (Hrec & Hord & _).
    destruct (IH (exec (draw p dims) w)) as [Hrec' Hord'].
    { destruct Hord as (Hfix & _). unfold fixtures in Hfix.
      injection Hfix as _ _ Hc _ _ _. congruence. }
    split; [congruence | eapply orderly_trans; eassumption].
Qed.

Ltac frame_goal_lazy :=
  unfold recordingSide, previewSide, recordingControl, artifact, orderly,
    fixtures, settings;
  simpl_world;
  repeat match goal with |- _ ∧ _ => split end;
  first [reflexivity | lia | tauto].

Lemma recordingTick_frame (w : World) :
  previewSide (exec recordingTick w) = previewSide w
  ∧ orderly w (exec recordingTick w)
  ∧ recordingControl (exec recordingTick w) = recordingControl w
  ∧ artifact (exec recordingTick w) = artifact w
  ∧ refs (exec recordingTick w) = refs w
  ∧ memoryManager (exec recordingTick w) = memoryManager w
  ∧ browser (exec recordingTick w) = browser w.
Proof. unfold recordingTick. run_handler. frame_goal_lazy. Qed.

Lemma ondataavailable_frame (size : N) (w : World) :
  previewSide (exec (ondataavailable size) w) = previewSide w
  ∧ orderly w (exec (ondataavailable size) w)
  ∧ recordingControl (exec (ondataavailable size) w) = recordingControl w
  ∧ artifact (exec (ondataavailable size) w) = artifact w
  ∧ timeouts (browser (exec (ondataavailable size) w)) = timeouts (browser w).
Proof.
  rewrite ondataavailable_exec. cbv zeta.
  destruct (0 <? size)%N; [rewrite addRecordedChunk_exec; cbv zeta|];
    try destruct (_ <? _)%nat; frame_goal_lazy.
Qed.

Lemma onstop_frame (o : Outcome unit) (w : World) :
  previewSide (exec (onstop o) w) = previewSide w
  ∧ orderly w (exec (onstop o) w)
  ∧ recordingControl (exec (onstop o) w) = recordingControl w
  ∧ chunks (memoryManager (exec (onstop o) w)) = chunks (memoryManager w).
Proof.
  destruct o as [[]|err]; destruct_world w; unfold onstop; normalize_world;
    try match goal with |- context [if ?b then _ else _] => destruct b end;
    unfold recordingControl; frame_goal.
Qed.

(** What [onstop] does to the artifact and the buffer: it either
    assembles and registers a new artifact and empties the buffer, or
    fails and leaves both as they were. *)
Lemma onstop_artifact (o : Outcome unit) (w : World) :
  let w' := exec (onstop o) w in
  (o = Resolved tt
   ∧ ∃ url,
       urls (memoryManager w') = {[url]} ∪ urls (memoryManager w)
       ∧ objectUrls (browser w') = {[url]} ∪ objectUrls (browser w)
       ∧ videoUrl (state w') = Some url
       ∧ recordedChunks (refs w') = [])
  ∨ (∃ err, o = Rejected err
            ∧ artifact w' = artifact w
            ∧ recordedChunks (refs w') = recordedChunks (refs w)
            ∧ error (state w') = Some (processingFailedMessage err)).
Proof.
  destruct o as [[]|err]; cbv zeta.
  - left. split; [reflexivity|]. rewrite onstop_exec. cbv zeta.
    exists (Pos.succ (nextHandle (browser w))).
    destruct (windowGc (platform w)); unfold setTimeout; run_handler;
      repeat split.
  - right. exists err. destruct_world w. unfold onstop, artifact.
    normalize_world. repeat split.
Qed.

(** What [startRecording] does to the recording: it never touches the
    artifact or the registry; the buffer is emptied or left; and either
    the recording is on, with a new interval and a started recorder, or
    indicator and intervals are as before and the recorder is the old
    one or a new, inactive one. *)
Lemma startRecording_outcome (p : Props) (a : RecordingAnswers) (w : World) :
  let w' := exec (startRecording p a) w in
  orderly w w'
  ∧ artifact w' = artifact w
  ∧ chunks (memoryManager w') = chunks (memoryManager w)
  ∧ (recordedChunks (refs w') = []
     ∨ recordedChunks (refs w') = recordedChunks (refs w))
  ∧ ((isRecording (state w') = true
      ∧ ∃ id recorder,
          recordingIntervalRef (refs w') = Some id
          ∧ intervals (browser w') = {[id]} ∪ intervals (browser w)
          ∧ mediaRecorderRef (refs w') = Some recorder
          ∧ rec_state recorder = recording)
     ∨ (isRecording (state w') = isRecording (state w)
        ∧ intervals (browser w') = intervals (browser w)
        ∧ (mediaRecorderRef (refs w') = mediaRecorderRef (refs w)
           ∨ ∃ recorder, mediaRecorderRef (refs w') = Some recorder
                         ∧ rec_state recorder = inactive))).
Proof.
  cbv zeta.
  destruct p as [pRec pUrl pFacing previewing pFilter pMirror pCrop pLoading
                 pError pTime quality pB pC pS pSize].
  destruct a as [[[]|e1] [[]|e2] [[]|e3]]; destruct_world w;
    unfold startRecording;
    destruct previewing, videoStreamRef0; normalize_world;
    cbn [fmap option_fmap option_map];
    (split; [frame_goal|]); (split; [unfold artifact; normalize_world; reflexivity|]);
    (split; [reflexivity|]);
    (split; [first [left; reflexivity | right; reflexivity]|]);
    first
      [ left; split; [reflexivity|]; eexists _, _;
        repeat split; reflexivity
      | right; split; [reflexivity|]; split; [reflexivity|];
        first [left; reflexivity | right; eexists; split; reflexivity] ].
Qed.

(** What [stopRecording] does to the recording: the indicator goes off,
    the interval on record is cleared, a recorder that was recording
    becomes inactive; buffer, registry and artifact stay. *)
Lemma stopRecording_outcome (p : Props) (w : World) :
  let w' := exec (stopRecording p) w in
  orderly w w'
  ∧ artifact w' = artifact w
  ∧ memoryManager w' = memoryManager w
  ∧ recordedChunks (refs w') = recordedChunks (refs w)
  ∧ isRecording (state w') = false
  ∧ intervals (browser w')
    = match recordingIntervalRef (refs w) with
      | Some id => intervals (browser w) ∖ {[id]}
      | None => intervals (browser w)
      end
  ∧ ∀ recorder, mediaRecorderRef (refs w') = Some recorder →
                rec_state recorder = inactive
                ∨ (rec_state recorder = paused
                   ∧ mediaRecorderRef (refs w) = Some recorder).
Proof.
  cbv zeta.
  destruct p as [pRec pUrl pFacing previewing pFilter pMirror pCrop pLoading
                 pError pTime quality pB pC pS pSize].
  destruct_world w. unfold stopRecording.
  destruct mediaRecorderRef0 as [[rs ro []]|];
    destruct recordingIntervalRef0 as [timer|];
    destruct previewing; destruct videoStreamRef0 as [held|];
    normalize_world;
    (split; [frame_goal|]); (split; [unfold artifact; normalize_world; reflexivity|]);
    (split; [reflexivity|]); (split; [reflexivity|]); (split; [reflexivity|]);
    (split; [reflexivity|]);
    intros recorder Hrec; try discriminate Hrec;
    injection Hrec as <-; first [left; reflexivity | right; split; reflexivity].
Qed.

End Frames.

(** ** Sessions *)

Section Sessions.

Lemma run_invariant (I : World → Prop) :
  (∀ e w w', I w → step e w = Some w' → I w') →
  ∀ es w w', I w → run es w = Some w' → I w'.
Proof.
  intros Hstep es. induction es as [|e es IH]; intros w w' Hw Hrun.
  - injection Hrun as <-. exact Hw.
  - cbn [run] in Hrun. destruct (step e w) as [w1|] eqn:He; [|discriminate].
    cbn in Hrun. eapply IH; [eapply Hstep; eassumption | exact Hrun].
Qed.

Lemma run_app (es es' : list Event) (w : World) :
  run (es ++ es') w = w1 ← run es w; run es' w1.
Proof.
  revert w. induction es as [|e es IH]; intros w; [reflexivity|].
  cbn [app run]. destruct (step e w); [apply IH | reflexivity].
Qed.

Lemma recordingOk_same (w w' : World) :
  recordingControl w' = recordingControl w → recordingOk w → recordingOk w'.
Proof.
  unfold recordingControl, recordingOk. intros [= -> -> -> ->]. tauto.
Qed.

Lemma artifactOk_same (w w' : World) :
  artifact w' = artifact w → artifactOk w → artifactOk w'.
Proof. unfold artifact, artifactOk. intros [= -> -> -> _]. tauto. Qed.

Lemma neverPainted_orderly (w w' : World) :
  orderly w w' → neverPainted w → neverPainted w'.
Proof.
  unfold orderly, fixtures, neverPainted.
  intros ([= _ _ -> _ _ _] & _ & _ & Hquiet & _) [Hcanvas Hlog]. auto.
Qed.

Lemma buffer_same (w w' : World) :
  recordedChunks (refs w') = recordedChunks (refs w) →
  chunks (memoryManager w') = chunks (memoryManager w) →
  (nextHandle (browser w) ≤ nextHandle (browser w'))%positive →
  chunkBufferOk w ∧ chunksAllocated w → chunkBufferOk w' ∧ chunksAllocated w'.
Proof.
  unfold chunkBufferOk, chunksAllocated. intros -> -> Hnext [Hok Halloc].
  split; [exact Hok|]. intros x Hx. specialize (Halloc x Hx). lia.
Qed.

Lemma orderly_mounted (w w' : World) : orderly w w' → mounted w' = mounted w.
Proof. unfold orderly, fixtures. now intros ([= _ -> _ _ _ _] & _). Qed.

Lemma orderly_canvas (w w' : World) :
  orderly w w' → canvasRef (refs w') = canvasRef (refs w).
Proof. unfold orderly, fixtures. now intros ([= _ _ -> _ _ _] & _). Qed.

(** A step that leaves the recording side alone keeps the session in
    order. *)
Lemma sessionOk_frame (w w' : World) :
  orderly w w' →
  recordedChunks (refs w') = recordedChunks (refs w) →
  chunks (memoryManager w') = chunks (memoryManager w) →
  artifact w' = artifact w →
  recordingControl w' = recordingControl w →
  sessionOk w → sessionOk w'.
Proof.
  intros Hord Hbuf Hreg Hart Hctl Hok Hmounted.
  rewrite (orderly_mounted _ _ Hord) in Hmounted.
  destruct (Hok Hmounted) as (Hb & Ha & Hu & Hr & Hp & Hm).
  destruct (buffer_same w w' Hbuf Hreg) as [Hb' Ha'];
    [apply Hord | now split |].
  split; [exact Hb'|]. split; [exact Ha'|].
  split; [now apply (artifactOk_same w)|].
  split; [now apply (recordingOk_same w)|].
  split; [now apply (neverPainted_orderly w)|]. now apply Hord.
Qed.

Lemma sessionOk_preview (w w' : World) :
  recordingSide w' = recordingSide w ∧ orderly w w' →
  sessionOk w → sessionOk w'.
Proof.
  intros [Hrec Hord]. unfold recordingSide in Hrec.
  injection Hrec as H1 H2 H3 H4 H5 H6 H7 H8 H9 H10 H11 H12.
  apply sessionOk_frame; try assumption.
  - unfold artifact. congruence.
  - unfold recordingControl. congruence.
Qed.

(** Removing a timer or a frame that fires. *)
Lemma timer_removed_frame (id : Handle) (w : World) :
  recordingSide (onBrowser (λ b, withTimeouts (delete id (timeouts b)) b) w)
  = recordingSide w
  ∧ orderly w (onBrowser (λ b, withTimeouts (delete id (timeouts b)) b) w).
Proof.
  split; [reflexivity|]. unfold orderly, fixtures, settings. cbn.
  repeat split; [lia|tauto|tauto|tauto].
Qed.

Lemma frame_removed_frame (id : Handle) (w : World) :
  recordingSide (onBrowser (λ b, withFrames (delete id (frames b)) b) w)
  = recordingSide w
  ∧ orderly w (onBrowser (λ b, withFrames (delete id (frames b)) b) w).
Proof.
  split; [reflexivity|]. unfold orderly, fixtures, settings. cbn.
  repeat split; [lia|tauto|tauto|tauto].
Qed.

Lemma unmount_canvas (w : World) :
  canvasRef (refs (exec unmountEffect w)) = canvasRef (refs w).
Proof.
  destruct_world w. unfold unmountEffect, memoryManager.cleanup.
  destruct animationFrameRef0, recordingIntervalRef0, videoWorkerRef0;
    normalize_world; rewrite forEach_revokeQuietly; normalize_world;
    (match goal with |- context [if ?b then _ else _] => destruct b end);
    reflexivity.
Qed.

Lemma clicked (shown : Props → bool) (handler : M unit) (w w' : World) :
  (if mounted w && shown (state w) then Some (exec handler w) else None)
  = Some w' →
  mounted w = true ∧ shown (state w) = true ∧ w' = exec handler w.
Proof.
  destruct (mounted w), (shown (state w)); cbn; intros [= <-]; auto.
Qed.

Lemma buffer_reset (w : World) :
  recordedChunks (refs w) = [] → chunkBufferOk w ∧ chunksAllocated w.
Proof.
  unfold chunkBufferOk, chunksAllocated. intros ->. cbn [length].
  repeat split; [lia | apply NoDup_nil_2 | |]; intros x Hx;
    now apply elem_of_nil in Hx.
Qed.

Lemma startRecording_session (a : RecordingAnswers) (w : World) :
  isRecording (state w) = false →
  sessionOk w → sessionOk (exec (startRecording (state w) a) w).
Proof.
  intros Hidle Hok Hmounted.
  destruct (startRecording_outcome (state w) a w)
    as (Hord & Hart & Hreg & Hbuf & Hctl).
  rewrite (orderly_mounted _ _ Hord) in Hmounted.
  destruct (Hok Hmounted) as (Hb & Ha & Hu & Hr & Hp & Hm).
  assert (Hbuffer : chunkBufferOk (exec (startRecording (state w) a) w)
                    ∧ chunksAllocated (exec (startRecording (state w) a) w)).
  { destruct Hbuf as [Hempty|Hsame]; [now apply buffer_reset|].
    apply (buffer_same w); [assumption | assumption | apply Hord | now split]. }
  destruct Hbuffer as [Hb' Ha'].
  split; [exact Hb'|]. split; [exact Ha'|].
  split; [now apply (artifactOk_same w)|].
  split; [|split; [now apply (neverPainted_orderly w) | now apply Hord]].
  destruct Hr as [[Hon _]|(_ & Hnone & Hinactive)]; [congruence|].
  destruct Hctl as [(Hon & id & recorder & Href & Hint & Hrec & Hstate)
                   |(Hsame & Hint & Hrec)].
  - left. split; [exact Hon|]. exists id, recorder.
    rewrite Hint, Hnone, union_empty_r_L. auto.
  - right. split; [congruence|]. split; [congruence|].
    intros recorder Hrecorder.
    destruct Hrec as [Hold|(recorder' & Hnew & Hstate)].
    + apply Hinactive. congruence.
    + congruence.
Qed.

Lemma stopRecording_session (w : World) :
  isRecording (state w) = true →
  sessionOk w → sessionOk (exec (stopRecording (state w)) w).
Proof.
  intros Hon Hok Hmounted.
  destruct (stopRecording_outcome (state w) w)
    as (Hord & Hart & Hmm & Hbuf & Hoff & Hint & Hrec).
  rewrite (orderly_mounted _ _ Hord) in Hmounted.
  destruct (Hok Hmounted) as (Hb & Ha & Hu & Hr & Hp & Hm).
  destruct (buffer_same w (exec (stopRecording (state w)) w)) as [Hb' Ha'];
    [assumption | now rewrite Hmm | apply Hord | now split |].
  split; [exact Hb'|]. split; [exact Ha'|].
  split; [now apply (artifactOk_same w)|].
  split; [|split; [now apply (neverPainted_orderly w) | now apply Hord]].
  destruct Hr as [(_ & id & recorder & Href & Hrunning & Hheld & Hstate)
                 |[Hidle _]]; [|congruence].
  right. split; [exact Hoff|]. split.
  - rewrite Hint, Href, Hrunning. apply difference_diag_L.
  - intros recorder' Hrecorder'.
    destruct (Hrec recorder' Hrecorder') as [Hinactive|[Hpaused Hsame]];
      [exact Hinactive | congruence].
Qed.

Lemma ondataavailable_session (size : N) (w : World) :
  sessionOk w → sessionOk (exec (ondataavailable size) w).
Proof.
  intros Hok Hmounted.
  destruct (ondataavailable_frame size w) as (_ & Hord & Hctl & Hart & _).
  rewrite (orderly_mounted _ _ Hord) in Hmounted.
  destruct (Hok Hmounted) as (Hb & Ha & Hu & Hr & Hp & Hm).
  destruct (ondataavailable_preserves size w) as [Hb' Ha']; [now split|].
  split; [exact Hb'|]. split; [exact Ha'|].
  split; [now apply (artifactOk_same w)|].
  split; [now apply (recordingOk_same w)|].
  split; [now apply (neverPainted_orderly w) | now apply Hord].
Qed.

Lemma onstop_session (o : Outcome unit) (w : World) :
  sessionOk w → sessionOk (exec (onstop o) w).
Proof.
  intros Hok Hmounted.
  destruct (onstop_frame o w) as (_ & Hord & Hctl & Hreg).
  rewrite (orderly_mounted _ _ Hord) in Hmounted.
  destruct (Hok Hmounted) as (Hb & Ha & [Hlive Hshown] & Hr & Hp & Hm).
  pose proof (onstop_artifact o w) as Hart. cbv zeta in Hart.
  assert (Hparts :
    (chunkBufferOk (exec (onstop o) w) ∧ chunksAllocated (exec (onstop o) w))
    ∧ artifactOk (exec (onstop o) w)).
  { destruct Hart as [(_ & url & Hurls & Hobj & Hvideo & Hempty)
                     |(err & _ & Hsame & Hbuf & _)].
    - split; [now apply buffer_reset|]. unfold artifactOk.
      rewrite Hurls, Hobj, Hvideo. split; [now apply union_mono_l|].
      intros url' [= <-]. now apply elem_of_union_l, elem_of_singleton.
    - split; [|now apply (artifactOk_same w)].
      apply (buffer_same w); [assumption | assumption | apply Hord | now split]. }
  destruct Hparts as [[Hb' Ha'] Hu'].
  split; [exact Hb'|]. split; [exact Ha'|]. split; [exact Hu'|].
  split; [now apply (recordingOk_same w)|].
  split; [now apply (neverPainted_orderly w) | now apply Hord].
Qed.

(** Every event keeps the page without a canvas and the session in
    order. *)
Lemma step_session (e : Event) (w w' : World) :
  canvasRef (refs w) = None ∧ sessionOk w →
  step e w = Some w' →
  canvasRef (refs w') = None ∧ sessionOk w'.
Proof.
  intros [Hcanvas Hok] Hstep.
  assert (Hpreview : ∀ w1, recordingSide w1 = recordingSide w ∧ orderly w w1 →
                           canvasRef (refs w1) = None ∧ sessionOk w1).
  { intros w1 Hframe. split; [|now apply (sessionOk_preview w)].
    rewrite (orderly_canvas w w1); [assumption | apply Hframe]. }
  destruct e as [a| |a| | |id a|id dims|dims|id|size|o|]; cbn [step] in Hstep.
  - apply clicked in Hstep as (_ & _ & ->). apply Hpreview, startPreview_frame.
  - apply clicked in Hstep as (_ & _ & ->). apply Hpreview, stopPreview_frame.
  - apply clicked in Hstep as (_ & Hshown & ->).
    assert (Hidle : isRecording (state w) = false).
    { unfold showsStartRecording in Hshown.
      destruct (isRecording (state w)); [discriminate|reflexivity]. }
    split; [|now apply startRecording_session].
    rewrite (orderly_canvas w); [assumption|apply startRecording_outcome].
  - apply clicked in Hstep as (_ & Hshown & ->).
    split; [|now apply stopRecording_session].
    rewrite (orderly_canvas w); [assumption|apply stopRecording_outcome].
  - apply clicked in Hstep as (_ & _ & ->). apply Hpreview, switchCamera_frame.
  - destruct (timeouts (browser w) !! id) as [t|]; [|discriminate].
    cbn [mbind option_bind] in Hstep. injection Hstep as <-.
    change (exec (update ?f ;; ?m) w) with (exec m (f w)).
    destruct (timer_removed_frame id w) as [Hrec1 Hord1].
    destruct (runTask_frame t a
                (onBrowser (λ b, withTimeouts (delete id (timeouts b)) b) w))
      as [Hrec2 Hord2].
    apply Hpreview. split; [congruence | exact (orderly_trans _ _ _ Hord1 Hord2)].
  - destruct (frames (browser w) !! id) as [p|]; [|discriminate].
    cbn [mbind option_bind] in Hstep. injection Hstep as <-.
    change (exec (update ?f ;; ?m) w) with (exec m (f w)).
    destruct (frame_removed_frame id w) as [Hrec1 Hord1].
    destruct (draw_frame p dims
                (onBrowser (λ b, withFrames (delete id (frames b)) b) w))
      as (Hrec2 & Hord2 & _); [exact Hcanvas|].
    apply Hpreview. split; [congruence | exact (orderly_trans _ _ _ Hord1 Hord2)].
  - destruct (srcObject (video w)); [|discriminate]. injection Hstep as <-.
    unfold exec. rewrite forEach_caught. cbn [fst].
    apply Hpreview, listeners_frame, Hcanvas.
  - destruct (decide (id ∈ intervals (browser w))); [|discriminate].
    injection Hstep as <-.
    destruct (recordingTick_frame w) as (_ & Hord & Hctl & Hart & Hrefs & Hmm & _).
    split; [now rewrite Hrefs|].
    apply (sessionOk_frame w); try assumption;
      [now rewrite Hrefs | now rewrite Hmm].
  - destruct (mediaRecorderRef (refs w)); [|discriminate]. injection Hstep as <-.
    split; [|now apply ondataavailable_session].
    rewrite (orderly_canvas w); [assumption|apply ondataavailable_frame].
  - destruct (mediaRecorderRef (refs w)); [|discriminate]. injection Hstep as <-.
    split; [|now apply onstop_session].
    rewrite (orderly_canvas w); [assumption|apply onstop_frame].
  - destruct (mounted w); [|discriminate]. injection Hstep as <-.
    split; [|intros Hmounted; discriminate Hmounted].
    cbn. now rewrite unmount_canvas.
Qed.

Lemma mounted_registry (pf : Platform) :
  urls (memoryManager (mountedWorld pf)) = ∅
  ∧ videoUrl (state (mountedWorld pf)) = None
  ∧ recordedChunks (refs (mountedWorld pf)) = []
  ∧ intervals (browser (mountedWorld pf)) = ∅
  ∧ mediaRecorderRef (refs (mountedWorld pf)) = None
  ∧ canvasRef (refs (mountedWorld pf)) = None
  ∧ facingMode (state (mountedWorld pf)) = "user"
  ∧ isRecording (state (mountedWorld pf)) = false
  ∧ Forall (λ e, paints e = false) (log (browser (mountedWorld pf)))
  ∧ liveStreams (browser (mountedWorld pf)) = ∅.
Proof.
  destruct pf as [supported [] []]; repeat split;
    vm_compute; repeat constructor.
Qed.

Lemma mounted_session (pf : Platform) :
  canvasRef (refs (mountedWorld pf)) = None ∧ sessionOk (mountedWorld pf).
Proof.
  destruct (mounted_registry pf)
    as (Hurls & Hvideo & Hbuf & Hint & Hrec & Hcanvas & Hmode & Hidle & Hlog & _).
  split; [exact Hcanvas|]. intros _.
  split; [now apply buffer_reset|]. split; [now apply buffer_reset|].
  split.
  { split; [rewrite Hurls; apply empty_subseteq|]. rewrite Hvideo. discriminate. }
  split.
  { right. split; [exact Hidle|]. split; [exact Hint|]. rewrite Hrec. discriminate. }
  split; [now split | now left].
Qed.

(** Whatever happens on the mounted page, it has no canvas and the
    session is in order. *)
Lemma session_invariant (pf : Platform) (es : list Event) (w : World) :
  run es (mountedWorld pf) = Some w →
  canvasRef (refs w) = None ∧ sessionOk w.
Proof.
  apply (run_invariant (λ w, canvasRef (refs w) = None ∧ sessionOk w)).
  - intros e w1 w2. apply step_session.
  - apply mounted_session.
Qed.

(** Every event but the unmount is orderly on a page without canvas. *)
Lemma step_orderly (e : Event) (w w' : World) :
  canvasRef (refs w) = None → step e w = Some w' → e ≠ Unmount →
  orderly w w'.
Proof.
  intros Hcanvas Hstep Hevent.
  destruct e as [a| |a| | |id a|id dims|dims|id|size|o|]; cbn [step] in Hstep.
  - apply clicked in Hstep as (_ & _ & ->). apply startPreview_frame.
  - apply clicked in Hstep as (_ & _ & ->). apply stopPreview_frame.
  - apply clicked in Hstep as (_ & _ & ->). apply startRecording_outcome.
  - apply clicked in Hstep as (_ & _ & ->). apply stopRecording_outcome.
  - apply clicked in Hstep as (_ & _ & ->). apply switchCamera_frame.
  - destruct (timeouts (browser w) !! id) as [t|]; [|discriminate].
    cbn [mbind option_bind] in Hstep. injection Hstep as <-.
    change (exec (update ?f ;; ?m) w) with (exec m (f w)).
    exact (orderly_trans _ _ _ (proj2 (timer_removed_frame id w))
             (proj2 (runTask_frame t a _))).
  - destruct (frames (browser w) !! id) as [p|]; [|discriminate].
    cbn [mbind option_bind] in Hstep. injection Hstep as <-.
    change (exec (update ?f ;; ?m) w) with (exec m (f w)).
    refine (orderly_trans _ _ _ (proj2 (frame_removed_frame id w)) _).
    now apply draw_frame.
  - destruct (srcObject (video w)); [|discriminate]. injection Hstep as <-.
    unfold exec. rewrite forEach_caught. cbn [fst].
    now apply listeners_frame.
  - destruct (decide (id ∈ intervals (browser w))); [|discriminate].
    injection Hstep as <-. apply recordingTick_frame.
  - destruct (mediaRecorderRef (refs w)); [|discriminate]. injection Hstep as <-.
    apply ondataavailable_frame.
  - destruct (mediaRecorderRef (refs w)); [|discriminate]. injection Hstep as <-.
    apply onstop_frame.
  - contradiction.
Qed.

Lemma revocations_quiet (l : list Handle) :
  Forall (λ e, paints e = false) (map RevokeObjectURL l).
Proof. induction l; constructor; auto. Qed.

(** The unmount cleanup writes no state and paints nothing. *)
Lemma unmount_steady (w : World) :
  state (exec unmountEffect w) = state w
  ∧ (Forall (λ e, paints e = false) (log (browser w)) →
     Forall (λ e, paints e = false) (log (browser (exec unmountEffect w))))
  ∧ timeouts (browser (exec unmountEffect w)) = timeouts (browser w)
  ∧ liveStreams (browser (exec unmountEffect w)) = liveStreams (browser w)
  ∧ nextHandle (browser (exec unmountEffect w)) = nextHandle (browser w).
Proof.
  destruct_world w. unfold unmountEffect, memoryManager.cleanup.
  destruct animationFrameRef0, recordingIntervalRef0, videoWorkerRef0;
    normalize_world; rewrite forEach_revokeQuietly; normalize_world;
    (match goal with |- context [if ?b then _ else _] => destruct b end);
    normalize_world;
    (split; [reflexivity|]); (split; [|repeat split; reflexivity]);
    intros Hquiet; rewrite ?Forall_app;
    repeat match goal with |- _ ∧ _ => split end;
    first [exact Hquiet | apply revocations_quiet | solve [repeat constructor]].
Qed.

Lemma step_steady (e : Event) (w w' : World) :
  pageSteady w → step e w = Some w' → pageSteady w'.
Proof.
  intros (Hcanvas & Hlog & Hsettings & Hmode & Hstreams) Hstep.
  assert (e = Unmount ∨ e ≠ Unmount) as [->|Hevent]
    by (destruct e; (now left) || (now right)).
  - cbn [step] in Hstep. destruct (mounted w); [|discriminate].
    injection Hstep as <-.
    destruct (unmount_steady w) as (Hstate & Hquiet & _ & Hlive & Hnext).
    unfold pageSteady, streamsAllocated. cbn.
    rewrite unmount_canvas, Hstate, Hlive, Hnext. auto.
  - pose proof (step_orderly e w w' Hcanvas Hstep Hevent) as Hord.
    split; [now rewrite (orderly_canvas w w')|].
    destruct Hord as (_ & Hs & Hnext & Hquiet & Hvalid & Hlive).
    split; [auto|]. split; [congruence|]. split; [auto|].
    intros s Hin. destruct (Hlive s Hin) as [Hold|Hnew]; [|lia].
    specialize (Hstreams s Hold). lia.
Qed.

Lemma page_steady (pf : Platform) (es : list Event) (w : World) :
  run es (mountedWorld pf) = Some w → pageSteady w.
Proof.
  apply (run_invariant pageSteady); [apply step_steady|].
  destruct (mounted_registry pf)
    as (_ & _ & _ & _ & _ & Hcanvas & Hmode & _ & Hlog & Hnone).
  split; [exact Hcanvas|]. split; [exact Hlog|].
  split; [now destruct pf as [? [] []]|]. split; [now left|].
  intros s Hs. rewrite Hnone in Hs. now apply not_elem_of_empty in Hs.
Qed.

End Sessions.

(** ** What every session keeps *)

Section Guarantees.

(** X2.  Whatever the user and the browser do on the mounted page, in
    every order, the chunk buffer holds at most 1000 blobs, none of them
    twice, and every blob in it is in the memory manager's registry. *)
Theorem session_chunk_buffer (pf : Platform) (es : list Event) (w : World) :
  run es (mountedWorld pf) = Some w → mounted w = true →
  length (recordedChunks (refs w)) ≤ 1000
  ∧ NoDup (recordedChunks (refs w))
  ∧ ∀ x, x ∈ recordedChunks (refs w) → x ∈ chunks (memoryManager w).
Proof.
  intros Hrun Hmounted.
  destruct (session_invariant pf es w Hrun) as [_ Hok].
  destruct (Hok Hmounted) as (Hbuffer & _). exact Hbuffer.
Qed.

Lemma session_chunk_buffer_witness :
  length (recordedChunks (refs (after overflowSession (mountedWorld chromium))))
  ≤ 1000
  ∧ NoDup (recordedChunks (refs (after overflowSession (mountedWorld chromium))))
  ∧ ∀ x, x ∈ recordedChunks (refs (after overflowSession (mountedWorld chromium))) →
         x ∈ chunks (memoryManager (after overflowSession (mountedWorld chromium))).
Proof.
  apply (session_chunk_buffer chromium overflowSession); vm_compute; reflexivity.
Defined.

(** X3.  While the component is mounted, every URL in the memory
    manager's registry is an object URL that was not revoked, and the
    URL the player and the download button are given is one of them. *)
Theorem session_artifact_live
    (pf : Platform) (es : list Event) (w : World) (url : Handle) :
  run es (mountedWorld pf) = Some w → mounted w = true →
  videoUrl (state w) = Some url →
  url ∈ urls (memoryManager w)
  ∧ url ∈ objectUrls (browser w)
  ∧ urls (memoryManager w) ⊆ objectUrls (browser w).
Proof.
  intros Hrun Hmounted Hurl.
  destruct (session_invariant pf es w Hrun) as [_ Hok].
  destruct (Hok Hmounted) as (_ & _ & [Hlive Hshown] & _).
  specialize (Hshown url Hurl). split; [exact Hshown|].
  split; [now apply Hlive | exact Hlive].
Qed.

Lemma session_artifact_live_witness :
  10%positive ∈ urls (memoryManager busyWorld)
  ∧ 10%positive ∈ objectUrls (browser busyWorld)
  ∧ urls (memoryManager busyWorld) ⊆ objectUrls (browser busyWorld).
Proof.
  apply (session_artifact_live chromium busySession busyWorld);
    vm_compute; reflexivity.
Defined.

(** X4.  While the component is mounted and the download button is
    enabled, a click on it hands the browser an anchor whose [href] is
    the artifact's URL, which is live, and whose file name is
    "recording-", the time of the click in decimal, ".webm"; it leaves
    the world as it was.  If building or clicking the anchor throws,
    nothing is downloaded and the only change is the message
    "Download failed: " followed by the error's message. *)
Theorem download_serves_live_artifact
    (pf : Platform) (es : list Event) (w : World) (now : Z) :
  run es (mountedWorld pf) = Some w → mounted w = true →
  showsDownload (state w) = true →
  ∃ url,
    videoUrl (state w) = Some url
    ∧ url ∈ objectUrls (browser w)
    ∧ downloadVideo (state w) now (Resolved tt) w
      = (w, Resolved (Some (mkDownload url
                              ("recording-" +:+ JsString.ofNumber now +:+ ".webm"))))
    ∧ ∀ err, downloadVideo (state w) now (Rejected err) w
             = (onState (setError (Some (downloadFailedMessage err))) w,
                Resolved None).
Proof.
  intros Hrun Hmounted Hshown.
  destruct (session_invariant pf es w Hrun) as [_ Hok].
  destruct (Hok Hmounted) as (_ & _ & [Hlive Hregistered] & _).
  unfold showsDownload in Hshown. apply andb_prop in Hshown as [Hsome Hready].
  apply bool_decide_eq_true in Hsome as [url Hurl].
  apply negb_true_iff in Hready.
  exists url. split; [exact Hurl|]. split; [apply Hlive, Hregistered, Hurl|].
  unfold downloadVideo. rewrite Hurl. clear Hlive Hregistered Hok Hrun Hmounted.
  destruct w as [pf' m [] r mm v b]. cbn in Hurl, Hready. subst.
  split; [reflexivity|]. intros err. reflexivity.
Qed.

Lemma download_serves_live_artifact_witness :
  ∃ url,
    videoUrl (state busyWorld) = Some url
    ∧ url ∈ objectUrls (browser busyWorld)
    ∧ downloadVideo (state busyWorld) 1700000000000 (Resolved tt) busyWorld
      = (busyWorld,
         Resolved (Some (mkDownload url
                           ("recording-" +:+ JsString.ofNumber 1700000000000
                            +:+ ".webm"))))
    ∧ ∀ err, downloadVideo (state busyWorld) 1700000000000 (Rejected err) busyWorld
             = (onState (setError (Some (downloadFailedMessage err))) busyWorld,
                Resolved None).
Proof.
  apply (download_serves_live_artifact chromium busySession busyWorld);
    vm_compute; reflexivity.
Defined.



(** X6.  The page has no canvas, at any time and also after the unmount:
    [canvasRef] is [null], no frame was ever painted, and every run of
    [draw] on a video that has dimensions throws the [TypeError] of
    reading a property of [null] before it has drawn or scheduled
    anything. *)
Theorem session_never_paints (pf : Platform) (es : list Event) (w : World) :
  run es (mountedWorld pf) = Some w →
  canvasRef (refs w) = None
  ∧ Forall (λ e, paints e = false) (log (browser w))
  ∧ ∀ p width height, width ≠ 0%Z → height ≠ 0%Z →
      draw p (width, height) w = (w, Rejected typeError).
Proof.
  intros Hrun. destruct (page_steady pf es w Hrun) as (Hcanvas & Hlog & _).
  split; [exact Hcanvas|]. split; [exact Hlog|].
  intros p width height Hwidth Hheight. unfold draw. cbn [fst snd].
  apply Z.eqb_neq in Hwidth, Hheight. rewrite Hwidth, Hheight. cbn [orb].
  unfold_monad. now rewrite Hcanvas.
Qed.

Lemma session_never_paints_witness :
  canvasRef (refs (after previewWithMetadata (mountedWorld chromium))) = None
  ∧ Forall (λ e, paints e = false)
      (log (browser (after previewWithMetadata (mountedWorld chromium))))
  ∧ ∀ p width height, width ≠ 0%Z → height ≠ 0%Z →
      draw p (width, height) (after previewWithMetadata (mountedWorld chromium))
      = (after previewWithMetadata (mountedWorld chromium), Rejected typeError).
Proof.
  apply (session_never_paints chromium previewWithMetadata).
  vm_compute. reflexivity.
Defined.

(** X7.  No event writes a setting.  At any time the filter, mirror,
    crop, quality, brightness, contrast and saturation are the initial
    ones, so the filter expression is "none", every acquisition asks for
    1920x1080 at 30 frames a second, and the facing mode it asks for is
    "user" or "environment". *)
Theorem session_settings_initial (pf : Platform) (es : list Event) (w : World) :
  run es (mountedWorld pf) = Some w →
  settings (state w) = settings initialProps
  ∧ applyFilters (state w) = "none"
  ∧ colourFiltersActive (state w) = false
  ∧ getVideoConstraints (state w)
    = mkConstraints (facingMode (state w)) 1920 1080 30 60
  ∧ validMode (facingMode (state w)).
Proof.
  intros Hrun.
  destruct (page_steady pf es w Hrun) as (_ & _ & Hsettings & Hmode & _).
  split; [exact Hsettings|].
  unfold settings in Hsettings. cbn in Hsettings.
  injection Hsettings as Hfilter _ _ Hquality Hb Hc Hs.
  unfold applyFilters, colourFiltersActive, getVideoConstraints.
  rewrite Hfilter, Hquality, Hb, Hc, Hs.
  split; [reflexivity|]. split; [reflexivity|]. split; [reflexivity | exact Hmode].
Qed.

Lemma session_settings_initial_witness :
  settings (state (after switchSession (mountedWorld chromium)))
  = settings initialProps
  ∧ applyFilters (state (after switchSession (mountedWorld chromium))) = "none"
  ∧ colourFiltersActive (state (after switchSession (mountedWorld chromium)))
    = false
  ∧ getVideoConstraints (state (after switchSession (mountedWorld chromium)))
    = mkConstraints
        (facingMode (state (after switchSession (mountedWorld chromium))))
        1920 1080 30 60
  ∧ validMode (facingMode (state (after switchSession (mountedWorld chromium)))).
Proof.
  apply (session_settings_initial chromium switchSession).
  vm_compute. reflexivity.
Defined.

(** X8.  Nothing the preview does reaches the recording: starting the
    preview, its retry, stopping it and switching the camera leave the
    recorder, the chunk buffer, the recording timer and time, both
    registries, every blob and object URL, the indicator and the
    artifact exactly as they were, whatever the browser answers. *)
Theorem preview_leaves_recording_alone
    (p : Props) (a : PreviewAnswers) (w : World) :
  recordingSide (exec (startPreview p a) w) = recordingSide w
  ∧ recordingSide (exec (retryPreview p a) w) = recordingSide w
  ∧ recordingSide (exec stopPreview w) = recordingSide w
  ∧ recordingSide (exec (switchCamera p) w) = recordingSide w.
Proof.
  split; [apply startPreview_frame|]. split; [apply retryPreview_frame|].
  split; [apply stopPreview_frame | apply switchCamera_frame].
Qed.

(** X9.  Nothing the recorder's events do reaches the preview: a data
    event, the stop event and a tick of the recording timer leave the
    stream in the ref, the pending frame, the video element, the live
    streams, the preview indicator and the facing mode exactly as they
    were; and none of the three touches the recorder, its timer or the
    recording indicator. *)
Theorem recording_events_leave_preview_alone
    (size : N) (o : Outcome unit) (w : World) :
  (previewSide (exec (ondataavailable size) w) = previewSide w
   ∧ recordingControl (exec (ondataavailable size) w) = recordingControl w)
  ∧ (previewSide (exec (onstop o) w) = previewSide w
     ∧ recordingControl (exec (onstop o) w) = recordingControl w)
  ∧ (previewSide (exec recordingTick w) = previewSide w
     ∧ recordingControl (exec recordingTick w) = recordingControl w).
Proof.
  destruct (ondataavailable_frame size w) as (Hp1 & _ & Hc1 & _).
  destruct (onstop_frame o w) as (Hp2 & _ & Hc2 & _).
  destruct (recordingTick_frame w) as (Hp3 & _ & Hc3 & _).
  auto.
Qed.

End Guarantees.

(** ** Outcomes of the handlers *)

Section Outcomes.

Ltac each_conjunct tac :=
  repeat match goal with |- _ ∧ _ => split end; tac.

(** Stopping the stream that was acquired last leaves the streams that
    ran before it. *)
Lemma released (stream : Handle) (live : gset Handle) :
  stream ∉ live → ({[stream]} ∪ live) ∖ {[stream]} = live.
Proof.
  intros Hfresh. apply set_eq. intros x.
  rewrite elem_of_difference, elem_of_union, elem_of_singleton. split.
  - intros [[->|Hx] Hne]; [contradiction | exact Hx].
  - intros Hx. split; [now right | intros ->; contradiction].
Qed.

(** X10.  [startRecording] either starts the recording or reports why
    not, whatever the browser answers.  In both cases the loading flag
    is off again and the recording time is back at 0.  Started: the
    indicator is on, no error is shown, the buffer is empty, the
    recorder in the ref is recording the stream in [videoStreamRef], and
    one new interval runs, the one in [recordingIntervalRef].  Refused:
    the message is "Failed to start recording: " followed by the
    error's message, and the indicator, the intervals and
    [recordingIntervalRef] are as they were. *)
Theorem startRecording_starts_or_reports
    (p : Props) (a : RecordingAnswers) (w : World) :
  let w' := exec (startRecording p a) w in
  isLoading (state w') = false
  ∧ recordingTime (state w') = 0%Z
  ∧ ((isRecording (state w') = true
      ∧ error (state w') = None
      ∧ recordedChunks (refs w') = []
      ∧ ∃ id recorder,
          recordingIntervalRef (refs w') = Some id
          ∧ intervals (browser w') = {[id]} ∪ intervals (browser w)
          ∧ mediaRecorderRef (refs w') = Some recorder
          ∧ rec_state recorder = recording
          ∧ videoStreamRef (refs w') = Some (rec_stream recorder))
     ∨ (∃ err,
          error (state w') = Some (recordingFailedMessage err)
          ∧ isRecording (state w') = isRecording (state w)
          ∧ intervals (browser w') = intervals (browser w)
          ∧ recordingIntervalRef (refs w') = recordingIntervalRef (refs w))).
Proof.
  cbv zeta.
  destruct p as [pRec pUrl pFacing previewing pFilter pMirror pCrop pLoading
                 pError pTime quality pB pC pS pSize].
  destruct (videoStreamRef (refs w)) as [held|] eqn:Hheld;
    destruct a as [[[]|e1] [[]|e2] [[]|e3]]; destruct_world w;
    cbn in Hheld; subst;
    unfold startRecording;
    destruct previewing; normalize_world;
    cbn [fmap option_fmap option_map];
    (split; [reflexivity|]); (split; [reflexivity|]);
    first
      [ left; split; [reflexivity|]; split; [reflexivity|];
        split; [reflexivity|]; do 2 eexists;
        each_conjunct ltac:(reflexivity)
      | right; eexists; each_conjunct ltac:(reflexivity) ].
Qed.

(** X11.  When [startRecording] acquires a stream of its own and the
    recorder then cannot be built or started, the stream is not
    released: it is in [videoStreamRef] and its tracks run, while
    neither the preview nor the recording indicator is on. *)
Theorem startRecording_failure_keeps_stream
    (p : Props) (a : RecordingAnswers) (w : World) (err : Error) :
  isPreviewing p = false ∨ videoStreamRef (refs w) = None →
  ans_stream a = Resolved tt →
  ans_construct a = Rejected err
  ∨ (ans_construct a = Resolved tt ∧ ans_start a = Rejected err) →
  let w' := exec (startRecording p a) w in
  let stream := nextHandle (browser w) in
  error (state w') = Some (recordingFailedMessage err)
  ∧ isRecording (state w') = isRecording (state w)
  ∧ isPreviewing (state w') = isPreviewing (state w)
  ∧ videoStreamRef (refs w') = Some stream
  ∧ liveStreams (browser w') = {[stream]} ∪ liveStreams (browser w)
  ∧ intervals (browser w') = intervals (browser w).
Proof.
  destruct p as [pRec pUrl pFacing previewing pFilter pMirror pCrop pLoading
                 pError pTime quality pB pC pS pSize].
  destruct a as [acquired built started]. cbn.
  intros Hfresh -> Hfails.
  destruct (videoStreamRef (refs w)) as [held|] eqn:Hheld;
    destruct_world w; cbn in Hheld; subst;
    destruct Hfails as [->|[-> ->]];
    destruct Hfresh as [->|Hnone]; try discriminate Hnone;
    unfold startRecording; try destruct previewing; normalize_world;
    each_conjunct ltac:(reflexivity).
Qed.

Lemma startRecording_failure_keeps_stream_witness :
  videoStreamRef
    (refs (exec (startRecording initialProps
                   recorderUnsupported)
             (mountedWorld chromium)))
  = Some 4%positive
  ∧ liveStreams
      (browser (exec (startRecording initialProps
                        recorderUnsupported)
                  (mountedWorld chromium)))
    = {[4%positive]} ∪ liveStreams (browser (mountedWorld chromium)).
Proof.
  pose proof (startRecording_failure_keeps_stream initialProps
                recorderUnsupported
                (mountedWorld chromium)
                (mkError "NotSupportedError" "mimeType is not supported")
                (or_introl eq_refl) eq_refl (or_introl eq_refl)) as H.
  cbv zeta in H. destruct H as (_ & _ & _ & Href & Hlive & _).
  split; [exact Href | exact Hlive].
Defined.

(** When assembling the artifact throws, [onstop] changes nothing
    but the error message, which becomes "Failed to process recording: "
    followed by the error's message: the buffer keeps its chunks, no
    blob and no URL is made, and an artifact made earlier stays. *)
Lemma onstop_failure (err : Error) (w : World) :
  exec (onstop (Rejected err)) w
  = onState (setError (Some (processingFailedMessage err))) w.
Proof. destruct_world w. unfold onstop. normalize_world. reflexivity. Qed.

(** X12.  On the mounted component, once [getUserMedia] has resolved,
    [startPreview] has the preview on whether or not the video plays:
    the new stream is in [videoStreamRef], on the video element and
    live, the indicator is on and the loading flag is off.  If [play()]
    resolves no error is shown and the render's [draw] listens for the
    metadata; if it is rejected no listener is added, and unless the
    rejection is a permission denial its message is shown after
    "Failed to start preview: ". *)
Theorem startPreview_acquired (p : Props) (a : PreviewAnswers) (w : World) :
  mounted w = true →
  ans_getUserMedia a = Resolved tt →
  let w' := exec (startPreview p a) w in
  let stream := nextHandle (browser w) in
  isPreviewing (state w') = true
  ∧ isLoading (state w') = false
  ∧ videoStreamRef (refs w') = Some stream
  ∧ srcObject (video w') = Some stream
  ∧ liveStreams (browser w') = {[stream]} ∪ liveStreams (browser w)
  ∧ (ans_play a = Resolved tt →
     error (state w') = None
     ∧ loadedmetadata (video w') = loadedmetadata (video w) ++ [p]
     ∧ timeouts (browser w') = timeouts (browser w))
  ∧ (∀ err, ans_play a = Rejected err →
       loadedmetadata (video w') = loadedmetadata (video w)
       ∧ (isPermissionDenial err = false →
          error (state w') = Some (previewFailedMessage err)
          ∧ timeouts (browser w') = timeouts (browser w))).
Proof.
  destruct a as [acquired played cameraAnswer microphoneAnswer]. cbn.
  intros Hmounted ->. destruct played as [[]|e2].
  - destruct_world w. cbn in Hmounted. subst. unfold startPreview.
    normalize_world.
    each_conjunct
      ltac:(first [ reflexivity
                  | intros _; each_conjunct ltac:(reflexivity)
                  | intros err' [=] ]).
  - destruct (isPermissionDenial e2) eqn:Hdenial;
      destruct cameraAnswer as [[]|cameraError];
      destruct microphoneAnswer as [[]|microphoneError];
      destruct_world w; cbn in Hmounted; subst; unfold startPreview;
      normalize_world; rewrite Hdenial; normalize_world;
      each_conjunct
        ltac:(first [ reflexivity
                    | intros [=]
                    | intros err' [= <-];
                      (split; [reflexivity|]); intros Hother;
                      first [congruence | each_conjunct ltac:(reflexivity)] ]).
Qed.

Lemma startPreview_acquired_witness :
  isPreviewing (state (exec (startPreview initialProps allGranted)
                         (mountedWorld chromium))) = true
  ∧ videoStreamRef (refs (exec (startPreview initialProps allGranted)
                            (mountedWorld chromium))) = Some 4%positive
  ∧ error (state (exec (startPreview initialProps allGranted)
                    (mountedWorld chromium))) = None.
Proof.
  pose proof (startPreview_acquired initialProps allGranted
                (mountedWorld chromium) eq_refl eq_refl) as H.
  cbv zeta in H. destruct H as (Hon & _ & Href & _ & _ & Hplayed & _).
  destruct (Hplayed eq_refl) as (Herror & _).
  split; [exact Hon|]. split; [exact Href | exact Herror].
Defined.

(** X13.  [stopPreview] releases what the refs hold and keeps the refs:
    afterwards the stream in [videoStreamRef] is not live and the frame
    in [animationFrameRef] is not pending, and neither ref is cleared.
    A second [stopPreview] therefore repeats the two calls and changes
    nothing else. *)
Theorem stopPreview_twice (w : World) :
  let w1 := exec stopPreview w in
  let w2 := exec stopPreview w1 in
  refs w1 = refs w
  ∧ isPreviewing (state w1) = false
  ∧ (∀ stream, videoStreamRef (refs w) = Some stream →
               stream ∉ liveStreams (browser w1))
  ∧ (∀ id, animationFrameRef (refs w) = Some id → frames (browser w1) !! id = None)
  ∧ timeouts (browser w1) = timeouts (browser w)
  ∧ state w2 = state w1 ∧ refs w2 = refs w1
  ∧ memoryManager w2 = memoryManager w1 ∧ video w2 = video w1
  ∧ liveStreams (browser w2) = liveStreams (browser w1)
  ∧ frames (browser w2) = frames (browser w1)
  ∧ timeouts (browser w2) = timeouts (browser w1)
  ∧ log (browser w2)
    = log (browser w1)
      ++ match videoStreamRef (refs w) with
         | Some stream => [StopTracks stream]
         | None => []
         end
      ++ match animationFrameRef (refs w) with
         | Some id => [CancelAnimationFrame id]
         | None => []
         end.
Proof.
  cbv zeta.
  destruct (videoStreamRef (refs w)) as [held|] eqn:Hheld;
    destruct (animationFrameRef (refs w)) as [frame|] eqn:Hframe;
    destruct_world w; cbn in Hheld, Hframe; subst; unfold stopPreview;
    normalize_world; rewrite <- ?app_assoc, ?app_nil_r; cbn [app];
    each_conjunct
      ltac:(first
        [ reflexivity
        | intros x [= <-];
          first [ apply lookup_delete_eq
                | apply not_elem_of_difference; right; now apply elem_of_singleton ]
        | intros x [=]
        | apply difference_twice_L
        | apply delete_delete_eq ]).
Qed.

(** X14.  On the mounted component, the retry of [startPreview] turns
    the preview on when its acquisition resolves and otherwise shows
    "Please grant camera and microphone permissions and try again.
    Error: " with the error's message.  It never touches the loading
    flag. *)
Theorem retryPreview_outcome (p : Props) (a : PreviewAnswers) (w : World) :
  mounted w = true →
  let w' := exec (retryPreview p a) w in
  isLoading (state w') = isLoading (state w)
  ∧ match ans_getUserMedia a with
    | Resolved _ =>
        isPreviewing (state w') = true
        ∧ videoStreamRef (refs w') = Some (nextHandle (browser w))
        ∧ srcObject (video w') = Some (nextHandle (browser w))
        ∧ liveStreams (browser w')
          = {[nextHandle (browser w)]} ∪ liveStreams (browser w)
        ∧ match ans_play a with
          | Resolved _ =>
              error (state w') = None
              ∧ loadedmetadata (video w') = loadedmetadata (video w) ++ [p]
          | Rejected err =>
              error (state w') = Some (retryFailedMessage err)
              ∧ loadedmetadata (video w') = loadedmetadata (video w)
          end
    | Rejected err =>
        error (state w') = Some (retryFailedMessage err)
        ∧ previewSide w' = previewSide w
    end.
Proof.
  intros Hmounted. cbv zeta.
  destruct a as [[[]|e1] [[]|e2] cameraAnswer microphoneAnswer];
    destruct_world w; cbn in Hmounted; subst;
    unfold retryPreview, previewSide; normalize_world;
    each_conjunct ltac:(reflexivity).
Qed.

Lemma retryPreview_outcome_witness :
  isPreviewing (state (exec (retryPreview initialProps allGranted)
                         (mountedWorld chromium))) = true
  ∧ error (state (exec (retryPreview initialProps allGranted)
                    (mountedWorld chromium))) = None
  ∧ isLoading (state (exec (retryPreview initialProps allGranted)
                        (mountedWorld chromium))) = false.
Proof.
  pose proof (retryPreview_outcome initialProps allGranted
                (mountedWorld chromium) eq_refl) as H.
  cbv zeta in H. destruct H as (Hloading & Hon & _ & _ & _ & Herror & _).
  split; [exact Hon|]. split; [exact Herror | exact Hloading].
Defined.

(** Once the component is unmounted there is no video element to give
    the stream to.  A retry that fires then still acquires a stream,
    puts it in [videoStreamRef] and throws at the assignment: the
    stream runs, no preview is on, and the error is reported. *)
Example retry_after_unmount :
  ∃ w, run [ClickStartPreview promptDismissed; Unmount;
            TimeoutFires 4%positive allGranted] (mountedWorld chromium)
       = Some w
       ∧ isPreviewing (state w) = false
       ∧ srcObject (video w) = None
       ∧ videoStreamRef (refs w) = Some 5%positive
       ∧ elements (liveStreams (browser w)) = [5%positive]
       ∧ error (state w) = Some (retryFailedMessage detachedError).
Proof.
  eexists. split; [vm_compute; reflexivity|].
  repeat (split; [vm_compute; reflexivity|]). vm_compute. reflexivity.
Qed.

Lemma preview_cycle (p : Props) (a : PreviewAnswers) (w : World) :
  mounted w = true →
  ans_getUserMedia a = Resolved tt →
  nextHandle (browser w) ∉ liveStreams (browser w) →
  let w1 := exec (startPreview p a) w in
  let w2 := exec stopPreview w1 in
  isPreviewing (state w1) = true
  ∧ liveStreams (browser w2) = liveStreams (browser w)
  ∧ isPreviewing (state w2) = false
  ∧ isLoading (state w2) = false.
Proof.
  destruct (animationFrameRef (refs w)) as [frame|] eqn:Hframe;
    destruct a as [acquired [[]|e2] [[]|cameraError] [[]|microphoneError]];
    destruct_world w; cbn in Hframe; subst; cbn; intros -> -> Hfresh;
    unfold startPreview, stopPreview; normalize_world;
    repeat (match goal with
            | |- context [isPermissionDenial ?e] => destruct (isPermissionDenial e)
            end; normalize_world);
    each_conjunct ltac:(first [reflexivity | now apply released]).
Qed.

(** X15.  A preview that is started and then stopped gives the camera
    back.  At any point of any session at which [Start Preview] is
    enabled, a click on it that acquires a stream, followed by a click
    on [Stop Preview], leaves running exactly the streams that ran
    before, whether or not the video played; the indicator and the
    loading flag are off, and the recording and its artifact are as
    they were. *)
Theorem preview_round_trip
    (pf : Platform) (es : list Event) (w : World) (a : PreviewAnswers) :
  run es (mountedWorld pf) = Some w → mounted w = true →
  showsStartPreview (state w) = true →
  ans_getUserMedia a = Resolved tt →
  ∃ w', run [ClickStartPreview a; ClickStopPreview] w = Some w'
        ∧ liveStreams (browser w') = liveStreams (browser w)
        ∧ isPreviewing (state w') = false
        ∧ isLoading (state w') = false
        ∧ recordingSide w' = recordingSide w.
Proof.
  intros Hrun Hmounted Hshown Hacquired.
  destruct (page_steady pf es w Hrun) as (_ & _ & _ & _ & Hstreams).
  assert (Hfresh : nextHandle (browser w) ∉ liveStreams (browser w)).
  { intros Hin. specialize (Hstreams _ Hin). lia. }
  destruct (preview_cycle (state w) a w Hmounted Hacquired Hfresh)
    as (Hon & Hlive & Hoff & Hready).
  destruct (startPreview_frame (state w) a w) as [Hrec1 Hord1].
  set (w1 := exec (startPreview (state w) a) w) in *.
  destruct (stopPreview_frame w1) as [Hrec2 _].
  exists (exec stopPreview w1). split.
  - cbn [run step]. rewrite Hmounted, Hshown. cbn [andb mbind option_bind].
    fold w1. rewrite (orderly_mounted _ _ Hord1), Hmounted.
    unfold showsStopPreview. rewrite Hon.
    replace (isRecording (state w1)) with (isRecording (state w))
      by (unfold recordingSide in Hrec1; congruence).
    unfold showsStartPreview in Hshown.
    destruct (isRecording (state w)); [|reflexivity].
    now rewrite andb_false_r in Hshown.
  - split; [exact Hlive|]. split; [exact Hoff|]. split; [exact Hready|].
    congruence.
Qed.

Lemma preview_round_trip_witness :
  ∃ w', run [ClickStartPreview allGranted; ClickStopPreview]
          (mountedWorld chromium) = Some w'
        ∧ liveStreams (browser w') = liveStreams (browser (mountedWorld chromium))
        ∧ isPreviewing (state w') = false
        ∧ isLoading (state w') = false
        ∧ recordingSide w' = recordingSide (mountedWorld chromium).
Proof.
  apply (preview_round_trip chromium [] (mountedWorld chromium) allGranted);
    vm_compute; reflexivity.
Defined.

End Outcomes.

(** ** The artifact, the clock and the controls *)

Section Composition.

Lemma sizeOfParts_app (b : Browser) (l1 l2 : list Handle) :
  sizeOfParts b (l1 ++ l2) = (sizeOfParts b l1 + sizeOfParts b l2)%N.
Proof.
  unfold sizeOfParts. induction l1 as [|x l1 IH]; cbn [app foldr]; [reflexivity|].
  rewrite IH. lia.
Qed.

(** A blob that comes into being does not change the size of the
    others. *)
Lemma sizeOfParts_fresh (b b' : Browser) (k : Handle) (v : N) (l : list Handle) :
  blobs b' = <[k:=v]> (blobs b) → (∀ x, x ∈ l → x ≠ k) →
  sizeOfParts b' l = sizeOfParts b l.
Proof.
  intros Hb Hl. unfold sizeOfParts.
  induction l as [|x l IH]; [reflexivity|]. cbn [foldr].
  rewrite IH by (intros y Hy; apply Hl; now right).
  rewrite Hb, lookup_insert_ne; [reflexivity|].
  intros <-. apply (Hl k); [now left | reflexivity].
Qed.

(** Below the cap, a data event adds its size to the size of the
    buffer. *)
Lemma ondataavailable_total (size : N) (w : World) :
  chunksAllocated w → length (recordedChunks (refs w)) < 1000 →
  let w' := exec (ondataavailable size) w in
  chunksAllocated w'
  ∧ length (recordedChunks (refs w')) ≤ S (length (recordedChunks (refs w)))
  ∧ sizeOfParts (browser w') (recordedChunks (refs w'))
    = (sizeOfParts (browser w) (recordedChunks (refs w)) + size)%N.
Proof.
  intros Halloc Hlen. cbv zeta. rewrite ondataavailable_exec. cbv zeta.
  set (data := nextHandle (browser w)).
  set (w1 := onBrowser _ w).
  assert (Hold : sizeOfParts (browser w1) (recordedChunks (refs w))
                 = sizeOfParts (browser w) (recordedChunks (refs w))).
  { apply (sizeOfParts_fresh _ _ data size); [reflexivity|].
    intros x Hx ->. specialize (Halloc _ Hx). unfold data in Halloc. lia. }
  assert (Hnext : nextHandle (browser w1) = Pos.succ data) by reflexivity.
  destruct (N.ltb_spec 0 size) as [Hpos|Hzero].
  - rewrite addRecordedChunk_exec. cbv zeta.
    change (recordedChunks (refs w1)) with (recordedChunks (refs w)).
    assert (Hfit : (1000 <? length (recordedChunks (refs w) ++ [data])) = false).
    { apply Nat.ltb_ge. rewrite length_app. cbn [length]. lia. }
    rewrite Hfit. unfold chunksAllocated. simpl_world. rewrite Hnext.
    split; [|split].
    + intros x [Hx| ->%list_elem_of_singleton]%elem_of_app;
        [specialize (Halloc _ Hx); fold data in Halloc|]; lia.
    + rewrite length_app. cbn [length]. lia.
    + rewrite sizeOfParts_app, Hold. f_equal.
      unfold sizeOfParts. cbn [foldr]. unfold w1. simpl_world.
      rewrite lookup_insert_eq. cbn. lia.
  - unfold chunksAllocated. rewrite Hnext.
    change (recordedChunks (refs w1)) with (recordedChunks (refs w)).
    split; [|split].
    + intros x Hx. specialize (Halloc x Hx). fold data in Halloc. lia.
    + lia.
    + rewrite Hold. lia.
Qed.

Lemma dataavailable_total (sizes : list N) (w : World) :
  chunksAllocated w →
  length (recordedChunks (refs w)) + length sizes ≤ 1000 →
  let w' := foldl (λ w size, exec (ondataavailable size) w) w sizes in
  sizeOfParts (browser w') (recordedChunks (refs w'))
  = (sizeOfParts (browser w) (recordedChunks (refs w)) + foldr N.add 0 sizes)%N.
Proof.
  revert w. induction sizes as [|size sizes IH]; intros w Halloc Hlen;
    cbn [foldl foldr length] in *; [lia|].
  destruct (ondataavailable_total size w Halloc) as (Halloc' & Hlen' & Hsize);
    [lia|].
  cbv zeta in IH. rewrite IH; [rewrite Hsize; lia | exact Halloc' | lia].
Qed.

(** [onstop] records as the artifact's size the size of the buffer. *)
Lemma onstop_size (w : World) :
  videoSize (state (exec (onstop (Resolved tt)) w))
  = Some (sizeOfParts (browser w) (recordedChunks (refs w))).
Proof.
  rewrite onstop_exec. cbv zeta.
  destruct (windowGc (platform w)); unfold setTimeout; run_handler; reflexivity.
Qed.

(** Past 1000 data events the artifact is short of what was delivered:
    of 1001 bytes, 501 are in it. *)
Example longRecording_artifact :
  videoSize (state (exec (onstop (Resolved tt)) longRecording)) = Some 501%N.
Proof. vm_compute. reflexivity. Qed.

(** *** The recording time *)

Lemma startRecording_time (p : Props) (a : RecordingAnswers) (w : World) :
  recordingTime (state (exec (startRecording p a) w)) = 0%Z.
Proof.
  destruct p as [pRec pUrl pFacing previewing pFilter pMirror pCrop pLoading
                 pError pTime quality pB pC pS pSize].
  destruct (videoStreamRef (refs w)) as [held|] eqn:Hheld;
    destruct a as [[[]|e1] [[]|e2] [[]|e3]]; destruct_world w;
    cbn in Hheld; subst; unfold startRecording;
    destruct previewing; normalize_world; reflexivity.
Qed.

Lemma stopRecording_state (p : Props) (w : World) :
  state (exec (stopRecording p) w) = setIsRecording false (state w).
Proof.
  destruct p as [pRec pUrl pFacing previewing pFilter pMirror pCrop pLoading
                 pError pTime quality pB pC pS pSize].
  destruct (mediaRecorderRef (refs w)) as [[rs ro []]|] eqn:Hrec;
    destruct (recordingIntervalRef (refs w)) as [timer|] eqn:Htimer;
    destruct (videoStreamRef (refs w)) as [held|] eqn:Hheld;
    destruct_world w; cbn in Hrec, Htimer, Hheld; subst; unfold stopRecording;
    destruct previewing; normalize_world; reflexivity.
Qed.

Lemma ondataavailable_state (size : N) (w : World) :
  state (exec (ondataavailable size) w) = state w.
Proof.
  rewrite ondataavailable_exec. cbv zeta.
  destruct (0 <? size)%N; [rewrite addRecordedChunk_exec; cbv zeta|];
    try destruct (_ <? _)%nat; reflexivity.
Qed.

Lemma onstop_time (o : Outcome unit) (w : World) :
  recordingTime (state (exec (onstop o) w)) = recordingTime (state w).
Proof.
  destruct o as [[]|err]; destruct_world w; unfold onstop; normalize_world;
    try match goal with |- context [if ?b then _ else _] => destruct b end;
    reflexivity.
Qed.

Lemma recordingSide_time (w w' : World) :
  recordingSide w' = recordingSide w →
  recordingTime (state w') = recordingTime (state w).
Proof. unfold recordingSide. now intros [= _ _ _ _ _ _ _ _ _ -> _ _]. Qed.

(** Only the tick of the timer and [startRecording] move the recording
    time. *)
Lemma step_time (e : Event) (w w' : World) :
  canvasRef (refs w) = None → step e w = Some w' → isStartRecording e = false →
  recordingTime (state w')
  = (recordingTime (state w) + (if isTick e then 1 else 0))%Z.
Proof.
  intros Hcanvas Hstep Hevent.
  destruct e as [a| |a| | |id a|id dims|dims|id|size|o|];
    try discriminate Hevent; cbn [step isTick] in *; rewrite ?Z.add_0_r.
  - apply clicked in Hstep as (_ & _ & ->).
    apply recordingSide_time, startPreview_frame.
  - apply clicked in Hstep as (_ & _ & ->).
    apply recordingSide_time, stopPreview_frame.
  - apply clicked in Hstep as (_ & _ & ->). now rewrite stopRecording_state.
  - apply clicked in Hstep as (_ & _ & ->).
    apply recordingSide_time, switchCamera_frame.
  - destruct (timeouts (browser w) !! id) as [t|]; [|discriminate].
    cbn [mbind option_bind] in Hstep. injection Hstep as <-.
    change (exec (update ?f ;; ?m) w) with (exec m (f w)).
    exact (recordingSide_time
             (onBrowser (λ b, withTimeouts (delete id (timeouts b)) b) w) _
             (proj1 (runTask_frame t a _))).
  - destruct (frames (browser w) !! id) as [p|]; [|discriminate].
    cbn [mbind option_bind] in Hstep. injection Hstep as <-.
    change (exec (update ?f ;; ?m) w) with (exec m (f w)).
    exact (recordingSide_time
             (onBrowser (λ b, withFrames (delete id (frames b)) b) w) _
             (proj1 (draw_frame p dims
                       (onBrowser (λ b, withFrames (delete id (frames b)) b) w)
                       Hcanvas))).
  - destruct (srcObject (video w)); [|discriminate]. injection Hstep as <-.
    unfold exec. rewrite forEach_caught. cbn [fst].
    now apply recordingSide_time, listeners_frame.
  - destruct (decide (id ∈ intervals (browser w))); [|discriminate].
    injection Hstep as <-. reflexivity.
  - destruct (mediaRecorderRef (refs w)); [|discriminate]. injection Hstep as <-.
    now rewrite ondataavailable_state.
  - destruct (mediaRecorderRef (refs w)); [|discriminate]. injection Hstep as <-.
    apply onstop_time.
  - destruct (mounted w); [|discriminate]. injection Hstep as <-.
    cbn. now rewrite (proj1 (unmount_steady w)).
Qed.

Lemma run_time (es : list Event) (w w' : World) :
  pageSteady w → forallb (λ e, negb (isStartRecording e)) es = true →
  run es w = Some w' →
  recordingTime (state w') = (recordingTime (state w) + Z.of_nat (ticks es))%Z.
Proof.
  revert w. induction es as [|e es IH]; intros w Hsteady Hnone Hrun.
  - injection Hrun as <-. cbn. lia.
  - cbn [run] in Hrun. destruct (step e w) as [w1|] eqn:Hstep; [|discriminate].
    cbn [mbind option_bind] in Hrun. cbn [forallb] in Hnone.
    apply andb_prop in Hnone as [Hevent Hnone]. apply negb_true_iff in Hevent.
    rewrite (IH w1 (step_steady e w w1 Hsteady Hstep) Hnone Hrun).
    rewrite (step_time e w w1 (proj1 Hsteady) Hstep Hevent).
    unfold ticks. cbn [List.filter]. destruct (isTick e); cbn [length]; lia.
Qed.

(** X17.  The recording time is the number of ticks of the timer since
    the last click on [Start Recording]: the click sets it to 0, whether
    or not the recording starts, each tick adds 1, and nothing else that
    can happen on the page changes it. *)
Theorem recordingTime_counts_ticks
    (pf : Platform) (before : list Event) (a : RecordingAnswers)
    (es : list Event) (w : World) :
  forallb (λ e, negb (isStartRecording e)) es = true →
  run (before ++ ClickStartRecording a :: es) (mountedWorld pf) = Some w →
  recordingTime (state w) = Z.of_nat (ticks es).
Proof.
  intros Hnone Hrun. rewrite run_app in Hrun.
  destruct (run before (mountedWorld pf)) as [w0|] eqn:Hbefore; [|discriminate].
  cbn [mbind option_bind run] in Hrun.
  destruct (step (ClickStartRecording a) w0) as [w1|] eqn:Hstart; [|discriminate].
  cbn [mbind option_bind] in Hrun.
  pose proof (page_steady pf before w0 Hbefore) as Hsteady.
  rewrite (run_time es w1 w (step_steady _ _ _ Hsteady Hstart) Hnone Hrun).
  cbn [step] in Hstart. apply clicked in Hstart as (_ & _ & ->).
  rewrite startRecording_time. lia.
Qed.

Lemma recordingTime_counts_ticks_witness :
  recordingTime
    (state (after (ClickStartRecording recorderWorks :: timedRecording)
              (mountedWorld chromium)))
  = 2%Z.
Proof.
  apply (recordingTime_counts_ticks chromium [] recorderWorks timedRecording);
    vm_compute; reflexivity.
Defined.

(** *** The camera switch *)

Lemma switchCamera_state (p : Props) (w : World) :
  state (exec (switchCamera p) w)
  = setFacingMode (oppositeMode (facingMode p))
      (if isPreviewing p then setIsPreviewing false (state w) else state w)
  ∧ mounted (exec (switchCamera p) w) = mounted w.
Proof.
  destruct p as [pRec pUrl pFacing previewing pFilter pMirror pCrop pLoading
                 pError pTime quality pB pC pS pSize].
  destruct (videoStreamRef (refs w)) as [held|] eqn:Hheld;
    destruct (animationFrameRef (refs w)) as [frame|] eqn:Hframe;
    destruct_world w; cbn in Hheld, Hframe; subst;
    unfold switchCamera, stopPreview, oppositeMode;
    destruct previewing; normalize_world; split; reflexivity.
Qed.

Lemma oppositeMode_involutive (mode : string) :
  validMode mode → oppositeMode (oppositeMode mode) = mode.
Proof. now intros [-> | ->]. Qed.

(** X18.  Two clicks on [Switch Camera] bring the facing mode back to
    what it was, at any point of any session at which the button is
    enabled; without a preview they leave the page exactly as it
    was. *)
Theorem switchCamera_twice_restores_mode
    (pf : Platform) (es : list Event) (w : World) :
  run es (mountedWorld pf) = Some w → mounted w = true →
  showsSwitchCamera (state w) = true →
  ∃ w', run [ClickSwitchCamera; ClickSwitchCamera] w = Some w'
        ∧ facingMode (state w') = facingMode (state w)
        ∧ (isPreviewing (state w) = false → w' = w).
Proof.
  intros Hrun Hmounted Hshown.
  destruct (page_steady pf es w Hrun) as (_ & _ & _ & Hmode & _).
  set (w1 := exec (switchCamera (state w)) w).
  destruct (switchCamera_state (state w) w) as [Hstate1 Hmounted1].
  fold w1 in Hstate1, Hmounted1.
  destruct (switchCamera_state (state w1) w1) as [Hstate2 _].
  assert (Hshown1 : showsSwitchCamera (state w1) = true).
  { rewrite Hstate1. unfold showsSwitchCamera in *.
    destruct (isPreviewing (state w)); exact Hshown. }
  exists (exec (switchCamera (state w1)) w1). split; [|split].
  - cbn [run step]. rewrite Hmounted, Hshown. cbn [andb mbind option_bind].
    fold w1. rewrite Hmounted1, Hmounted, Hshown1. reflexivity.
  - rewrite Hstate2, Hstate1.
    destruct (isPreviewing (state w)); cbn;
      now apply oppositeMode_involutive.
  - intros Hidle. subst w1.
    rewrite (switchCamera_idle (state w) w Hidle).
    rewrite switchCamera_idle by exact Hidle.
    destruct w as [pf' m [] r mm v b]. cbn in *.
    rewrite (oppositeMode_involutive _ Hmode). reflexivity.
Qed.

Lemma switchCamera_twice_restores_mode_witness :
  ∃ w', run [ClickSwitchCamera; ClickSwitchCamera]
          (after previewWithMetadata (mountedWorld chromium)) = Some w'
        ∧ facingMode (state w')
          = facingMode (state (after previewWithMetadata (mountedWorld chromium)))
        ∧ (isPreviewing (state (after previewWithMetadata (mountedWorld chromium)))
           = false →
           w' = after previewWithMetadata (mountedWorld chromium)).
Proof.
  apply (switchCamera_twice_restores_mode chromium previewWithMetadata);
    vm_compute; reflexivity.
Defined.

(** *** Unmounting *)




(** *** A recording from start to stop *)




(** *** A recording from start to artifact *)

Lemma dataavailable_buffer (sizes : list N) (w : World) :
  chunksAllocated w →
  length (recordedChunks (refs w)) + length sizes ≤ 1000 →
  let w' := foldl (λ w size, exec (ondataavailable size) w) w sizes in
  chunksAllocated w'
  ∧ length (recordedChunks (refs w'))
    ≤ length (recordedChunks (refs w)) + length sizes.
Proof.
  revert w. induction sizes as [|size sizes IH]; intros w Halloc Hlen;
    cbn [foldl length] in *; [split; [exact Halloc | lia]|].
  destruct (ondataavailable_total size w Halloc) as (Halloc' & Hlen' & _);
    [lia|].
  cbv zeta in IH. destruct (IH _ Halloc') as [Hdone Hbound]; [lia|].
  split; [exact Hdone | lia].
Qed.

(** The data events of a recorder run one after the other, and change
    neither the state nor the recorder. *)
Lemma data_events_run (sizes : list N) (w : World) :
  is_Some (mediaRecorderRef (refs w)) →
  let w' := foldl (λ w size, exec (ondataavailable size) w) w sizes in
  run (map DataAvailable sizes) w = Some w'
  ∧ state w' = state w
  ∧ mounted w' = mounted w
  ∧ mediaRecorderRef (refs w') = mediaRecorderRef (refs w).
Proof.
  revert w. induction sizes as [|size sizes IH]; intros w Hrecorder;
    cbn [foldl map run]; [auto|].
  destruct (ondataavailable_frame size w) as (_ & Hord & Hctl & _).
  assert (Hsame : mediaRecorderRef (refs (exec (ondataavailable size) w))
                  = mediaRecorderRef (refs w))
    by (unfold recordingControl in Hctl; congruence).
  destruct (IH (exec (ondataavailable size) w)) as (Hrun & Hstate & Hmounted & Href);
    [now rewrite Hsame|].
  cbn [step]. destruct Hrecorder as [recorder Hrecorder]. rewrite Hrecorder.
  cbn [mbind option_bind]. split; [exact Hrun|].
  split; [now rewrite Hstate, ondataavailable_state|].
  split; [now rewrite Hmounted, (orderly_mounted _ _ Hord) | congruence].
Qed.

Lemma recording_started (w : World) :
  let w1 := exec (startRecording (state w) recorderWorks) w in
  mounted w1 = mounted w
  ∧ isRecording (state w1) = true
  ∧ isLoading (state w1) = false
  ∧ is_Some (mediaRecorderRef (refs w1))
  ∧ recordedChunks (refs w1) = [].
Proof.
  destruct (videoStreamRef (refs w)) as [held|] eqn:Hheld;
    destruct (isPreviewing (state w)) eqn:Hpreviewing;
    destruct_world w; cbn in Hheld, Hpreviewing; subst;
    unfold startRecording; normalize_world;
    cbn [fmap option_fmap option_map];
    repeat match goal with |- _ ∧ _ => split end;
    first [reflexivity | eexists; reflexivity].
Qed.

(** [stopRecording] keeps the recorder in its ref and touches no
    blob. *)
Lemma stopRecording_buffer (p : Props) (w : World) :
  blobs (browser (exec (stopRecording p) w)) = blobs (browser w)
  ∧ (is_Some (mediaRecorderRef (refs w)) →
     is_Some (mediaRecorderRef (refs (exec (stopRecording p) w)))).
Proof.
  destruct p as [pRec pUrl pFacing previewing pFilter pMirror pCrop pLoading
                 pError pTime quality pB pC pS pSize].
  destruct (mediaRecorderRef (refs w)) as [[rs ro []]|] eqn:Hrec;
    destruct (recordingIntervalRef (refs w)) as [timer|] eqn:Htimer;
    destruct (videoStreamRef (refs w)) as [held|] eqn:Hheld;
    destruct_world w; cbn in Hrec, Htimer, Hheld; subst; unfold stopRecording;
    destruct previewing; normalize_world;
    (split; [reflexivity|]); intros Hsome; first [exact Hsome | eexists; reflexivity].
Qed.

Lemma onstop_loading (o : Outcome unit) (w : World) :
  isLoading (state (exec (onstop o) w)) = isLoading (state w).
Proof.
  destruct o as [[]|err]; destruct_world w; unfold onstop; normalize_world;
    try match goal with |- context [if ?b then _ else _] => destruct b end;
    reflexivity.
Qed.

(** X16.  A recording yields its artifact.  Wherever [Start Recording]
    is enabled, a click on it (with the browser cooperating), fewer
    than 1000 data events of any sizes, a click on [Stop Recording],
    the recorder's last data event and its stop event can happen in
    this order, and they leave the recording indicator off, the buffer
    empty, [videoUrl] set to a live object URL, the download button
    enabled, and as [videoSize] the number of bytes the recorder
    delivered. *)
Theorem recording_yields_artifact (sizes : list N) (last : N) (w : World) :
  mounted w = true → showsStartRecording (state w) = true →
  length sizes < 1000 →
  ∃ w' url,
    run (ClickStartRecording recorderWorks :: map DataAvailable sizes
         ++ [ClickStopRecording; DataAvailable last; Stopped (Resolved tt)]) w
    = Some w'
    ∧ videoSize (state w') = Some (foldr N.add 0 sizes + last)%N
    ∧ videoUrl (state w') = Some url
    ∧ url ∈ objectUrls (browser w')
    ∧ showsDownload (state w') = true
    ∧ isRecording (state w') = false
    ∧ recordedChunks (refs w') = [].
Proof.
  intros Hmounted Hshown Hlen.
  destruct (recording_started w) as (Hm1 & Hon1 & Hready1 & Href1 & Hbuf1).
  set (w1 := exec (startRecording (state w) recorderWorks) w) in *.
  assert (Halloc1 : chunksAllocated w1).
  { unfold chunksAllocated. rewrite Hbuf1. intros x Hx.
    now apply elem_of_nil in Hx. }
  destruct (data_events_run sizes w1 Href1) as (Hrun2 & Hstate2 & Hm2 & Href2).
  destruct (dataavailable_buffer sizes w1 Halloc1) as [Halloc2 Hlen2];
    [rewrite Hbuf1; cbn [length]; lia|].
  pose proof (dataavailable_total sizes w1 Halloc1) as Hsize2.
  cbv zeta in Hsize2. rewrite Hbuf1 in Hsize2, Hlen2. cbn [length] in Hsize2, Hlen2.
  specialize (Hsize2 ltac:(lia)).
  set (w2 := foldl (λ w size, exec (ondataavailable size) w) w1 sizes) in *.
  destruct (stopRecording_outcome (state w2) w2)
    as (Hord3 & _ & _ & Hbuf3 & Hoff3 & _).
  destruct (stopRecording_buffer (state w2) w2) as [Hblobs3 Href3].
  pose proof (stopRecording_state (state w2) w2) as Hstate3.
  set (w3 := exec (stopRecording (state w2)) w2) in *.
  assert (Hsome3 : is_Some (mediaRecorderRef (refs w3)))
    by (apply Href3; now rewrite Href2).
  assert (Halloc3 : chunksAllocated w3).
  { intros x Hx. rewrite Hbuf3 in Hx. specialize (Halloc2 x Hx).
    destruct Hord3 as (_ & _ & Hnext & _). lia. }
  destruct (ondataavailable_total last w3 Halloc3) as (_ & _ & Hsize4);
    [rewrite Hbuf3; lia|].
  destruct (ondataavailable_frame last w3) as (_ & Hord4 & Hctl4 & _).
  pose proof (ondataavailable_state last w3) as Hstate4.
  set (w4 := exec (ondataavailable last) w3) in *.
  assert (Hsome4 : is_Some (mediaRecorderRef (refs w4)))
    by (unfold recordingControl in Hctl4; injection Hctl4 as -> _ _ _; exact Hsome3).
  pose proof (onstop_artifact (Resolved tt) w4) as Hartifact. cbv zeta in Hartifact.
  destruct Hartifact as [(_ & url & _ & Hurls & Hvideo & Hempty)
                        |(err & Hrejected & _)]; [|discriminate Hrejected].
  destruct (onstop_frame (Resolved tt) w4) as (_ & _ & Hctl5 & _).
  pose proof (onstop_size w4) as Hsize5.
  pose proof (onstop_loading (Resolved tt) w4) as Hloading5.
  set (w5 := exec (onstop (Resolved tt)) w4) in *.
  exists w5, url. split.
  { cbn [run step]. rewrite Hmounted, Hshown. cbn [andb mbind option_bind].
    fold w1. rewrite run_app, Hrun2. cbn [mbind option_bind run step].
    assert (Hshown2 : mounted w2 && showsStopRecording (state w2) = true)
      by (unfold showsStopRecording; now rewrite Hm2, Hm1, Hmounted, Hstate2, Hon1).
    rewrite Hshown2. cbn [mbind option_bind]. fold w3.
    destruct Hsome3 as [r3 Hr3]. rewrite Hr3. cbn [mbind option_bind].
    fold w4. destruct Hsome4 as [r4 Hr4]. rewrite Hr4. reflexivity. }
  split.
  { rewrite Hsize5, Hsize4. f_equal. f_equal.
    rewrite Hbuf3. unfold sizeOfParts in *. rewrite Hblobs3.
    exact Hsize2. }
  split; [exact Hvideo|]. split.
  { rewrite Hurls. now apply elem_of_union_l, elem_of_singleton. }
  split.
  { unfold showsDownload. rewrite Hvideo, Hloading5, Hstate4, Hstate3, Hstate2.
    destruct (state w1) eqn:Hs1. cbn in Hready1 |- *. now rewrite Hready1. }
  split; [|exact Hempty].
  unfold recordingControl in Hctl5, Hctl4.
  injection Hctl5 as _ _ _ ->. now rewrite Hstate4.
Qed.

Lemma recording_yields_artifact_witness :
  ∃ w' url,
    run (ClickStartRecording recorderWorks :: map DataAvailable [5; 0]%N
         ++ [ClickStopRecording; DataAvailable 3; Stopped (Resolved tt)])
      (mountedWorld chromium)
    = Some w'
    ∧ videoSize (state w') = Some (foldr N.add 0 [5; 0] + 3)%N
    ∧ videoUrl (state w') = Some url
    ∧ url ∈ objectUrls (browser w')
    ∧ showsDownload (state w') = true
    ∧ isRecording (state w') = false
    ∧ recordedChunks (refs w') = [].
Proof.
  apply (recording_yields_artifact [5; 0]%N 3%N (mountedWorld chromium));
    [reflexivity | reflexivity | cbn [length]; lia].
Defined.

End Composition.
